(** * simplebench: the statistics engine, the stats codec and the worker
      protocol of package [bench] (src/bench.go)

    The development is a shallow embedding.  Go values are Rocq values:
    - [int] is a 64-bit two's complement integer, kept as a [Z] with the
      wrap-around written out ([GoInt.wrap]);
    - [float64] is IEEE 754 binary64, kept as a [spec_float] and computed
      with the rounding functions of [SpecFloat] at precision 53;
    - [string] is a sequence of bytes ([String.string]);
    - a Go function that can return an error or panic returns a [result];
    - the goroutines of [Run] are an interleaving of atomic steps on the
      shared [Tester].

    The first part models what the package takes from the Go standard
    library ([strconv], [strings], [bufio], [sort], [math], [fmt]); the second
    part is the package itself, function by function; the theorems follow. *)

From Stdlib Require Import ZArith List String Ascii Bool Lia.
From Stdlib Require Import Permutation Sorted.
From Stdlib Require Import Floats.SpecFloat.
From Stdlib Require Import Numbers.DecimalString Numbers.DecimalZ Numbers.DecimalPos
  Numbers.DecimalN Numbers.DecimalFacts.
Import ListNotations.
Local Open Scope string_scope.
Local Open Scope Z_scope.

(* ================================================================= *)
(** ** Go's [int] *)

Module GoInt.

Definition min_int : Z := - 2 ^ 63.
Definition max_int : Z := 2 ^ 63 - 1.

Definition in_range (x : Z) : Prop := min_int <= x <= max_int.

(** Reduction of a mathematical integer to its 64-bit representative. *)
Definition wrap (x : Z) : Z := (x + 2 ^ 63) mod 2 ^ 64 - 2 ^ 63.

Definition add (a b : Z) : Z := wrap (a + b).
Definition sub (a b : Z) : Z := wrap (a - b).

(** [x++] *)
Definition incr (x : Z) : Z := add x 1.

End GoInt.

(* ================================================================= *)
(** ** Go's [float64] and the functions of [math] used by the package *)

Module F64.

Definition prec : Z := 53.
Definition emax : Z := 1024.

Definition float64 : Type := spec_float.

Definition add : float64 -> float64 -> float64 := SFadd prec emax.
Definition sub : float64 -> float64 -> float64 := SFsub prec emax.
Definition mul : float64 -> float64 -> float64 := SFmul prec emax.
Definition div : float64 -> float64 -> float64 := SFdiv prec emax.

(** [x < y]; false as soon as one side is NaN. *)
Definition ltb : float64 -> float64 -> bool := SFltb.
Definition leb : float64 -> float64 -> bool := SFleb.

Definition is_nan (x : float64) : bool :=
  match x with S754_nan => true | _ => false end.

Definition is_finite (x : float64) : bool :=
  match x with S754_zero _ | S754_finite _ _ _ => true | _ => false end.

(** A [spec_float] that is the representation of a binary64 number. *)
Definition valid (x : float64) : bool := valid_binary prec emax x.

Definition zero : float64 := S754_zero false.

(** The conversion [float64(n)] of an integer: round to nearest, ties to
    even. *)
Definition of_int (n : Z) : float64 := binary_normalize prec emax n 0 false.

(** The float64 nearest to the rational [num / den] ([num], [den] > 0):
    the value a decimal constant of the source denotes. *)
Definition of_ratio (num den : positive) : float64 :=
  div (S754_finite false num 0) (S754_finite false den 0).

(** The constants [0.5], [0.9], [0.99] and [1000000.0] of the source. *)
Definition c0_5 : float64 := of_ratio 5 10.
Definition c0_9 : float64 := of_ratio 9 10.
Definition c0_99 : float64 := of_ratio 99 100.
Definition c1e6 : float64 := of_int 1000000.
Definition one : float64 := of_int 1.

(** The integer nearest to [m * 2^e] ([e < 0]), halfway cases away from
    zero. *)
Definition round_half_away (m : positive) (e : Z) : Z :=
  (Zpos m + 2 ^ (- e - 1)) / 2 ^ (- e).

(** [math.Round]: nearest integer, halfway cases away from zero; zeros,
    infinities and NaN are returned unchanged, and so is every number whose
    exponent leaves no fractional bit. *)
Definition Round (x : float64) : float64 :=
  match x with
  | S754_finite s m e =>
      if 0 <=? e then x
      else binary_normalize prec emax (cond_Zopp s (round_half_away m e)) 0 s
  | _ => x
  end.

(** The conversion [int(x)]: the fractional part is discarded.  (Go leaves
    the result open when the value does not fit an int, or is NaN; the
    package only converts results of [math.Round] on a length.) *)
Definition to_int (x : float64) : Z :=
  match x with
  | S754_finite s m e =>
      cond_Zopp s (if 0 <=? e then Zpos m * 2 ^ e else Zpos m / 2 ^ (- e))
  | _ => 0
  end.

End F64.

(* ================================================================= *)
(** ** Errors and results *)

Inductive numerr : Type :=
| ErrSyntax   (* strconv.ErrSyntax *)
| ErrRange.   (* strconv.ErrRange *)

Inductive error : Type :=
(* the package's own error values *)
| ErrNoArgs
| ErrNoURL
| ErrTimeNotRecorded
| ErrValueCannotBeNil
(* [errors.New("expected run or cmp subcommands")] *)
| ErrSubcommand
(* [fmt.Errorf("invalid URL %q", u)] *)
| ErrInvalidURL (u : string)
(* [fmt.Errorf("%d is invalid number of requests", n)] *)
| ErrInvalidRequests (n : Z)
(* [*strconv.NumError] *)
| NumError (fn : string) (num : string) (kind : numerr)
(* [bufio.ErrTooLong] *)
| ErrTooLong
(* errors of the operating system and of the other libraries *)
| ErrExternal (msg : string).

(** What a call of a Go function comes to: it returns a value, returns an
    error, or panics. *)
Inductive result (A : Type) : Type :=
| Ok (a : A)
| Err (e : error)
| Panic (msg : string).

Arguments Ok {A} a.
Arguments Err {A} e.
Arguments Panic {A} msg.

Definition bind {A B : Type} (r : result A) (k : A -> result B) : result B :=
  match r with
  | Ok a => k a
  | Err e => Err e
  | Panic msg => Panic msg
  end.

Notation "x <- r ;; k" := (bind r (fun x => k))
  (at level 61, r at next level, right associativity).

(** [xs[i]] on a slice: a run-time panic outside [0, len). *)
Definition index {A : Type} (xs : list A) (i : Z) : result A :=
  if (i <? 0) || (Z.of_nat (List.length xs) <=? i) then
    Panic "index out of range"
  else
    match nth_error xs (Z.to_nat i) with
    | Some x => Ok x
    | None => Panic "index out of range"
    end.

(* ================================================================= *)
(** ** Bytes and strings *)

Module Bytes.

Definition code (c : ascii) : Z := Z.of_N (N_of_ascii c).

Definition eqb (a b : ascii) : bool := Ascii.eqb a b.

Definition is_digit (c : ascii) : bool := (48 <=? code c) && (code c <=? 57).

Definition digit_val (c : ascii) : Z := code c - 48.

(** [lower(c)] of package strconv: [c | ('x' ^ 'X')]. *)
Definition lower (c : ascii) : Z := Z.lor (code c) 32.

Definition is_hex_letter (c : ascii) : bool :=
  (97 <=? lower c) && (lower c <=? 102).

Definition hex_letter_val (c : ascii) : Z := lower c - 97 + 10.

Definition LF : ascii := "010"%char.
Definition CR : ascii := "013"%char.
Definition comma : ascii := ","%char.

Definition len (s : string) : Z := Z.of_nat (String.length s).

(** [s ++ c]. *)
Definition snoc (s : string) (c : ascii) : string := s ++ String c "".

Fixpoint contains (c : ascii) (s : string) : bool :=
  match s with
  | "" => false
  | String a r => eqb a c || contains c r
  end.

Fixpoint last_is (c : ascii) (s : string) : bool :=
  match s with
  | "" => false
  | String a "" => eqb a c
  | String _ r => last_is c r
  end.

Fixpoint map_lower (s : string) : list Z :=
  match s with
  | "" => []
  | String a r => lower a :: map_lower r
  end.

End Bytes.

(* ================================================================= *)
(** ** Package strings *)

Module strings.

Fixpoint Split_from (s : string) (cur : string) : list string :=
  match s with
  | "" => [cur]
  | String c r =>
      if Bytes.eqb c Bytes.comma then cur :: Split_from r ""
      else Split_from r (Bytes.snoc cur c)
  end.

(** [strings.Split(s, ",")]: the fields between the commas; one more field
    than there are commas. *)
Definition Split (s : string) : list string := Split_from s "".

End strings.

(* ================================================================= *)
(** ** Package strconv and the verbs of package fmt *)

Module strconv.

Definition maxUint64 : Z := 2 ^ 64 - 1.

(** The digit loop of [ParseUint] in base 10: left to right, it stops at
    the first byte that is not a digit and at the first overflow of a
    uint64. *)
Fixpoint ParseUint_from (s : string) (n : Z) : numerr + Z :=
  match s with
  | "" => inr n
  | String c r =>
      if Bytes.is_digit c then
        let n1 := n * 10 + Bytes.digit_val c in
        if maxUint64 <? n1 then inl ErrRange else ParseUint_from r n1
      else inl ErrSyntax
  end.

(** [strconv.Atoi]: an optional sign, then one decimal digit or more;
    the value has to fit an int. *)
Definition Atoi (s : string) : result Z :=
  let '(neg, body) :=
    match s with
    | String "+" r => (false, r)
    | String "-" r => (true, r)
    | _ => (false, s)
    end in
  match body with
  | "" => Err (NumError "Atoi" s ErrSyntax)
  | _ =>
      match ParseUint_from body 0 with
      | inl k => Err (NumError "Atoi" s k)
      | inr un =>
          if neg then
            if 2 ^ 63 <? un then Err (NumError "Atoi" s ErrRange)
            else Ok (- un)
          else
            if 2 ^ 63 <=? un then Err (NumError "Atoi" s ErrRange)
            else Ok un
      end
  end.

(** The verb [%d] on an int. *)
Definition FormatInt (n : Z) : string := NilZero.string_of_int (Z.to_int n).

(** *** Formatting a float64 with [%.3f] *)

(** The integer nearest to [a / b] ([b > 0]), halfway cases to even. *)
Definition round_half_even (a b : Z) : Z :=
  let q := a / b in
  let r := a mod b in
  if 2 * r <? b then q
  else if b <? 2 * r then q + 1
  else if Z.even q then q else q + 1.

(** The number of thousandths in [m * 2^e], rounded to nearest even. *)
Definition thousandths (m : positive) (e : Z) : Z :=
  if 0 <=? e then Zpos m * 2 ^ e * 1000
  else round_half_even (Zpos m * 1000) (2 ^ (- e)).

Definition digits_of (n : Z) : string :=
  NilZero.string_of_uint (N.to_uint (Z.to_N n)).

(** Three decimal digits, zero padded. *)
Definition pad3 (n : Z) : string :=
  digits_of (n / 100) ++ digits_of (n / 10 mod 10) ++ digits_of (n mod 10).

(** The verb [%.3f]: sign, integer part, point, three decimals of the
    exact value rounded half to even. *)
Definition FormatFloat3 (x : F64.float64) : string :=
  match x with
  | S754_nan => "NaN"
  | S754_infinity false => "+Inf"
  | S754_infinity true => "-Inf"
  | S754_zero s => (if s then "-" else "") ++ "0.000"
  | S754_finite s m e =>
      let n := thousandths m e in
      (if s then "-" else "") ++ digits_of (n / 1000) ++ "." ++ pad3 (n mod 1000)
  end.

(** *** Parsing a float64 *)

(** State of the mantissa loop of [readFloat]: the digits read so far as
    an integer, how many of them came after the point, and what was seen. *)
Record mantissa : Type := {
  mant : Z;
  nfrac : Z;
  sawdot : bool;
  sawdigits : bool;
  underscores : bool
}.

Definition mantissa0 : mantissa :=
  {| mant := 0; nfrac := 0; sawdot := false; sawdigits := false;
     underscores := false |}.

Definition push_digit (base v : Z) (st : mantissa) : mantissa :=
  {| mant := mant st * base + v;
     nfrac := if sawdot st then nfrac st + 1 else nfrac st;
     sawdot := sawdot st; sawdigits := true;
     underscores := underscores st |}.

Fixpoint readMantissa (hex : bool) (s : string) (st : mantissa)
  : mantissa * string :=
  match s with
  | "" => (st, "")
  | String c r =>
      if Bytes.eqb c "_" then
        readMantissa hex r
          {| mant := mant st; nfrac := nfrac st; sawdot := sawdot st;
             sawdigits := sawdigits st; underscores := true |}
      else if Bytes.eqb c "." then
        if sawdot st then (st, s)
        else readMantissa hex r
               {| mant := mant st; nfrac := nfrac st; sawdot := true;
                  sawdigits := sawdigits st; underscores := underscores st |}
      else if Bytes.is_digit c then
        readMantissa hex r
          (push_digit (if hex then 16 else 10) (Bytes.digit_val c) st)
      else if hex && Bytes.is_hex_letter c then
        readMantissa hex r (push_digit 16 (Bytes.hex_letter_val c) st)
      else (st, s)
  end.

(** The digits of the exponent; the count stops growing at 10000. *)
Fixpoint readExpDigits (s : string) (e : Z) (us : bool) : Z * bool * string :=
  match s with
  | "" => (e, us, "")
  | String c r =>
      if Bytes.is_digit c then
        readExpDigits r (if e <? 10000 then e * 10 + Bytes.digit_val c else e) us
      else if Bytes.eqb c "_" then readExpDigits r e true
      else (e, us, s)
  end.

(** The optional exponent part: [None] when it is malformed, otherwise the
    signed exponent, whether an underscore was read, and the rest. *)
Definition readExponent (hex : bool) (s : string) : option (Z * bool * string) :=
  match s with
  | String c r =>
      if Bytes.lower c =? (if hex then 112 else 101) then
        let '(esign, r1) :=
          match r with
          | String "+" r' => (1, r')
          | String "-" r' => (-1, r')
          | _ => (1, r)
          end in
        match r1 with
        | String d _ =>
            if Bytes.is_digit d then
              let '(e, us, rest) := readExpDigits r1 0 false in
              Some (e * esign, us, rest)
            else None
        | "" => None
        end
      else if hex then None else Some (0, false, s)
  | "" => if hex then None else Some (0, false, s)
  end.

Inductive saw : Type := SawStart | SawDigit | SawUnderscore | SawOther.

Fixpoint underscoreOK_from (hex : bool) (s : string) (last : saw) : bool :=
  match s with
  | "" => match last with SawUnderscore => false | _ => true end
  | String c r =>
      if Bytes.is_digit c || (hex && Bytes.is_hex_letter c) then
        underscoreOK_from hex r SawDigit
      else if Bytes.eqb c "_" then
        match last with
        | SawDigit => underscoreOK_from hex r SawUnderscore
        | _ => false
        end
      else
        match last with
        | SawUnderscore => false
        | _ => underscoreOK_from hex r SawOther
        end
  end.

Definition strip_sign (s : string) : bool * string :=
  match s with
  | String "+" r => (false, r)
  | String "-" r => (true, r)
  | _ => (false, s)
  end.

(** [underscoreOK]: an underscore only between two digits, or between a
    base prefix and a digit. *)
Definition underscoreOK (s : string) : bool :=
  let body := snd (strip_sign s) in
  match body with
  | String "0" (String x r) =>
      if (Bytes.lower x =? 98) || (Bytes.lower x =? 111) || (Bytes.lower x =? 120)
      then underscoreOK_from (Bytes.lower x =? 120) r SawDigit
      else underscoreOK_from false body SawStart
  | _ => underscoreOK_from false body SawStart
  end.

(** The special values: [inf] and [infinity] with an optional sign, [nan]
    without one, in any letter case. *)
Definition special (s : string) : option F64.float64 :=
  let '(neg, body) := strip_sign s in
  let signed := match s with String "+" _ | String "-" _ => true | _ => false end in
  let l := Bytes.map_lower body in
  if list_eq_dec Z.eq_dec l [105; 110; 102] then Some (S754_infinity neg)
  else if list_eq_dec Z.eq_dec l [105; 110; 102; 105; 110; 105; 116; 121]
  then Some (S754_infinity neg)
  else if negb signed && if list_eq_dec Z.eq_dec l [110; 97; 110] then true else false
  then Some S754_nan
  else None.

(** The float64 nearest to [m * 10^e10] ([m > 0]). *)
Definition decimal_value (neg : bool) (m : positive) (e10 : Z) : F64.float64 :=
  if 0 <=? e10 then
    binary_normalize F64.prec F64.emax (cond_Zopp neg (Zpos m * 10 ^ e10)) 0 neg
  else
    F64.div (S754_finite neg m 0) (S754_finite false (Z.to_pos (10 ^ (- e10))) 0).

(** The float64 nearest to [m * 2^e2] ([m > 0]). *)
Definition binary_value (neg : bool) (m : positive) (e2 : Z) : F64.float64 :=
  binary_normalize F64.prec F64.emax (cond_Zopp neg (Zpos m)) e2 neg.

(** [strconv.ParseFloat(s, 64)]: decimal and hexadecimal floating-point
    literals and the special values; the nearest float64 is returned; a
    literal too large for a float64 is a range error. *)
Definition ParseFloat (s : string) : result F64.float64 :=
  let syntax := Err (NumError "ParseFloat" s ErrSyntax) in
  match special s with
  | Some v => Ok v
  | None =>
      let '(neg, body) := strip_sign s in
      let '(hex, digits) :=
        match body with
        | String "0" (String x (String c r)) =>
            if Bytes.lower x =? 120 then (true, String c r) else (false, body)
        | _ => (false, body)
        end in
      let '(st, rest) := readMantissa hex digits mantissa0 in
      if negb (sawdigits st) then syntax
      else
        match readExponent hex rest with
        | None => syntax
        | Some (e, us, rest') =>
            match rest' with
            | String _ _ => syntax
            | "" =>
                if (underscores st || us) && negb (underscoreOK s) then syntax
                else
                  match mant st with
                  | Zpos m =>
                      let v :=
                        if hex then binary_value neg m (e - 4 * nfrac st)
                        else decimal_value neg m (e - nfrac st) in
                      match v with
                      | S754_infinity _ => Err (NumError "ParseFloat" s ErrRange)
                      | _ => Ok v
                      end
                  | _ => Ok (S754_zero neg)
                  end
            end
        end
  end.

End strconv.

(* ================================================================= *)
(** ** Package bufio: a Scanner with the default split function *)

Module bufio.

Definition MaxScanTokenSize : Z := 64 * 1024.

(** [dropCR]: one trailing carriage return is removed. *)
Fixpoint dropCR (s : string) : string :=
  match s with
  | "" => ""
  | String c "" => if Bytes.eqb c Bytes.CR then "" else s
  | String c r => String c (dropCR r)
  end.

(** The lines [Scan] delivers, in order, and the error [Err] reports at
    the end.  [line] is the part of the current line read so far and [n]
    its length: a line whose end is not found within the buffer stops the
    scan with [ErrTooLong]. *)
Fixpoint ScanLines_from (data : string) (line : string) (n : Z)
  : list string * option error :=
  match data with
  | "" => (if n =? 0 then [] else [dropCR line], None)
  | String c r =>
      if Bytes.eqb c Bytes.LF then
        let '(ls, e) := ScanLines_from r "" 0 in
        (dropCR line :: ls, e)
      else if MaxScanTokenSize <=? n + 1 then ([], Some ErrTooLong)
      else ScanLines_from r (Bytes.snoc line c) (n + 1)
  end.

Definition ScanLines (data : string) : list string * option error :=
  ScanLines_from data "" 0.

End bufio.

(* ================================================================= *)
(** ** Package sort *)

Module sort.

Section Slice.
Context {A : Type}.
Variable less : A -> A -> bool.

Fixpoint insert (x : A) (l : list A) : list A :=
  match l with
  | [] => [x]
  | y :: r => if less y x then y :: insert x r else x :: l
  end.

(** [sort.Slice(xs, less)]: the elements of [xs] in an order in which no
    element is [less] than one before it. *)
Fixpoint Slice (xs : list A) : list A :=
  match xs with
  | [] => []
  | x :: r => insert x (Slice r)
  end.
End Slice.

End sort.

(* ================================================================= *)
(** ** What the package sees of the outside world *)

(** [io.Writer] used as a byte sink (a file, a buffer): the bytes written
    so far; when [fail] is set every write returns that error and writes
    nothing. *)
Module io.
Record Writer : Type := { data : string; fail : option error }.

Definition empty : Writer := {| data := ""; fail := None |}.

Definition Write (w : Writer) (s : string) : Writer * option error :=
  match fail w with
  | Some e => (w, Some e)
  | None => ({| data := data w ++ s; fail := None |}, None)
  end.
End io.

(** [io.Writer] used for the messages of the tester: what was printed, kept
    as the calls of [fmt.Fprint] and [fmt.Fprintf] with their operands. *)
Module log.
Inductive arg : Type :=
| AString (s : string)
| AInt (n : Z)
| AFloat (x : F64.float64)
| ADuration (ns : Z).

Inductive printed : Type :=
| Fprint (msg : string)
| Fprintf (format : string) (args : list arg).

Definition Writer : Type := list printed.
End log.

(** [net/url]: of a parsed URL the package reads the host and prints the
    text. *)
Module url.
Record URL : Type := { Host : string; text : string }.
End url.

(** Files: the content of each readable path. *)
Module os.
Definition FS : Type := string -> option string.


Definition put (fs : FS) (path content : string) : FS :=
  fun p => if String.eqb p path then Some content else fs p.
End os.

(** What answers one iteration of the worker loop: building the request
    fails, the exchange fails, or a response with a status code comes back
    after [elapsed] nanoseconds. *)
Inductive call : Type :=
| NewRequestFails (msg : string)
| DoFails (msg : string)
| Responds (elapsed : Z) (status : Z).

(** The outcomes, during [Run], of the collaborators outside the package:
    rendering both graphs, creating the stats file, the clock. *)
Record RunEnv : Type := {
  boxplot_png : result string;     (* the rendered box plot, or why not *)
  histogram_png : result string;   (* the rendered histogram, or why not *)
  create_err : option error;       (* os.Create on the stats file *)
  write_err : option error;        (* writing to the stats file *)
  elapsed_total : Z                (* time.Since(t.startAt), nanoseconds *)
}.

(** The values of the command-line flags after [fs.Parse]. *)
Record Flags : Type := {
  flag_r : Z;
  flag_g : bool;
  flag_s : bool;
  flag_c : Z;
  flag_u : string
}.

(* ================================================================= *)
(** ** Package bench: data *)

Module Stats.
Record t : Type := mk {
  URL : string;
  Mean : F64.float64;
  P50 : F64.float64;
  P90 : F64.float64;
  P99 : F64.float64;
  Failures : Z;
  Requests : Z;
  Successes : Z
}.

(** [Stats{}] *)
Definition zero : t :=
  mk "" F64.zero F64.zero F64.zero F64.zero 0 0 0.
End Stats.

Module StatsDelta.
Record t : Type := mk {
  P50 : F64.float64;
  P90 : F64.float64;
  P99 : F64.float64;
  Requests : Z;
  Failures : Z;
  Successes : Z
}.

(** [StatsDelta{}] *)
Definition zero : t := mk F64.zero F64.zero F64.zero 0 0 0.
End StatsDelta.

(** [http.Client]: its timeout, in nanoseconds. *)
Record Client : Type := { Timeout : Z }.

(** The tester.  The wait group, the two mutexes and the work channel have
    no field here: they are the scheduling of [Step] below.  [TimeRecorder]
    is the slice [TimeRecorder.ExecutionsTime]. *)
Module Tester.
Record t : Type := mk {
  Concurrency : Z;
  client : Client;
  EndAt : Z;
  ExportStats : bool;
  Graphs : bool;
  OutputPath : string;
  requests : Z;
  stdout : log.Writer;
  stderr : log.Writer;
  URL : string;
  userAgent : string;
  stats : Stats.t;
  TimeRecorder : list F64.float64
}.

Definition with_stats (s : Stats.t) (x : t) : t :=
  mk (Concurrency x) (client x) (EndAt x) (ExportStats x) (Graphs x)
     (OutputPath x) (requests x) (stdout x) (stderr x) (URL x) (userAgent x)
     s (TimeRecorder x).

Definition with_times (ts : list F64.float64) (x : t) : t :=
  mk (Concurrency x) (client x) (EndAt x) (ExportStats x) (Graphs x)
     (OutputPath x) (requests x) (stdout x) (stderr x) (URL x) (userAgent x)
     (stats x) ts.

Definition with_stdout (w : log.Writer) (x : t) : t :=
  mk (Concurrency x) (client x) (EndAt x) (ExportStats x) (Graphs x)
     (OutputPath x) (requests x) w (stderr x) (URL x) (userAgent x)
     (stats x) (TimeRecorder x).

Definition with_stderr (w : log.Writer) (x : t) : t :=
  mk (Concurrency x) (client x) (EndAt x) (ExportStats x) (Graphs x)
     (OutputPath x) (requests x) (stdout x) w (URL x) (userAgent x)
     (stats x) (TimeRecorder x).

Definition with_EndAt (d : Z) (x : t) : t :=
  mk (Concurrency x) (client x) d (ExportStats x) (Graphs x)
     (OutputPath x) (requests x) (stdout x) (stderr x) (URL x) (userAgent x)
     (stats x) (TimeRecorder x).

Definition with_Concurrency (c : Z) (x : t) : t :=
  mk c (client x) (EndAt x) (ExportStats x) (Graphs x)
     (OutputPath x) (requests x) (stdout x) (stderr x) (URL x) (userAgent x)
     (stats x) (TimeRecorder x).

Definition with_client (c : Client) (x : t) : t :=
  mk (Concurrency x) c (EndAt x) (ExportStats x) (Graphs x)
     (OutputPath x) (requests x) (stdout x) (stderr x) (URL x) (userAgent x)
     (stats x) (TimeRecorder x).

Definition with_ExportStats (b : bool) (x : t) : t :=
  mk (Concurrency x) (client x) (EndAt x) b (Graphs x)
     (OutputPath x) (requests x) (stdout x) (stderr x) (URL x) (userAgent x)
     (stats x) (TimeRecorder x).

Definition with_Graphs (b : bool) (x : t) : t :=
  mk (Concurrency x) (client x) (EndAt x) (ExportStats x) b
     (OutputPath x) (requests x) (stdout x) (stderr x) (URL x) (userAgent x)
     (stats x) (TimeRecorder x).

Definition with_OutputPath (p : string) (x : t) : t :=
  mk (Concurrency x) (client x) (EndAt x) (ExportStats x) (Graphs x)
     p (requests x) (stdout x) (stderr x) (URL x) (userAgent x)
     (stats x) (TimeRecorder x).

Definition with_requests (n : Z) (x : t) : t :=
  mk (Concurrency x) (client x) (EndAt x) (ExportStats x) (Graphs x)
     (OutputPath x) n (stdout x) (stderr x) (URL x) (userAgent x)
     (stats x) (TimeRecorder x).

Definition with_URL (u : string) (x : t) : t :=
  mk (Concurrency x) (client x) (EndAt x) (ExportStats x) (Graphs x)
     (OutputPath x) (requests x) (stdout x) (stderr x) u (userAgent x)
     (stats x) (TimeRecorder x).

Definition with_userAgent (a : string) (x : t) : t :=
  mk (Concurrency x) (client x) (EndAt x) (ExportStats x) (Graphs x)
     (OutputPath x) (requests x) (stdout x) (stderr x) (URL x) a
     (stats x) (TimeRecorder x).
End Tester.

(* ================================================================= *)
(** ** Package bench: construction *)

Definition DefaultConcurrency : Z := 1.
Definition DefaultNumRequests : Z := 1.
Definition DefaultOutputPath : string := "./".
Definition DefaultUserAgent : string := "Bench 0.0.1 Alpha".
Definition DefaultHTTPClient : Client := {| Timeout := 5 * 1000000000 |}.

(** The type [Option] of the functions that take the tester and return an
    error: the tester after the call, or the error. *)
Definition Option : Type := Tester.t -> result Tester.t.

Definition WithRequests (reqs : Z) : Option :=
  fun t => Ok (Tester.with_requests reqs t).

Definition WithHTTPUserAgent (userAgent : string) : Option :=
  fun t => Ok (Tester.with_userAgent userAgent t).

Definition WithHTTPClient (client : Client) : Option :=
  fun t => Ok (Tester.with_client client t).

(** The writer is [None] for a nil [io.Writer]. *)
Definition WithStdout (w : option log.Writer) : Option :=
  fun t =>
    match w with
    | None => Err ErrValueCannotBeNil
    | Some w => Ok (Tester.with_stdout w t)
    end.

Definition WithStderr (w : option log.Writer) : Option :=
  fun lg =>
    match w with
    | None => Err ErrValueCannotBeNil
    | Some w => Ok (Tester.with_stderr w lg)
    end.

Definition WithConcurrency (c : Z) : Option :=
  fun lg => Ok (Tester.with_Concurrency c lg).

Definition WithURL (URL : string) : Option :=
  fun t => Ok (Tester.with_URL URL t).

Definition WithOutputPath (outputPath : string) : Option :=
  fun t => Ok (Tester.with_OutputPath outputPath t).

Definition WithGraphs (graphs : bool) : Option :=
  fun t => Ok (Tester.with_Graphs graphs t).

Definition WithExportStats (exportStats : bool) : Option :=
  fun t => Ok (Tester.with_ExportStats exportStats t).

(** The tester [NewTester] starts from. *)
Definition default_tester : Tester.t :=
  Tester.mk DefaultConcurrency DefaultHTTPClient 0 false false
    DefaultOutputPath DefaultNumRequests [] [] "" DefaultUserAgent
    Stats.zero [].

(** The loop [for _, o := range opts] of [NewTester]. *)
Fixpoint apply_options (opts : list Option) (tester : Tester.t)
  : result Tester.t :=
  match opts with
  | [] => Ok tester
  | o :: rest => tester' <- o tester ;; apply_options rest tester'
  end.

Section Construction.

(** [url.Parse] and the parsing of package flag are taken as they are. *)
Variable url_Parse : string -> result url.URL.
Variable flag_Parse : list string -> Flags.

Definition FromArgs (args : list string) : Option :=
  fun t =>
    match args with
    | [] => Err ErrNoArgs
    | sub :: rest =>
        if String.eqb sub "run" then
          let f := flag_Parse rest in
          Ok (Tester.with_ExportStats (flag_s f)
               (Tester.with_Concurrency (flag_c f)
                 (Tester.with_Graphs (flag_g f)
                   (Tester.with_requests (flag_r f)
                     (Tester.with_URL (flag_u f) t)))))
        else Err ErrSubcommand
    end.

Definition NewTester (opts : list Option) : result Tester.t :=
  tester <- apply_options opts default_tester ;;
  if String.eqb (Tester.URL tester) "" then Err ErrNoURL
  else
    u <- url_Parse (Tester.URL tester) ;;
    if String.eqb (url.Host u) "" then Err (ErrInvalidURL (url.text u))
    else if Tester.requests tester <? 1 then
      Err (ErrInvalidRequests (Tester.requests tester))
    else Ok tester.

End Construction.

(** [url.Parse] on the URLs of the package's tests, to run examples. *)
Definition url_Parse_tests (s : string) : result url.URL :=
  if String.eqb s "http://fake.url" then
    Ok {| url.Host := "fake.url"; url.text := s |}
  else if String.eqb s "bogus-no-scheme-or-domain" then
    Ok {| url.Host := ""; url.text := s |}
  else if String.eqb s "bogus-no-host://" then
    Ok {| url.Host := ""; url.text := s |}
  else if String.eqb s "bogus-no-scheme.fake" then
    Ok {| url.Host := ""; url.text := s |}
  else Err (ErrExternal "parse").

(** The flags of the argument lists of the package's tests. *)
Definition flag_Parse_tests (args : list string) : Flags :=
  match args with
  | ["-c"; "10"; "-u"; u] =>
      {| flag_r := 1; flag_g := false; flag_s := false; flag_c := 10; flag_u := u |}
  | ["-r"; "10"; "-u"; u] =>
      {| flag_r := 10; flag_g := false; flag_s := false; flag_c := 1; flag_u := u |}
  | ["-r"; "10"] =>
      {| flag_r := 10; flag_g := false; flag_s := false; flag_c := 1; flag_u := "" |}
  | ["-g"; "-u"; u] =>
      {| flag_r := 1; flag_g := true; flag_s := false; flag_c := 1; flag_u := u |}
  | ["-s"; "-u"; u] =>
      {| flag_r := 1; flag_g := false; flag_s := true; flag_c := 1; flag_u := u |}
  | ["-u"; u] =>
      {| flag_r := 1; flag_g := false; flag_s := false; flag_c := 1; flag_u := u |}
  | _ =>
      {| flag_r := 1; flag_g := false; flag_s := false; flag_c := 1; flag_u := "" |}
  end.

(* ================================================================= *)
(** ** Package bench: accessors, counters, recorder, messages *)

Definition HTTPUserAgent (t : Tester.t) : string := Tester.userAgent t.
Definition HTTPClient (t : Tester.t) : Client := Tester.client t.
Definition Requests (t : Tester.t) : Z := Tester.requests t.

Definition incr_Requests (s : Stats.t) : Stats.t :=
  Stats.mk (Stats.URL s) (Stats.Mean s) (Stats.P50 s) (Stats.P90 s) (Stats.P99 s)
    (Stats.Failures s) (GoInt.incr (Stats.Requests s)) (Stats.Successes s).

Definition incr_Successes (s : Stats.t) : Stats.t :=
  Stats.mk (Stats.URL s) (Stats.Mean s) (Stats.P50 s) (Stats.P90 s) (Stats.P99 s)
    (Stats.Failures s) (Stats.Requests s) (GoInt.incr (Stats.Successes s)).

Definition incr_Failures (s : Stats.t) : Stats.t :=
  Stats.mk (Stats.URL s) (Stats.Mean s) (Stats.P50 s) (Stats.P90 s) (Stats.P99 s)
    (GoInt.incr (Stats.Failures s)) (Stats.Requests s) (Stats.Successes s).

(** Each of the three runs under the tester's mutex: one atomic step. *)
Definition RecordRequest (t : Tester.t) : Tester.t :=
  Tester.with_stats (incr_Requests (Tester.stats t)) t.

Definition RecordSuccess (t : Tester.t) : Tester.t :=
  Tester.with_stats (incr_Successes (Tester.stats t)) t.

Definition RecordFailure (t : Tester.t) : Tester.t :=
  Tester.with_stats (incr_Failures (Tester.stats t)) t.

(** [TimeRecorder.RecordTime], under the recorder's mutex. *)
Definition RecordTime (executionTime : F64.float64) (t : Tester.t) : Tester.t :=
  Tester.with_times (Tester.TimeRecorder t ++ [executionTime])%list t.

Definition LogStdOut (msg : string) (t : Tester.t) : Tester.t :=
  Tester.with_stdout (Tester.stdout t ++ [log.Fprint msg])%list t.

Definition LogStdErr (msg : string) (t : Tester.t) : Tester.t :=
  Tester.with_stderr (Tester.stderr t ++ [log.Fprint msg])%list t.

Definition LogFStdOut (msg : string) (opts : list log.arg) (t : Tester.t) : Tester.t :=
  Tester.with_stdout (Tester.stdout t ++ [log.Fprintf msg opts])%list t.

Definition LogFStdErr (msg : string) (opts : list log.arg) (t : Tester.t) : Tester.t :=
  Tester.with_stderr (Tester.stderr t ++ [log.Fprintf msg opts])%list t.

Definition http_StatusOK : Z := 200.

(** [float64(elapsedTime.Nanoseconds()) / 1000000.0] *)
Definition milliseconds (elapsed : Z) : F64.float64 :=
  F64.div (F64.of_int elapsed) F64.c1e6.

(* ================================================================= *)
(** ** Package bench: the worker loop *)

(** [DoRequest] run by one worker alone: [calls] answers, in order, the
    iterations the worker makes for the tokens it receives; the list ends
    when the channel is closed. *)
Fixpoint DoRequest (calls : list call) (t : Tester.t) : Tester.t :=
  match calls with
  | [] => t
  | c :: rest =>
      let t := RecordRequest t in
      match c with
      | NewRequestFails msg => RecordFailure (LogStdErr msg t)
      | DoFails msg => LogStdErr msg (RecordFailure t)
      | Responds elapsed status =>
          let t := RecordTime (milliseconds elapsed) t in
          if negb (status =? http_StatusOK) then
            RecordFailure
              (LogFStdErr "unexpected status code %d\n" [log.AInt status] t)
          else DoRequest rest (RecordSuccess t)
      end
  end.

(** The same loop as the workers of [Run] execute it, one statement on the
    shared tester at a time.  A worker is at one of these points. *)
Inductive pc : Type :=
| Waiting                                      (* at [for range t.Work] *)
| Received                                     (* before [t.RecordRequest()] *)
| Calling                                      (* before the HTTP exchange *)
| NewRequestFailed (msg : string)              (* before [t.LogStdErr] *)
| NewRequestLogged                             (* before [t.RecordFailure()] *)
| DoFailed (msg : string)                      (* before [t.RecordFailure()] *)
| DoFailureRecorded (msg : string)             (* before [t.LogStdErr] *)
| Responded (elapsed : Z) (status : Z)         (* before [RecordTime] *)
| Timed (status : Z)                           (* before the status test *)
| BadStatusLogged                              (* before [t.RecordFailure()] *)
| Returned.                                    (* after [return], [wg.Done()] *)

(** What a step does. *)
Inductive act : Type :=
| ARecv                 (* a token is received *)
| AClosed               (* the channel is found closed *)
| AAttempt              (* RecordRequest *)
| AAnswer (c : call)    (* the exchange is over *)
| ALog                  (* a message on stderr *)
| ATime                 (* RecordTime *)
| AFailure              (* RecordFailure *)
| ASuccess.             (* RecordSuccess *)

(** One step of one worker on the shared tester; [n] is the number of
    tokens the producer still has to hand over (the channel is closed once
    they are all handed over). *)
Inductive wstep : Tester.t * Z * pc -> act -> Tester.t * Z * pc -> Prop :=
| w_recv t n :
    0 < n -> wstep (t, n, Waiting) ARecv (t, n - 1, Received)
| w_closed t n :
    n <= 0 -> wstep (t, n, Waiting) AClosed (t, n, Returned)
| w_attempt t n :
    wstep (t, n, Received) AAttempt (RecordRequest t, n, Calling)
| w_newrequest_fails t n msg :
    wstep (t, n, Calling) (AAnswer (NewRequestFails msg)) (t, n, NewRequestFailed msg)
| w_do_fails t n msg :
    wstep (t, n, Calling) (AAnswer (DoFails msg)) (t, n, DoFailed msg)
| w_responds t n elapsed status :
    wstep (t, n, Calling) (AAnswer (Responds elapsed status))
          (t, n, Responded elapsed status)
| w_newrequest_log t n msg :
    wstep (t, n, NewRequestFailed msg) ALog (LogStdErr msg t, n, NewRequestLogged)
| w_newrequest_failure t n :
    wstep (t, n, NewRequestLogged) AFailure (RecordFailure t, n, Returned)
| w_do_failure t n msg :
    wstep (t, n, DoFailed msg) AFailure (RecordFailure t, n, DoFailureRecorded msg)
| w_do_log t n msg :
    wstep (t, n, DoFailureRecorded msg) ALog (LogStdErr msg t, n, Returned)
| w_time t n elapsed status :
    wstep (t, n, Responded elapsed status) ATime
          (RecordTime (milliseconds elapsed) t, n, Timed status)
| w_bad_status t n status :
    status <> http_StatusOK ->
    wstep (t, n, Timed status) ALog
          (LogFStdErr "unexpected status code %d\n" [log.AInt status] t, n,
           BadStatusLogged)
| w_bad_status_failure t n :
    wstep (t, n, BadStatusLogged) AFailure (RecordFailure t, n, Returned)
| w_success t n :
    wstep (t, n, Timed http_StatusOK) ASuccess (RecordSuccess t, n, Waiting).

(** The tester, the tokens still to hand over, and the workers. *)
Record pool : Type := {
  shared : Tester.t;
  tokens : Z;
  workers : list pc
}.

(** One step of the pool: worker number [i] makes a step. *)
Inductive Step : pool -> nat * act -> pool -> Prop :=
| Step_worker t n before p after a t' n' p' :
    wstep (t, n, p) a (t', n', p') ->
    Step {| shared := t; tokens := n; workers := (before ++ p :: after)%list |}
         (List.length before, a)
         {| shared := t'; tokens := n'; workers := (before ++ p' :: after)%list |}.

Inductive Steps : pool -> list (nat * act) -> pool -> Prop :=
| Steps_nil s : Steps s [] s
| Steps_cons s l s' tr s'' :
    Step s l s' -> Steps s' tr s'' -> Steps s (l :: tr) s''.

(** [Run] starts [Concurrency] workers on [requests] tokens. *)
Definition start (t : Tester.t) : pool :=
  {| shared := t;
     tokens := Tester.requests t;
     workers := repeat Waiting (Z.to_nat (Tester.Concurrency t)) |}.

(** [wg.Wait()] returns: every worker has returned. *)
Definition finished (s : pool) : Prop := Forall (eq Returned) (workers s).

(* ================================================================= *)
(** ** Package bench: the statistics *)

Definition len {A : Type} (xs : list A) : Z := Z.of_nat (List.length xs).

(** [int(math.Round(float64(n) * p)) - 1] *)
Definition percentile_index (n : Z) (p : F64.float64) : Z :=
  GoInt.sub (F64.to_int (F64.Round (F64.mul (F64.of_int n) p))) 1.

(** The loop that counts the samples and sums them, both in float64. *)
Definition count_and_total (times : list F64.float64) : F64.float64 * F64.float64 :=
  fold_left
    (fun acc v => (F64.add (fst acc) F64.one, F64.add (snd acc) v))
    times (F64.zero, F64.zero).

(** [SetMetrics] returns the error, or nil ([None]), and leaves the tester
    changed in place: [sort.Slice] sorts the recorder's own slice. *)
Definition SetMetrics (t : Tester.t) : result (Tester.t * option error) :=
  let times := Tester.TimeRecorder t in
  if len times <? 1 then Ok (t, Some ErrTimeNotRecorded)
  else
    let times := sort.Slice F64.ltb times in
    let p50Idx := percentile_index (len times) F64.c0_5 in
    p50 <- index times p50Idx ;;
    let p90Idx := percentile_index (len times) F64.c0_9 in
    p90 <- index times p90Idx ;;
    let p99Idx := percentile_index (len times) F64.c0_99 in
    p99 <- index times p99Idx ;;
    let '(nreq, totalTime) := count_and_total times in
    let st := Tester.stats t in
    Ok (Tester.with_stats
          (Stats.mk (Tester.URL t) (F64.div totalTime nreq) p50 p90 p99
             (Stats.Failures st) (Stats.Requests st) (Stats.Successes st))
          (Tester.with_times times t),
        None).

(* ================================================================= *)
(** ** Package bench: the stats codec *)

(** [fmt.Sprintf("%s,%d,%d,%d,%.3f,%.3f,%.3f", ...)] on the fields of the
    record. *)
Definition stats_line (stats : Stats.t) : string :=
  Stats.URL stats ++ "," ++
  strconv.FormatInt (Stats.Requests stats) ++ "," ++
  strconv.FormatInt (Stats.Successes stats) ++ "," ++
  strconv.FormatInt (Stats.Failures stats) ++ "," ++
  strconv.FormatFloat3 (Stats.P50 stats) ++ "," ++
  strconv.FormatFloat3 (Stats.P90 stats) ++ "," ++
  strconv.FormatFloat3 (Stats.P99 stats).

Definition WriteStatsFile (w : io.Writer) (stats : Stats.t) : io.Writer * option error :=
  io.Write w (stats_line stats).

(** The body of the loop of [ReadStatsFile] on one line. *)
Definition read_record (line : string) : result Stats.t :=
  let pos := strings.Split line in
  url <- index pos 0 ;;
  dataRequests <- index pos 1 ;;
  requests <- strconv.Atoi dataRequests ;;
  dataSuccesses <- index pos 2 ;;
  successes <- strconv.Atoi dataSuccesses ;;
  dataFailures <- index pos 3 ;;
  failures <- strconv.Atoi dataFailures ;;
  dataP50 <- index pos 4 ;;
  p50 <- strconv.ParseFloat dataP50 ;;
  dataP90 <- index pos 5 ;;
  p90 <- strconv.ParseFloat dataP90 ;;
  dataP99 <- index pos 6 ;;
  p99 <- strconv.ParseFloat dataP99 ;;
  Ok (Stats.mk url F64.zero p50 p90 p99 failures requests successes).

Fixpoint read_records (lines : list string) (stats : list Stats.t)
  : result (list Stats.t) :=
  match lines with
  | [] => Ok stats
  | line :: rest =>
      r <- read_record line ;;
      read_records rest (stats ++ [r])%list
  end.

(** [ReadStatsFile] on a reader that delivers the text [r]. *)
Definition ReadStatsFile (r : string) : result (list Stats.t) :=
  let '(lines, scanErr) := bufio.ScanLines r in
  stats <- read_records lines [] ;;
  match scanErr with
  | Some err => Err err
  | None => Ok stats
  end.

(* ================================================================= *)
(** ** Package bench: comparing *)

Definition CompareStats (stats1 stats2 : Stats.t) : StatsDelta.t :=
  StatsDelta.mk
    (F64.sub (Stats.P50 stats2) (Stats.P50 stats1))
    (F64.sub (Stats.P90 stats2) (Stats.P90 stats1))
    (F64.sub (Stats.P99 stats2) (Stats.P99 stats1))
    (GoInt.sub (Stats.Requests stats2) (Stats.Requests stats1))
    (GoInt.sub (Stats.Failures stats2) (Stats.Failures stats1))
    (GoInt.sub (Stats.Successes stats2) (Stats.Successes stats1)).


(* ================================================================= *)
(** ** Package bench: Run *)

(** [Duration.Round(m)] for [m > 0]: the nearest multiple of [m], halfway
    cases away from zero, saturating at the ends of int64. *)
Definition Duration_Round (d m : Z) : Z :=
  if m <=? 0 then d
  else
    let r := Z.rem d m in
    if d <? 0 then
      let r := - r in
      if r + r <? m then d + r
      else if d - m + r <? d then
        (if d - m + r <? GoInt.min_int then GoInt.min_int else d - m + r)
      else GoInt.min_int
    else
      if r + r <? m then d - r
      else if GoInt.max_int <? d + m - r then GoInt.max_int else d + m - r.

Definition time_Millisecond : Z := 1000000.

(** [Boxplot] and [Histogram]: the image is the work of the plot library;
    the package saves it under the output path. *)
Definition Boxplot (env : RunEnv) (fs : os.FS) (t : Tester.t) : result os.FS :=
  png <- boxplot_png env ;;
  Ok (os.put fs (Tester.OutputPath t ++ "/" ++ "boxplot.png") png).

Definition Histogram (env : RunEnv) (fs : os.FS) (t : Tester.t) : result os.FS :=
  png <- histogram_png env ;;
  Ok (os.put fs (Tester.OutputPath t ++ "/" ++ "histogram.png") png).

(** The statements of [Run] after [wg.Wait()]: the tester and the files
    they leave, and the error [Run] returns. *)
Definition after_Wait (env : RunEnv) (fs : os.FS) (t : Tester.t)
  : result (Tester.t * os.FS * option error) :=
  let t := Tester.with_EndAt (elapsed_total env) t in
  r <- SetMetrics t ;;
  let '(t, err) := r in
  match err with
  | Some err => Ok (t, fs, Some err)
  | None =>
      let graphs :=
        if Tester.Graphs t then
          match Boxplot env fs t with
          | Ok fs1 =>
              match Histogram env fs1 t with
              | Ok fs2 => Ok (fs2, None)
              | Err err => Ok (fs1, Some err)
              | Panic msg => Panic msg
              end
          | Err err => Ok (fs, Some err)
          | Panic msg => Panic msg
          end
        else Ok (fs, None) in
      g <- graphs ;;
      let '(fs, err) := g in
      match err with
      | Some err => Ok (t, fs, Some err)
      | None =>
          let export :=
            if Tester.ExportStats t then
              match create_err env with
              | Some err => (fs, Some err)
              | None =>
                  let path := Tester.OutputPath t ++ "/" ++ "statsfile.txt" in
                  let file := {| io.data := ""; io.fail := write_err env |} in
                  let '(file, err) := WriteStatsFile file (Tester.stats t) in
                  (os.put fs path (io.data file), err)
              end
            else (fs, None) in
          let '(fs, err) := export in
          match err with
          | Some err => Ok (t, fs, Some err)
          | None =>
              let t :=
                LogFStdOut "The benchmark of %s site took %v\n"
                  [log.AString (Tester.URL t);
                   log.ADuration (Duration_Round (Tester.EndAt t) time_Millisecond)] t in
              let t :=
                LogFStdOut "Requests: %d Success: %d Failures: %d\n"
                  [log.AInt (Stats.Requests (Tester.stats t));
                   log.AInt (Stats.Successes (Tester.stats t));
                   log.AInt (Stats.Failures (Tester.stats t))] t in
              let t :=
                LogFStdOut "P50: %.3fms P90: %.3fms P99: %.3fms\n"
                  [log.AFloat (Stats.P50 (Tester.stats t));
                   log.AFloat (Stats.P90 (Tester.stats t));
                   log.AFloat (Stats.P99 (Tester.stats t))] t in
              Ok (t, fs, None)
          end
      end
  end.

(** [Run]: a negative [Concurrency] makes [wg.Add] panic; otherwise the
    workers run, in some interleaving, until all have returned, and the rest
    follows. *)
Inductive Run (env : RunEnv) (fs : os.FS) (t : Tester.t)
  : result (Tester.t * os.FS * option error) -> Prop :=
| Run_negative :
    Tester.Concurrency t < 0 ->
    Run env fs t (Panic "sync: negative WaitGroup counter")
| Run_workers tr s :
    0 <= Tester.Concurrency t ->
    Steps (start t) tr s ->
    finished s ->
    Run env fs t (after_Wait env fs (shared s)).

(* ================================================================= *)
(** ** The order of validation in the words of the specification *)

(** A configuration as the spec describes it: the URL, the request count
    and the two output writers (nil is [None]). *)
Record Config : Type := {
  cfg_URL : string;
  cfg_requests : Z;
  cfg_stdout : option log.Writer;
  cfg_stderr : option log.Writer
}.

(** Follows the spec: URL presence, then URL parse and host check, then
    request-count bound check, then writer non-null checks. *)
Definition spec_order_validate (url_Parse : string -> result url.URL)
  (c : Config) : option error :=
  if String.eqb (cfg_URL c) "" then Some ErrNoURL
  else
    match url_Parse (cfg_URL c) with
    | Err e => Some e
    | Panic _ => None
    | Ok u =>
        if String.eqb (url.Host u) "" then Some (ErrInvalidURL (url.text u))
        else if cfg_requests c <? 1 then Some (ErrInvalidRequests (cfg_requests c))
        else
          match cfg_stdout c, cfg_stderr c with
          | Some _, Some _ => None
          | _, _ => Some ErrValueCannotBeNil
          end
    end.

(** The options that set up a configuration. *)
Definition options_of (c : Config) : list Option :=
  [WithURL (cfg_URL c); WithRequests (cfg_requests c);
   WithStdout (cfg_stdout c); WithStderr (cfg_stderr c)].

(* ================================================================= *)
(** ** Notions used in the statements *)

(** The exchange is a response with status 200. *)
Definition succeeds (c : call) : bool :=
  match c with
  | Responds _ status => status =? http_StatusOK
  | _ => false
  end.

(** The exchange brought a response back, whatever its status. *)
Definition responds (c : call) : bool :=
  match c with
  | Responds _ _ => true
  | _ => false
  end.

(** The responses delivered along a trace of the pool. *)
Fixpoint responses (tr : list (nat * act)) : Z :=
  match tr with
  | [] => 0
  | (_, AAnswer c) :: r => (if responds c then 1 else 0) + responses r
  | _ :: r => responses r
  end.

(** The worker has recorded an attempt it has not classified yet. *)
Definition in_flight (p : pc) : Z :=
  match p with
  | Calling | NewRequestFailed _ | NewRequestLogged | DoFailed _
  | Responded _ _ | Timed _ | BadStatusLogged => 1
  | Waiting | Received | DoFailureRecorded _ | Returned => 0
  end.

Fixpoint all_in_flight (ws : list pc) : Z :=
  match ws with
  | [] => 0
  | p :: r => in_flight p + all_in_flight r
  end.

(** The worker holds a response whose time it has not recorded yet. *)
Definition untimed (p : pc) : Z :=
  match p with
  | Responded _ _ => 1
  | _ => 0
  end.

Fixpoint all_untimed (ws : list pc) : Z :=
  match ws with
  | [] => 0
  | p :: r => untimed p + all_untimed r
  end.

(** The percentiles, the mean and the URL of a stats record. *)
Definition summary (s : Stats.t)
  : string * F64.float64 * F64.float64 * F64.float64 * F64.float64 :=
  (Stats.URL s, Stats.Mean s, Stats.P50 s, Stats.P90 s, Stats.P99 s).

(** The three counters of the tester: requests, successes, failures. *)
Definition counts (t : Tester.t) : Z * Z * Z :=
  (Stats.Requests (Tester.stats t), Stats.Successes (Tester.stats t),
   Stats.Failures (Tester.stats t)).

(** The counters are values of type int. *)
Definition ints_ok (s : Stats.t) : Prop :=
  GoInt.in_range (Stats.Requests s) /\
  GoInt.in_range (Stats.Successes s) /\
  GoInt.in_range (Stats.Failures s).

(** [requests == successes + failures], in Go's arithmetic. *)
Definition counts_balanced (s : Stats.t) : Prop :=
  Stats.Requests s = GoInt.add (Stats.Successes s) (Stats.Failures s).

(** The counters while the workers run: the attempts are the classified
    calls plus the [k] calls in flight. *)
Definition balanced_with (k : Z) (t : Tester.t) : Prop :=
  Stats.Requests (Tester.stats t)
  = GoInt.wrap (Stats.Successes (Tester.stats t) + Stats.Failures (Tester.stats t) + k).

(** The bytes that end a field or a line of a stats file. *)
Definition plain (c : ascii) : bool :=
  negb (Bytes.eqb c Bytes.comma) && negb (Bytes.eqb c Bytes.LF)
  && negb (Bytes.eqb c Bytes.CR).

Fixpoint all_plain (s : string) : bool :=
  match s with
  | "" => true
  | String c r => plain c && all_plain r
  end.

(** A URL that the codec can carry: no comma and no line feed. *)
Fixpoint url_ok (s : string) : bool :=
  match s with
  | "" => true
  | String c r =>
      negb (Bytes.eqb c Bytes.comma) && negb (Bytes.eqb c Bytes.LF) && url_ok r
  end.

(** The value of a string of decimal digits read after [n]. *)
Fixpoint digits_value (d : Decimal.uint) (n : Z) : Z :=
  match d with
  | Decimal.Nil => n
  | Decimal.D0 l => digits_value l (n * 10 + 0)
  | Decimal.D1 l => digits_value l (n * 10 + 1)
  | Decimal.D2 l => digits_value l (n * 10 + 2)
  | Decimal.D3 l => digits_value l (n * 10 + 3)
  | Decimal.D4 l => digits_value l (n * 10 + 4)
  | Decimal.D5 l => digits_value l (n * 10 + 5)
  | Decimal.D6 l => digits_value l (n * 10 + 6)
  | Decimal.D7 l => digits_value l (n * 10 + 7)
  | Decimal.D8 l => digits_value l (n * 10 + 8)
  | Decimal.D9 l => digits_value l (n * 10 + 9)
  end.

(** The float survives [%.3f]: parsing what is printed gives it back. *)
Definition three_decimals (x : F64.float64) : Prop :=
  strconv.ParseFloat (strconv.FormatFloat3 x) = Ok x.

(** The integer nearest to [num / den] ([num >= 0], [den > 0]), halfway
    cases away from zero. *)
Definition round_ratio (num den : Z) : Z := (2 * num + den) / (2 * den).

(** No element is smaller than one before it. *)
Definition ascending (xs : list F64.float64) : Prop :=
  Sorted (fun a b => F64.leb a b = true) xs.

(** The largest length of a slice of float64 the theorems on percentiles
    cover. *)
Definition max_samples : Z := 2 ^ 45.

(** The number of bits of a positive integer. *)
Definition bits (n : Z) : Z := Z.log2 n + 1.

(** The binary64 number that is the integer [n], for [0 < n < 2^53]: the
    mantissa is [n] shifted to 53 bits. *)
Definition exact_float (n : Z) : F64.float64 :=
  S754_finite false (Z.to_pos (n * 2 ^ (53 - bits n))) (bits n - 53).

(** The sum of the samples, in float64, from left to right. *)
Definition float_sum (xs : list F64.float64) : F64.float64 :=
  fold_left F64.add xs F64.zero.

(** The exchanges along a trace, in order. *)
Fixpoint answers (tr : list (nat * act)) : list call :=
  match tr with
  | [] => []
  | (_, AAnswer c) :: r => c :: answers r
  | _ :: r => answers r
  end.

(** What is left of [DoRequest] for a worker at point [p], when [calls]
    answers the exchanges still to come; [None] when an exchange is due and
    [calls] is empty. *)
Definition resume (p : pc) (calls : list call) (t : Tester.t) : option Tester.t :=
  match p with
  | Waiting => Some (DoRequest calls t)
  | Received =>
      match calls with
      | [] => None
      | _ => Some (DoRequest calls t)
      end
  | Calling =>
      match calls with
      | [] => None
      | NewRequestFails msg :: _ => Some (RecordFailure (LogStdErr msg t))
      | DoFails msg :: _ => Some (LogStdErr msg (RecordFailure t))
      | Responds elapsed status :: rest =>
          let t := RecordTime (milliseconds elapsed) t in
          Some (if negb (status =? http_StatusOK) then
                  RecordFailure
                    (LogFStdErr "unexpected status code %d\n" [log.AInt status] t)
                else DoRequest rest (RecordSuccess t))
      end
  | NewRequestFailed msg => Some (RecordFailure (LogStdErr msg t))
  | NewRequestLogged => Some (RecordFailure t)
  | DoFailed msg => Some (LogStdErr msg (RecordFailure t))
  | DoFailureRecorded msg => Some (LogStdErr msg t)
  | Responded elapsed status =>
      let t := RecordTime (milliseconds elapsed) t in
      Some (if negb (status =? http_StatusOK) then
              RecordFailure
                (LogFStdErr "unexpected status code %d\n" [log.AInt status] t)
            else DoRequest calls (RecordSuccess t))
  | Timed status =>
      Some (if negb (status =? http_StatusOK) then
              RecordFailure
                (LogFStdErr "unexpected status code %d\n" [log.AInt status] t)
            else DoRequest calls (RecordSuccess t))
  | BadStatusLogged => Some (RecordFailure t)
  | Returned => Some t
  end.

(** The worker is past a failed exchange: it is on its way out of the
    loop. *)
Definition leaving (p : pc) : bool :=
  match p with
  | NewRequestFailed _ | NewRequestLogged | DoFailed _ | DoFailureRecorded _
  | BadStatusLogged | Returned => true
  | Responded _ status | Timed status => negb (status =? http_StatusOK)
  | Waiting | Received | Calling => false
  end.

(** The step starts an iteration or belongs to one that can still
    succeed. *)
Definition iterates (a : act) : bool :=
  match a with
  | ARecv | AAttempt | AAnswer _ | ASuccess => true
  | _ => false
  end.

(* ================================================================= *)
(** ** Counting along a run *)

(** The sum of [f] over the workers of a pool. *)
Fixpoint sum_workers (f : pc -> Z) (ws : list pc) : Z :=
  match ws with
  | [] => 0
  | p :: r => f p + sum_workers f r
  end.

(** The sum of [f] over the steps of a trace. *)
Fixpoint count_steps (f : act -> Z) (tr : list (nat * act)) : Z :=
  match tr with
  | [] => 0
  | (_, a) :: r => f a + count_steps f r
  end.

Definition is_recv (a : act) : Z := match a with ARecv => 1 | _ => 0 end.
Definition is_attempt (a : act) : Z := match a with AAttempt => 1 | _ => 0 end.
Definition is_failure (a : act) : Z := match a with AFailure => 1 | _ => 0 end.
Definition is_success (a : act) : Z := match a with ASuccess => 1 | _ => 0 end.
Definition any_step (a : act) : Z := 1.

(** The worker holds a token it has not recorded as an attempt yet. *)
Definition holds_token (p : pc) : Z :=
  match p with
  | Received => 1
  | _ => 0
  end.

(** The worker can still record a failure: it has neither returned nor
    recorded the failure it is about to report. *)
Definition can_fail (p : pc) : Z :=
  match p with
  | Returned | DoFailureRecorded _ => 0
  | _ => 1
  end.

(** The worker's messages against its failures: a message printed whose
    failure is not recorded yet counts 1, a failure recorded whose message
    is not printed yet counts -1. *)
Definition owed (p : pc) : Z :=
  match p with
  | NewRequestLogged | BadStatusLogged => 1
  | DoFailureRecorded _ => -1
  | _ => 0
  end.

(** The worker has recorded a sample it has not classified yet. *)
Definition timed (p : pc) : Z :=
  match p with
  | Timed _ => 1
  | _ => 0
  end.

(** The steps a worker makes at most before it waits again or returns. *)
Definition rank (p : pc) : Z :=
  match p with
  | Returned => 0
  | Waiting => 1
  | Received => 5
  | Calling => 4
  | NewRequestFailed _ => 3
  | NewRequestLogged => 2
  | DoFailed _ => 3
  | DoFailureRecorded _ => 2
  | Responded _ _ => 3
  | Timed _ => 2
  | BadStatusLogged => 1
  end.

(** The part of the tester its caller sets up. *)
Definition config (t : Tester.t)
  : Z * Client * bool * bool * string * Z * string * string :=
  (Tester.Concurrency t, Tester.client t, Tester.ExportStats t, Tester.Graphs t,
   Tester.OutputPath t, Tester.requests t, Tester.URL t, Tester.userAgent t).

(** A tester as [NewTester] hands it over: nothing counted, nothing
    recorded; the numbers of requests and of workers are ints that are not
    negative. *)
Definition fresh (t : Tester.t) : Prop :=
  counts t = (0, 0, 0) /\
  Tester.TimeRecorder t = [] /\
  0 <= Tester.requests t <= GoInt.max_int /\
  0 <= Tester.Concurrency t <= GoInt.max_int.

(** The three lines [Run] prints at the end. *)
Definition report (t : Tester.t) : list log.printed :=
  [log.Fprintf "The benchmark of %s site took %v\n"
     [log.AString (Tester.URL t);
      log.ADuration (Duration_Round (Tester.EndAt t) time_Millisecond)];
   log.Fprintf "Requests: %d Success: %d Failures: %d\n"
     [log.AInt (Stats.Requests (Tester.stats t));
      log.AInt (Stats.Successes (Tester.stats t));
      log.AInt (Stats.Failures (Tester.stats t))];
   log.Fprintf "P50: %.3fms P90: %.3fms P99: %.3fms\n"
     [log.AFloat (Stats.P50 (Tester.stats t));
      log.AFloat (Stats.P90 (Tester.stats t));
      log.AFloat (Stats.P99 (Tester.stats t))]].

(** The record without its mean, as a stats file carries it. *)
Definition without_mean (s : Stats.t) : Stats.t :=
  Stats.mk (Stats.URL s) F64.zero (Stats.P50 s) (Stats.P90 s) (Stats.P99 s)
    (Stats.Failures s) (Stats.Requests s) (Stats.Successes s).

(** The options the package offers. *)
Inductive package_option : Option -> Prop :=
| po_FromArgs flag_Parse args : package_option (FromArgs flag_Parse args)
| po_WithRequests reqs : package_option (WithRequests reqs)
| po_WithHTTPUserAgent ua : package_option (WithHTTPUserAgent ua)
| po_WithHTTPClient c : package_option (WithHTTPClient c)
| po_WithStdout w : package_option (WithStdout w)
| po_WithStderr w : package_option (WithStderr w)
| po_WithConcurrency c : package_option (WithConcurrency c)
| po_WithURL u : package_option (WithURL u)
| po_WithOutputPath p : package_option (WithOutputPath p)
| po_WithGraphs g : package_option (WithGraphs g)
| po_WithExportStats e : package_option (WithExportStats e).
(* ================================================================= *)
(** ** Go's integers *)

Lemma wrap_in_range x : GoInt.in_range (GoInt.wrap x).
Proof.
  unfold GoInt.in_range, GoInt.wrap, GoInt.min_int, GoInt.max_int.
  pose proof (Z.mod_pos_bound (x + 2 ^ 63) (2 ^ 64) ltac:(lia)). lia.
Qed.

Lemma wrap_id x : GoInt.in_range x -> GoInt.wrap x = x.
Proof.
  unfold GoInt.in_range, GoInt.wrap, GoInt.min_int, GoInt.max_int. intros H.
  rewrite Z.mod_small; lia.
Qed.

Lemma wrap_add_l a b : GoInt.wrap (GoInt.wrap a + b) = GoInt.wrap (a + b).
Proof.
  unfold GoInt.wrap. f_equal.
  replace ((a + 2 ^ 63) mod 2 ^ 64 - 2 ^ 63 + b + 2 ^ 63)
    with ((a + 2 ^ 63) mod 2 ^ 64 + b) by lia.
  rewrite Zplus_mod_idemp_l. f_equal. lia.
Qed.

Lemma wrap_add_r a b : GoInt.wrap (a + GoInt.wrap b) = GoInt.wrap (a + b).
Proof. rewrite Z.add_comm, wrap_add_l. f_equal. lia. Qed.

Lemma sub_exact a b : GoInt.in_range (a - b) -> GoInt.sub a b = a - b.
Proof. apply wrap_id. Qed.

(* ================================================================= *)
(** ** CompareStats *)

(** C9.  [CompareStats stats1 stats2] is the record of the differences,
    second minus first: of the three percentiles in float64 arithmetic, of
    the three counts as integers (whenever the difference fits an int, as it
    does for counts, which are not negative). *)
Theorem CompareStats_second_minus_first (stats1 stats2 : Stats.t) :
  GoInt.in_range (Stats.Requests stats2 - Stats.Requests stats1) ->
  GoInt.in_range (Stats.Successes stats2 - Stats.Successes stats1) ->
  GoInt.in_range (Stats.Failures stats2 - Stats.Failures stats1) ->
  let delta := CompareStats stats1 stats2 in
  StatsDelta.P50 delta = F64.sub (Stats.P50 stats2) (Stats.P50 stats1) /\
  StatsDelta.P90 delta = F64.sub (Stats.P90 stats2) (Stats.P90 stats1) /\
  StatsDelta.P99 delta = F64.sub (Stats.P99 stats2) (Stats.P99 stats1) /\
  StatsDelta.Requests delta = Stats.Requests stats2 - Stats.Requests stats1 /\
  StatsDelta.Successes delta = Stats.Successes stats2 - Stats.Successes stats1 /\
  StatsDelta.Failures delta = Stats.Failures stats2 - Stats.Failures stats1.
Proof.
  intros Hr Hs Hf. cbn.
  rewrite (sub_exact _ _ Hr), (sub_exact _ _ Hs), (sub_exact _ _ Hf).
  repeat split; reflexivity.
Qed.

(** The example of the spec: P50 20 and 5, Requests 20 and 40 give -15 and
    20; the other fields of the package's test likewise. *)
Lemma CompareStats_second_minus_first_example :
  let stats1 := Stats.mk "" F64.zero (F64.of_int 20) (F64.of_int 30)
                  (F64.of_int 100) 2 20 18 in
  let stats2 := Stats.mk "" F64.zero (F64.of_int 5) (F64.of_int 33)
                  (F64.of_int 99) 1 40 19 in
  (GoInt.in_range (Stats.Requests stats2 - Stats.Requests stats1) /\
   GoInt.in_range (Stats.Successes stats2 - Stats.Successes stats1) /\
   GoInt.in_range (Stats.Failures stats2 - Stats.Failures stats1)) /\
  CompareStats stats1 stats2 =
    StatsDelta.mk (F64.of_int (-15)) (F64.of_int 3) (F64.of_int (-1)) 20 (-1) 1.
Proof.
  assert (R : forall x, -100 <= x <= 100 -> GoInt.in_range x).
  { unfold GoInt.in_range, GoInt.min_int, GoInt.max_int. lia. }
  split; [cbn; repeat split; apply R; lia|].
  pose proof (CompareStats_second_minus_first
    (Stats.mk "" F64.zero (F64.of_int 20) (F64.of_int 30) (F64.of_int 100) 2 20 18)
    (Stats.mk "" F64.zero (F64.of_int 5) (F64.of_int 33) (F64.of_int 99) 1 40 19)
    ltac:(apply R; cbn; lia) ltac:(apply R; cbn; lia) ltac:(apply R; cbn; lia)) as H.
  cbv zeta in H. destruct H as (H1 & H2 & H3 & H4 & H5 & H6).
  destruct (CompareStats _ _) as [a b c d e f]; cbn in *.
  subst. reflexivity.
Defined.
(* ================================================================= *)
(** ** The pool of workers: what the steps preserve *)

(** The percentiles, the mean and the URL of the stats record. *)
Lemma wstep_summary t n p a t' n' p' :
  wstep (t, n, p) a (t', n', p') ->
  summary (Tester.stats t') = summary (Tester.stats t) /\
  Tester.stdout t' = Tester.stdout t.
Proof. intros H; inversion H; subst; split; reflexivity. Qed.

Lemma Steps_summary s tr s' :
  Steps s tr s' ->
  summary (Tester.stats (shared s')) = summary (Tester.stats (shared s)) /\
  Tester.stdout (shared s') = Tester.stdout (shared s).
Proof.
  induction 1 as [|s l s1 tr s2 Hstep _ IH]; [split; reflexivity|].
  destruct Hstep as [t n before p after a t' n' p' Hw].
  apply wstep_summary in Hw. cbn [shared] in *.
  destruct Hw as [E1 E2], IH as [I1 I2].
  split; [rewrite I1 | rewrite I2]; assumption.
Qed.

(* ================================================================= *)
(** ** No data *)

Lemma SetMetrics_empty t :
  Tester.TimeRecorder t = [] -> SetMetrics t = Ok (t, Some ErrTimeNotRecorded).
Proof. intros E. unfold SetMetrics. rewrite E. reflexivity. Qed.

(** C5.  When no sample was recorded, [SetMetrics] returns
    [ErrTimeNotRecorded] and leaves the tester as it was; the rest of [Run]
    does nothing but return that error: whatever the workers did, if they
    leave the recorder empty then [Run] returns [ErrTimeNotRecorded], the
    files are untouched, nothing is printed on stdout, and the percentiles,
    the mean and the URL of the stats record are those [Run] started with. *)
Theorem no_data_error (env : RunEnv) (fs : os.FS) (t : Tester.t)
    (tr : list (nat * act)) (s : pool) :
  0 <= Tester.Concurrency t ->
  Steps (start t) tr s ->
  finished s ->
  Tester.TimeRecorder (shared s) = [] ->
  SetMetrics (shared s) = Ok (shared s, Some ErrTimeNotRecorded) /\
  exists t',
    Run env fs t (Ok (t', fs, Some ErrTimeNotRecorded)) /\
    Tester.stats t' = Tester.stats (shared s) /\
    summary (Tester.stats t') = summary (Tester.stats t) /\
    Tester.stdout t' = Tester.stdout t.
Proof.
  intros Hc Hsteps Hfin Hempty.
  split; [apply SetMetrics_empty, Hempty|].
  exists (Tester.with_EndAt (elapsed_total env) (shared s)).
  split; [|split; [reflexivity|]].
  - replace (Ok (Tester.with_EndAt (elapsed_total env) (shared s), fs,
                 Some ErrTimeNotRecorded))
      with (after_Wait env fs (shared s)).
    + eapply Run_workers; eassumption.
    + unfold after_Wait. rewrite SetMetrics_empty by exact Hempty. reflexivity.
  - apply Steps_summary in Hsteps. exact Hsteps.
Qed.

(** A run in which the only exchange fails before any response. *)
Lemma no_data_error_witness :
  let t := Tester.with_URL "http://fake.url" default_tester in
  let env := {| boxplot_png := Ok ""; histogram_png := Ok "";
                create_err := None; write_err := None;
                elapsed_total := 5000000 |} in
  exists t',
    Run env (fun _ => None) t (Ok (t', fun _ => None, Some ErrTimeNotRecorded)) /\
    Stats.Requests (Tester.stats t') = 1 /\
    Stats.Failures (Tester.stats t') = 1.
Proof.
  intros t env.
  assert (Hsteps : Steps (start t)
            [(0%nat, ARecv); (0%nat, AAttempt); (0%nat, AAnswer (DoFails "timeout"));
             (0%nat, AFailure); (0%nat, ALog)]
            {| shared := LogStdErr "timeout" (RecordFailure (RecordRequest t));
               tokens := 0;
               workers := [Returned] |}).
  { unfold start. cbn [Tester.requests Tester.Concurrency t Tester.with_URL default_tester].
    change (Z.to_nat DefaultConcurrency) with 1%nat. cbn [repeat].
    eapply Steps_cons.
    { apply (Step_worker _ _ [] Waiting [] ARecv). apply w_recv. reflexivity. }
    eapply Steps_cons.
    { apply (Step_worker _ _ [] Received [] AAttempt). apply w_attempt. }
    eapply Steps_cons.
    { apply (Step_worker _ _ [] Calling [] (AAnswer (DoFails "timeout"))).
      apply w_do_fails. }
    eapply Steps_cons.
    { apply (Step_worker _ _ [] (DoFailed "timeout") [] AFailure). apply w_do_failure. }
    eapply Steps_cons.
    { apply (Step_worker _ _ [] (DoFailureRecorded "timeout") [] ALog). apply w_do_log. }
    apply Steps_nil. }
  destruct (no_data_error env (fun _ => None) t _ _ ltac:(unfold t; vm_compute; discriminate) Hsteps
              ltac:(repeat constructor) eq_refl) as (_ & t' & HRun & Hst & _).
  exists t'. split; [exact HRun|]. rewrite Hst. split; reflexivity.
Defined.
(* ================================================================= *)
(** ** Reading a stats file *)

(** C6.  A line with a missing field does not make [ReadStatsFile] return
    an error: indexing the fields of the line panics.  Here the line has two
    fields. *)
Theorem ReadStatsFile_missing_field_panics :
  ReadStatsFile "http://fake.url,20" = Panic "index out of range".
Proof. reflexivity. Qed.

Lemma ReadStatsFile_empty_line_panics :
  ReadStatsFile (String Bytes.LF "") = Panic "index out of range".
Proof. reflexivity. Qed.

(** A field that fails numeric parsing does give an error. *)
Lemma ReadStatsFile_bad_number_errors :
  ReadStatsFile "http://fake.url,20,19,x,100.123,150.000,198.465"
  = Err (NumError "Atoi" "x" ErrSyntax).
Proof. reflexivity. Qed.

Lemma index_in_range {A} (xs : list A) i :
  0 <= i < len xs -> exists x, index xs i = Ok x /\ nth_error xs (Z.to_nat i) = Some x.
Proof.
  unfold index, len. intros H.
  replace ((i <? 0) || (Z.of_nat (List.length xs) <=? i)) with false
    by (symmetry; apply orb_false_iff; split; [apply Z.ltb_ge | apply Z.leb_gt]; lia).
  destruct (nth_error xs (Z.to_nat i)) eqn:E; [eauto|].
  apply nth_error_None in E. lia.
Qed.

Lemma index_not_panic {A} (xs : list A) i :
  0 <= i < len xs -> forall msg, index xs i <> Panic msg.
Proof.
  intros H msg. destruct (index_in_range xs i H) as (x & -> & _). discriminate.
Qed.






(* ================================================================= *)
(** ** CompareStatsFiles *)



(* ================================================================= *)
(** ** NewTester *)

Lemma apply_options_app pre post t :
  apply_options (pre ++ post) t = (t1 <- apply_options pre t ;; apply_options post t1).
Proof.
  revert t. induction pre as [|o pre IH]; intros t; cbn; [reflexivity|].
  destruct (o t); cbn; [apply IH | reflexivity | reflexivity].
Qed.

Lemma eqb_empty_false s : s <> "" -> String.eqb s "" = false.
Proof. intros H. apply String.eqb_neq. exact H. Qed.

(** C7, as stated, fails: with no URL and a nil stdout, the order of the
    claim answers "no URL", the constructor answers "value cannot be nil". *)
Lemma NewTester_checks_writers_first :
  let c := {| cfg_URL := ""; cfg_requests := 1;
              cfg_stdout := None; cfg_stderr := Some [] |} in
  spec_order_validate url_Parse_tests c = Some ErrNoURL /\
  NewTester url_Parse_tests (options_of c) = Err ErrValueCannotBeNil.
Proof. split; reflexivity. Qed.

(** C7, amended.  [NewTester] validates in this order and stops at the first
    failure: (1) the options, in the order given, and with them the nil
    checks of the two writers; (2) URL presence; (3) URL parse, then
    non-empty host; (4) request count at least 1.  It returns a tester only
    when every check has passed; otherwise it returns an error and no
    tester, so that nothing can be run. *)
Theorem NewTester_validation_order (url_Parse : string -> result url.URL)
    (opts : list Option) :
  (forall pre o post t1 e,
      opts = (pre ++ o :: post)%list ->
      apply_options pre default_tester = Ok t1 ->
      o t1 = Err e ->
      NewTester url_Parse opts = Err e) /\
  (forall tester,
      apply_options opts default_tester = Ok tester ->
      (Tester.URL tester = "" -> NewTester url_Parse opts = Err ErrNoURL) /\
      (forall e,
          Tester.URL tester <> "" ->
          url_Parse (Tester.URL tester) = Err e ->
          NewTester url_Parse opts = Err e) /\
      (forall u,
          Tester.URL tester <> "" ->
          url_Parse (Tester.URL tester) = Ok u ->
          (url.Host u = "" ->
           NewTester url_Parse opts = Err (ErrInvalidURL (url.text u))) /\
          (url.Host u <> "" -> Tester.requests tester < 1 ->
           NewTester url_Parse opts = Err (ErrInvalidRequests (Tester.requests tester))) /\
          (url.Host u <> "" -> 1 <= Tester.requests tester ->
           NewTester url_Parse opts = Ok tester))) /\
  (forall tester,
      NewTester url_Parse opts = Ok tester ->
      apply_options opts default_tester = Ok tester /\
      Tester.URL tester <> "" /\
      1 <= Tester.requests tester /\
      exists u, url_Parse (Tester.URL tester) = Ok u /\ url.Host u <> "").
Proof.
  split; [|split].
  - intros pre o post t1 e -> Hpre Ho. unfold NewTester.
    rewrite apply_options_app, Hpre. cbn. rewrite Ho. reflexivity.
  - intros tester Hopts. unfold NewTester. rewrite Hopts. cbn [bind].
    split; [|split].
    + intros ->. reflexivity.
    + intros e Hurl Hparse. rewrite (eqb_empty_false _ Hurl), Hparse. reflexivity.
    + intros u Hurl Hparse. rewrite (eqb_empty_false _ Hurl), Hparse. cbn [bind].
      split; [|split].
      * intros ->. reflexivity.
      * intros Hhost Hreq. rewrite (eqb_empty_false _ Hhost).
        replace (Tester.requests tester <? 1) with true
          by (symmetry; apply Z.ltb_lt; lia).
        reflexivity.
      * intros Hhost Hreq. rewrite (eqb_empty_false _ Hhost).
        replace (Tester.requests tester <? 1) with false
          by (symmetry; apply Z.ltb_ge; lia).
        reflexivity.
  - intros tester. unfold NewTester.
    destruct (apply_options opts default_tester) as [t0| |]; cbn [bind];
      try discriminate.
    destruct (String.eqb (Tester.URL t0) "") eqn:Eurl; [discriminate|].
    destruct (url_Parse (Tester.URL t0)) as [u| |] eqn:Eparse; cbn [bind];
      try discriminate.
    destruct (String.eqb (url.Host u) "") eqn:Ehost; [discriminate|].
    destruct (Tester.requests t0 <? 1) eqn:Ereq; [discriminate|].
    intros [= <-].
    apply String.eqb_neq in Eurl, Ehost. apply Z.ltb_ge in Ereq.
    repeat split; try assumption. exists u. split; assumption.
Qed.

(** A nil stdout given first: its error comes back although the URL is
    missing and the request count is zero. *)
Lemma NewTester_validation_order_witness :
  NewTester url_Parse_tests [WithStdout None; WithRequests 0]
  = Err ErrValueCannotBeNil.
Proof.
  apply (proj1 (NewTester_validation_order url_Parse_tests
                  [WithStdout None; WithRequests 0])
               [] (WithStdout None) [WithRequests 0] default_tester ErrValueCannotBeNil);
    reflexivity.
Defined.

(** The invalid configurations of the package's tests are rejected, the
    valid one is accepted. *)
Lemma NewTester_tests :
  NewTester url_Parse_tests [WithURL "http://fake.url"; WithRequests (-1)]
    = Err (ErrInvalidRequests (-1)) /\
  NewTester url_Parse_tests [WithURL "bogus-no-host://"]
    = Err (ErrInvalidURL "bogus-no-host://") /\
  NewTester url_Parse_tests [WithStderr (Some [])] = Err ErrNoURL /\
  NewTester url_Parse_tests [WithStderr (Some []);
                             FromArgs flag_Parse_tests ["run"; "-r"; "10"]]
    = Err ErrNoURL /\
  NewTester url_Parse_tests [WithStderr (Some []); FromArgs flag_Parse_tests []]
    = Err ErrNoArgs /\
  NewTester url_Parse_tests [WithURL "http://fake.url"; WithStderr None]
    = Err ErrValueCannotBeNil /\
  (exists t, NewTester url_Parse_tests [WithURL "http://fake.url"] = Ok t).
Proof. repeat split; try reflexivity. eexists. reflexivity. Qed.
(* ================================================================= *)
(** ** The worker loop, one worker alone *)

Ltac wrap_eq :=
  repeat match goal with
  | |- (_, _) = (_, _) => f_equal
  | |- GoInt.wrap _ = GoInt.wrap _ => apply f_equal
  end;
  try reflexivity; try lia.

Lemma incr_as_wrap a : GoInt.incr a = GoInt.wrap (a + 1).
Proof. reflexivity. Qed.

Lemma incr_in_range a : GoInt.in_range (GoInt.incr a).
Proof. apply wrap_in_range. Qed.

(** One iteration that ends in a failure. *)
Lemma DoRequest_failing_call c rest t :
  succeeds c = false ->
  DoRequest (c :: rest) t = DoRequest [c] t /\
  counts (DoRequest [c] t) =
    (GoInt.incr (Stats.Requests (Tester.stats t)),
     Stats.Successes (Tester.stats t),
     GoInt.incr (Stats.Failures (Tester.stats t))).
Proof.
  intros Hc. destruct c as [msg|msg|elapsed status]; cbn in *.
  - split; reflexivity.
  - split; reflexivity.
  - rewrite Hc. cbn. split; reflexivity.
Qed.

(** One iteration that ends in a success. *)
Lemma DoRequest_successful_call c rest t :
  succeeds c = true ->
  exists t1,
    DoRequest (c :: rest) t = DoRequest rest t1 /\
    DoRequest [c] t = t1 /\
    counts t1 =
      (GoInt.incr (Stats.Requests (Tester.stats t)),
       GoInt.incr (Stats.Successes (Tester.stats t)),
       Stats.Failures (Tester.stats t)).
Proof.
  intros Hc. destruct c as [msg|msg|elapsed status]; cbn in Hc; try discriminate.
  eexists. cbn [DoRequest]. rewrite Hc. cbn [negb].
  split; [reflexivity|]. split; reflexivity.
Qed.

Lemma counts_ok_after_success t t1 :
  counts t1 =
      (GoInt.incr (Stats.Requests (Tester.stats t)),
       GoInt.incr (Stats.Successes (Tester.stats t)),
       Stats.Failures (Tester.stats t)) ->
  ints_ok (Tester.stats t) -> ints_ok (Tester.stats t1).
Proof.
  unfold counts, ints_ok. intros [= -> -> ->] (_ & _ & Hf).
  repeat split; try apply incr_in_range; apply Hf.
Qed.

(** C8.  In the worker loop a failure ends the loop on the spot: when the
    calls before [c] all succeed and [c] does not (the request cannot be
    built, the exchange fails, or the status is not 200), the worker makes
    [len pre + 1] attempts and none of the calls after [c], whatever they
    would have been; every call that succeeds is followed by the next one. *)
Theorem DoRequest_aborts_at_first_failure (pre : list call) (c : call)
    (post : list call) (t : Tester.t) :
  ints_ok (Tester.stats t) ->
  forallb succeeds pre = true ->
  succeeds c = false ->
  DoRequest (pre ++ c :: post) t = DoRequest (pre ++ [c]) t /\
  counts (DoRequest (pre ++ c :: post) t) =
    (GoInt.wrap (Stats.Requests (Tester.stats t) + (len pre + 1)),
     GoInt.wrap (Stats.Successes (Tester.stats t) + len pre),
     GoInt.wrap (Stats.Failures (Tester.stats t) + 1)).
Proof.
  intros Hok Hpre Hc.
  revert t Hok. induction pre as [|d pre IH]; intros t Hok.
  - cbn [app]. destruct (DoRequest_failing_call c post t Hc) as [E Hcounts].
    split; [exact E|]. rewrite E, Hcounts. unfold len. cbn [List.length].
    rewrite !incr_as_wrap. destruct Hok as (_ & Hs & _).
    rewrite Z.add_0_r, (wrap_id _ Hs). reflexivity.
  - cbn [forallb] in Hpre. apply andb_true_iff in Hpre. destruct Hpre as [Hd Hpre].
    cbn [app].
    destruct (DoRequest_successful_call d (pre ++ c :: post) t Hd)
      as (t1 & E1 & Et1 & Hcounts).
    destruct (DoRequest_successful_call d (pre ++ [c]) t Hd)
      as (t2 & E2 & Et2 & _).
    rewrite E1, E2. replace t2 with t1 by congruence.
    destruct (IH Hpre t1 (counts_ok_after_success _ _ Hcounts Hok)) as [IH1 IH2].
    split; [exact IH1|]. rewrite IH2.
    unfold counts in Hcounts. injection Hcounts as -> -> ->.
    unfold len. cbn [List.length]. rewrite !incr_as_wrap, !wrap_add_l.
    wrap_eq.
Qed.

(** When every call succeeds the worker goes through all of them. *)
Lemma DoRequest_all_succeed calls t :
  ints_ok (Tester.stats t) ->
  forallb succeeds calls = true ->
  counts (DoRequest calls t) =
    (GoInt.wrap (Stats.Requests (Tester.stats t) + len calls),
     GoInt.wrap (Stats.Successes (Tester.stats t) + len calls),
     Stats.Failures (Tester.stats t)).
Proof.
  revert t. induction calls as [|c calls IH]; intros t Hok H.
  - cbn. unfold counts. destruct Hok as (Hr & Hs & _).
    rewrite !Z.add_0_r, (wrap_id _ Hr), (wrap_id _ Hs). reflexivity.
  - cbn [forallb] in H. apply andb_true_iff in H. destruct H as [Hc Hrest].
    destruct (DoRequest_successful_call c calls t Hc) as (t1 & E & _ & Ht1).
    rewrite E, (IH t1 (counts_ok_after_success _ _ Ht1 Hok) Hrest).
    unfold counts in Ht1. injection Ht1 as -> -> ->.
    unfold len. cbn [List.length].
    rewrite !incr_as_wrap, !wrap_add_l. wrap_eq.
Qed.

(** Two successes, a teapot, and a call that is never made. *)
Lemma DoRequest_aborts_at_first_failure_witness :
  let pre := [Responds 1000000 200; Responds 2000000 200] in
  let t := default_tester in
  DoRequest (pre ++ Responds 3000000 418 :: [Responds 4000000 200]) t
    = DoRequest (pre ++ [Responds 3000000 418]) t /\
  counts (DoRequest (pre ++ Responds 3000000 418 :: [Responds 4000000 200]) t)
    = (3, 2, 1).
Proof.
  intros pre t.
  destruct (DoRequest_aborts_at_first_failure pre (Responds 3000000 418)
              [Responds 4000000 200] t) as [H1 H2].
  - unfold ints_ok, GoInt.in_range. cbn. lia.
  - reflexivity.
  - reflexivity.
  - split; [exact H1|]. rewrite H2. reflexivity.
Defined.

(** In the pool a worker that has returned makes no step. *)
Lemma Returned_is_final t n a x : ~ wstep (t, n, Returned) a x.
Proof. intros H. inversion H. Qed.
(* ================================================================= *)
(** ** The pool of workers: counters and samples *)

Lemma all_in_flight_app ws1 ws2 :
  all_in_flight (ws1 ++ ws2) = all_in_flight ws1 + all_in_flight ws2.
Proof. induction ws1 as [|p ws1 IH]; cbn; [reflexivity | rewrite IH; lia]. Qed.

Lemma all_untimed_app ws1 ws2 :
  all_untimed (ws1 ++ ws2) = all_untimed ws1 + all_untimed ws2.
Proof. induction ws1 as [|p ws1 IH]; cbn; [reflexivity | rewrite IH; lia]. Qed.

Lemma all_in_flight_repeat_Waiting k : all_in_flight (repeat Waiting k) = 0.
Proof. induction k; cbn; [reflexivity | exact IHk]. Qed.

Lemma all_untimed_repeat_Waiting k : all_untimed (repeat Waiting k) = 0.
Proof. induction k; cbn; [reflexivity | exact IHk]. Qed.

Lemma finished_in_flight ws : Forall (eq Returned) ws -> all_in_flight ws = 0.
Proof. induction 1 as [|p ws <- _ IH]; cbn; [reflexivity | exact IH]. Qed.

Lemma finished_untimed ws : Forall (eq Returned) ws -> all_untimed ws = 0.
Proof. induction 1 as [|p ws <- _ IH]; cbn; [reflexivity | exact IH]. Qed.

Lemma wrap_add_m a b c : GoInt.wrap (a + GoInt.wrap b + c) = GoInt.wrap (a + b + c).
Proof.
  replace (a + GoInt.wrap b + c) with (GoInt.wrap b + (a + c)) by lia.
  rewrite wrap_add_l. f_equal. lia.
Qed.

Lemma wrap_add_ll a b c : GoInt.wrap (GoInt.wrap a + b + c) = GoInt.wrap (a + b + c).
Proof. rewrite <- Z.add_assoc, wrap_add_l. f_equal. lia. Qed.

Lemma wstep_balanced t n p a t' n' p' k :
  wstep (t, n, p) a (t', n', p') ->
  balanced_with (k + in_flight p) t ->
  balanced_with (k + in_flight p') t'.
Proof.
  unfold balanced_with.
  intros H; inversion H; subst; cbn; intros E;
    rewrite ?E, ?incr_as_wrap, ?wrap_add_l, ?wrap_add_m, ?wrap_add_ll;
    wrap_eq.
Qed.

Lemma Steps_balanced s tr s' :
  Steps s tr s' ->
  balanced_with (all_in_flight (workers s)) (shared s) ->
  balanced_with (all_in_flight (workers s')) (shared s').
Proof.
  induction 1 as [|s l s1 tr s2 Hstep _ IH]; [trivial|].
  intros H. apply IH. clear IH.
  destruct Hstep as [t n before p after a t' n' p' Hw]. cbn [workers shared] in *.
  rewrite all_in_flight_app in *. cbn [all_in_flight] in *.
  replace (all_in_flight before + (in_flight p' + all_in_flight after))
    with (all_in_flight before + all_in_flight after + in_flight p') by lia.
  eapply wstep_balanced; [exact Hw|].
  replace (all_in_flight before + all_in_flight after + in_flight p)
    with (all_in_flight before + (in_flight p + all_in_flight after)) by lia.
  exact H.
Qed.

Lemma SetMetrics_counts t t' e :
  SetMetrics t = Ok (t', e) -> counts t' = counts t.
Proof.
  unfold SetMetrics. destruct (len (Tester.TimeRecorder t) <? 1).
  - intros [= <- _]. reflexivity.
  - repeat match goal with
    | |- bind ?r _ = _ -> _ => destruct r; cbn [bind]; try discriminate
    end.
    destruct (count_and_total _) as [nreq total].
    intros [= <- _]. reflexivity.
Qed.

Lemma after_Wait_counts env fs t t' fs' e :
  after_Wait env fs t = Ok (t', fs', e) -> counts t' = counts t.
Proof.
  unfold after_Wait.
  destruct (SetMetrics (Tester.with_EndAt (elapsed_total env) t))
    as [[t1 err]| |] eqn:E; cbn [bind]; try discriminate.
  apply SetMetrics_counts in E. change (counts (Tester.with_EndAt (elapsed_total env) t))
    with (counts t) in E.
  destruct err; [intros [= <- _ _]; exact E|].
  match goal with
  | |- bind ?g _ = _ -> _ => destruct g as [[fs1 [err|]]| |]; cbn [bind]; try discriminate
  end.
  - intros [= <- _ _]; exact E.
  - match goal with
    | |- (let '(_, _) := ?x in _) = _ -> _ => destruct x as [fs2 [err|]]
    end.
    + intros [= <- _ _]; exact E.
    + intros [= <- _ _]. rewrite <- E. reflexivity.
Qed.

(** C4.  After any run the counters satisfy
    [requests == successes + failures]: the workers record an attempt, then
    classify it as one success or one failure; while they run the attempts
    exceed the classified calls by the number of calls in flight, and when all
    workers have returned none is; the rest of [Run] leaves the counters
    alone.  The tester starts balanced, as [NewTester] makes it. *)
Theorem requests_are_successes_plus_failures (env : RunEnv) (fs : os.FS)
    (t : Tester.t) :
  counts_balanced (Tester.stats t) ->
  (forall tr s,
      Steps (start t) tr s ->
      balanced_with (all_in_flight (workers s)) (shared s) /\
      (finished s -> counts_balanced (Tester.stats (shared s)))) /\
  (forall t' fs' e,
      Run env fs t (Ok (t', fs', e)) -> counts_balanced (Tester.stats t')).
Proof.
  intros H0.
  assert (Hsteps : forall tr s,
      Steps (start t) tr s ->
      balanced_with (all_in_flight (workers s)) (shared s) /\
      (finished s -> counts_balanced (Tester.stats (shared s)))).
  { intros tr s Hs.
    assert (B : balanced_with (all_in_flight (workers s)) (shared s)).
    { apply (Steps_balanced _ _ _ Hs). unfold start. cbn [workers shared].
      rewrite all_in_flight_repeat_Waiting. unfold balanced_with.
      rewrite Z.add_0_r. exact H0. }
    split; [exact B|]. intros Hfin. unfold finished in Hfin.
    rewrite (finished_in_flight _ Hfin) in B. unfold balanced_with in B.
    rewrite Z.add_0_r in B. exact B. }
  split; [exact Hsteps|].
  intros t' fs' e HRun. inversion HRun as [|tr s Hc Hs Hfin Hafter].
  apply after_Wait_counts in Hafter.
  destruct (Hsteps tr s Hs) as [_ Hb]. specialize (Hb Hfin).
  unfold counts in Hafter. injection Hafter as Er Es Ef.
  unfold counts_balanced in *. rewrite Er, Es, Ef. exact Hb.
Qed.

(** A run of one worker on one token, answered by status 418. *)
Lemma teapot_run :
  let t := Tester.with_URL "http://fake.url" default_tester in
  Steps (start t)
    [(0%nat, ARecv); (0%nat, AAttempt); (0%nat, AAnswer (Responds 1500000 418));
     (0%nat, ATime); (0%nat, ALog); (0%nat, AFailure)]
    {| shared := DoRequest [Responds 1500000 418] t;
       tokens := 0;
       workers := [Returned] |}.
Proof.
  intros t. unfold start.
  change (Z.to_nat (Tester.Concurrency t)) with 1%nat. cbn [repeat].
  eapply Steps_cons.
  { apply (Step_worker _ _ [] Waiting [] ARecv). apply w_recv. reflexivity. }
  eapply Steps_cons.
  { apply (Step_worker _ _ [] Received [] AAttempt). apply w_attempt. }
  eapply Steps_cons.
  { apply (Step_worker _ _ [] Calling [] (AAnswer (Responds 1500000 418))).
    apply w_responds. }
  eapply Steps_cons.
  { apply (Step_worker _ _ [] (Responded 1500000 418) [] ATime). apply w_time. }
  eapply Steps_cons.
  { apply (Step_worker _ _ [] (Timed 418) [] ALog). apply w_bad_status. discriminate. }
  eapply Steps_cons.
  { apply (Step_worker _ _ [] BadStatusLogged [] AFailure). apply w_bad_status_failure. }
  apply Steps_nil.
Qed.

Lemma requests_are_successes_plus_failures_witness :
  let t := Tester.with_URL "http://fake.url" default_tester in
  let env := {| boxplot_png := Ok ""; histogram_png := Ok "";
                create_err := None; write_err := None;
                elapsed_total := 5000000 |} in
  counts_balanced (Tester.stats t) /\
  counts_balanced (Tester.stats (DoRequest [Responds 1500000 418] t)) /\
  counts (DoRequest [Responds 1500000 418] t) = (1, 0, 1).
Proof.
  intros t env.
  assert (H0 : counts_balanced (Tester.stats t)) by reflexivity.
  split; [exact H0|]. split; [|reflexivity].
  destruct (requests_are_successes_plus_failures env (fun _ => None) t H0)
    as [Hsteps _].
  destruct (Hsteps _ _ teapot_run) as [_ Hfin].
  apply Hfin. repeat constructor.
Defined.

(* ================================================================= *)
(** ** What reaches the recorder *)

Lemma wstep_samples t n p a t' n' p' :
  wstep (t, n, p) a (t', n', p') ->
  exists new,
    Tester.TimeRecorder t' = (Tester.TimeRecorder t ++ new)%list /\
    len new + untimed p' = untimed p + responses [(0%nat, a)].
Proof.
  intros H; inversion H; subst;
    try (exists []; split; [exact (eq_sym (List.app_nil_r _)) | reflexivity]).
  eexists [_]. split; reflexivity.
Qed.

Lemma responses_cons l tr : responses (l :: tr) = responses [l] + responses tr.
Proof. destruct l as [i []]; cbn; lia. Qed.

Lemma Steps_samples s tr s' :
  Steps s tr s' ->
  exists new,
    Tester.TimeRecorder (shared s') = (Tester.TimeRecorder (shared s) ++ new)%list /\
    len new + all_untimed (workers s') = all_untimed (workers s) + responses tr.
Proof.
  induction 1 as [s|s l s1 tr s2 Hstep _ IH].
  - exists []. rewrite List.app_nil_r. cbn. split; [reflexivity | lia].
  - destruct IH as (new2 & E2 & L2).
    destruct Hstep as [t n before p after a t' n' p' Hw].
    cbn [workers shared] in *.
    destruct (wstep_samples _ _ _ _ _ _ _ Hw) as (new1 & E1 & L1).
    exists (new1 ++ new2)%list. split.
    + rewrite E2, E1, List.app_assoc. reflexivity.
    + rewrite responses_cons. cbn [responses] in L1 |- *.
      rewrite all_untimed_app in *. cbn [all_untimed] in *.
      unfold len in *. rewrite List.length_app, Nat2Z.inj_add.
      destruct a; cbn in L1 |- *; lia.
Qed.

(** C3, as stated, fails: a call answered by a status other than 200 is
    classified as a failure and its latency is recorded all the same. *)
Lemma non_200_response_is_recorded :
  let t := DoRequest [Responds 1500000 418] default_tester in
  counts t = (1, 0, 1) /\
  Tester.TimeRecorder t = [milliseconds 1500000] /\
  Tester.TimeRecorder t <> Tester.TimeRecorder default_tester.
Proof. cbn. repeat split. discriminate. Qed.

(** C3, amended.  A latency sample is appended to the recorder if and only
    if the exchange brings a response back, whatever its status: a response
    with a status other than 200 is classified as a failure and its latency
    is recorded; a call that fails before any response (the request cannot be
    built, the exchange fails) is classified as a failure and records
    nothing.  So in a run the recorder gains one sample per response, and a
    run without any response leaves it as it was. *)
Theorem sample_recorded_iff_response (t : Tester.t) :
  (forall c,
      Tester.TimeRecorder (DoRequest [c] t) =
        match c with
        | Responds elapsed _ => (Tester.TimeRecorder t ++ [milliseconds elapsed])%list
        | _ => Tester.TimeRecorder t
        end) /\
  (forall c,
      succeeds c = false ->
      counts (DoRequest [c] t) =
        (GoInt.incr (Stats.Requests (Tester.stats t)),
         Stats.Successes (Tester.stats t),
         GoInt.incr (Stats.Failures (Tester.stats t)))) /\
  (forall tr s,
      Steps (start t) tr s ->
      finished s ->
      exists new,
        Tester.TimeRecorder (shared s) = (Tester.TimeRecorder t ++ new)%list /\
        len new = responses tr /\
        (responses tr = 0 -> Tester.TimeRecorder (shared s) = Tester.TimeRecorder t)).
Proof.
  split; [|split].
  - intros [msg|msg|elapsed status]; cbn; try reflexivity.
    destruct (negb _); reflexivity.
  - intros c Hc. apply (DoRequest_failing_call c [] t Hc).
  - intros tr s Hs Hfin.
    destruct (Steps_samples _ _ _ Hs) as (new & E & L).
    unfold start in L. cbn [workers shared] in *.
    rewrite all_untimed_repeat_Waiting, (finished_untimed _ Hfin) in L.
    exists new. split; [exact E|]. split; [lia|].
    intros Hz. rewrite E. destruct new; [apply List.app_nil_r|].
    unfold len in L. cbn [List.length] in L. lia.
Qed.

(** The run answered by status 418: no success, and one sample. *)
Lemma sample_recorded_iff_response_witness :
  let t := Tester.with_URL "http://fake.url" default_tester in
  exists new,
    Tester.TimeRecorder (DoRequest [Responds 1500000 418] t)
      = (Tester.TimeRecorder t ++ new)%list /\
    len new = 1.
Proof.
  intros t.
  destruct (sample_recorded_iff_response t) as (_ & _ & H).
  destruct (H _ _ teapot_run ltac:(repeat constructor)) as (new & E & L & _).
  exists new. split; [exact E | exact L].
Defined.

(* ================================================================= *)
(** ** The pool with one worker is [DoRequest] *)

Lemma wstep_resume t n p a t' n' p' calls r :
  wstep (t, n, p) a (t', n', p') ->
  (p' = Returned -> calls = []) ->
  resume p' calls t' = Some r ->
  resume p (match a with AAnswer c => c :: calls | _ => calls end) t = Some r.
Proof.
  intros H Hret; inversion H; subst; cbn [resume]; try (intros E; exact E).
  - destruct calls; [discriminate | trivial].
  - rewrite (Hret eq_refl). trivial.
  - destruct calls as [|c calls]; [discriminate|].
    destruct c; trivial.
  - destruct (negb (status =? http_StatusOK)) eqn:E; [trivial|].
    apply negb_false_iff, Z.eqb_eq in E. contradiction.
Qed.

Lemma single_worker_step t n p l s' :
  Step {| shared := t; tokens := n; workers := [p] |} l s' ->
  exists a t' n' p',
    l = (0%nat, a) /\
    s' = {| shared := t'; tokens := n'; workers := [p'] |} /\
    wstep (t, n, p) a (t', n', p').
Proof.
  intros H.
  remember {| shared := t; tokens := n; workers := [p] |} as s eqn:Es.
  destruct H as [t0 n0 before p0 after a t' n' p' Hw].
  injection Es as -> -> Ews.
  destruct before as [|x before].
  - cbn in Ews. injection Ews as -> ->. exists a, t', n', p'.
    repeat split. exact Hw.
  - cbn in Ews. injection Ews as _ Ews. destruct before; discriminate.
Qed.

Lemma single_worker_returned t n tr s' :
  Steps {| shared := t; tokens := n; workers := [Returned] |} tr s' -> tr = [].
Proof.
  intros H. inversion H as [|s l s1 tr' s2 Hstep Hrest]; subst; [reflexivity|].
  apply single_worker_step in Hstep. destruct Hstep as (a & t' & n' & p' & _ & _ & Hw).
  exfalso. eapply Returned_is_final, Hw.
Qed.

(** One worker alone: when it has returned, the tester is what [DoRequest]
    computes from the exchanges of the run. *)
Lemma single_worker_resume t n p tr t' n' :
  Steps {| shared := t; tokens := n; workers := [p] |} tr
        {| shared := t'; tokens := n'; workers := [Returned] |} ->
  resume p (answers tr) t = Some t'.
Proof.
  intros H.
  remember {| shared := t; tokens := n; workers := [p] |} as s eqn:Es.
  remember {| shared := t'; tokens := n'; workers := [Returned] |} as s' eqn:Es'.
  revert t n p Es Es'.
  induction H as [s|s l s1 tr s2 Hstep Hrest IH]; intros t n p Es Es'.
  - subst s. injection Es' as -> _ ->. reflexivity.
  - subst s. apply single_worker_step in Hstep.
    destruct Hstep as (a & t1 & n1 & p1 & -> & -> & Hw).
    specialize (IH t1 n1 p1 eq_refl Es').
    assert (Hret : p1 = Returned -> answers tr = []).
    { intros ->. apply single_worker_returned in Hrest. subst tr. reflexivity. }
    pose proof (wstep_resume _ _ _ _ _ _ _ _ _ Hw Hret IH) as R.
    destruct a; exact R.
Qed.

Lemma DoRequest_is_single_worker (t : Tester.t) tr s :
  Tester.Concurrency t = 1 ->
  Steps (start t) tr s -> finished s ->
  shared s = DoRequest (answers tr) t.
Proof.
  intros Hc Hsteps Hfin. unfold start in Hsteps. rewrite Hc in Hsteps.
  change (repeat Waiting (Z.to_nat 1)) with [Waiting] in Hsteps.
  assert (W : workers s = [Returned]).
  { assert (L : List.length (workers s) = 1%nat).
    { clear Hfin. remember {| shared := t; tokens := Tester.requests t; workers := [Waiting] |} as s0.
      assert (L0 : List.length (workers s0) = 1%nat) by (subst; reflexivity).
      clear Heqs0. induction Hsteps as [|s l s1 tr s2 Hstep _ IH]; [exact L0|].
      apply IH. destruct Hstep. cbn [workers] in *.
      rewrite List.length_app in *. cbn [List.length] in *. lia. }
    unfold finished in Hfin. destruct (workers s) as [|p [|q ws]]; try discriminate.
    inversion Hfin; subst. reflexivity. }
  destruct s as [t' n' ws]. cbn [workers shared] in *. subst ws.
  apply single_worker_resume in Hsteps. cbn [resume] in Hsteps. congruence.
Qed.

(* ================================================================= *)
(** ** In the pool too a failure ends the worker's loop *)

Lemma wstep_leaving t n p a t' n' p' :
  wstep (t, n, p) a (t', n', p') ->
  (leaving p = true -> leaving p' = true /\ iterates a = false) /\
  (match a with
   | AAnswer c => succeeds c = false -> leaving p' = true
   | AFailure => leaving p' = true
   | _ => True
   end).
Proof.
  intros H; inversion H; subst; cbn; split; try discriminate; try tauto;
    try (intros ->; reflexivity).
Qed.

Lemma nth_error_middle {A} (before : list A) p after :
  nth_error (before ++ p :: after) (List.length before) = Some p.
Proof. induction before; cbn; [reflexivity | assumption]. Qed.

Lemma nth_error_other {A} (before : list A) p p' after i :
  i <> List.length before ->
  nth_error (before ++ p' :: after) i = nth_error (before ++ p :: after) i.
Proof.
  revert i. induction before as [|x before IH]; intros i Hi.
  - destruct i; [contradiction | reflexivity].
  - destruct i; [reflexivity|]. cbn. apply IH. cbn in Hi. lia.
Qed.

(** Once worker [i] is on its way out, it stays so, and none of its later
    steps receives a token, records an attempt, makes an exchange or records
    a success. *)
Lemma Steps_leaving s tr s' i p :
  Steps s tr s' ->
  nth_error (workers s) i = Some p -> leaving p = true ->
  (forall a, In (i, a) tr -> iterates a = false) /\
  exists p', nth_error (workers s') i = Some p' /\ leaving p' = true.
Proof.
  intros H. revert p. induction H as [s|s l s1 tr s2 Hstep _ IH]; intros p Hp Hl.
  - split; [intros a []|]. exists p. split; assumption.
  - destruct Hstep as [t n before q after a t' n' q' Hw]. cbn [workers] in *.
    destruct (Nat.eq_dec i (List.length before)) as [->|Hne].
    + rewrite nth_error_middle in Hp. injection Hp as ->.
      destruct (wstep_leaving _ _ _ _ _ _ _ Hw) as [Hstay _].
      destruct (Hstay Hl) as [Hl' Ha].
      destruct (IH q' (nth_error_middle _ _ _) Hl') as [IH1 IH2].
      split; [|exact IH2].
      intros a0 [[= <-]|Hin]; [exact Ha | apply IH1, Hin].
    + rewrite <- (nth_error_other before q q' after i Hne) in Hp.
      destruct (IH p Hp Hl) as [IH1 IH2].
      split; [|exact IH2].
      intros a0 [[= E _]|Hin]; [congruence | apply IH1, Hin].
Qed.

(** After an exchange of worker [i] that fails, worker [i] starts no other
    iteration, whatever the other workers do. *)
Lemma pool_aborts_at_first_failure s c i s1 tr s2 :
  Step s (i, AAnswer c) s1 -> succeeds c = false ->
  Steps s1 tr s2 ->
  forall a, In (i, a) tr -> iterates a = false.
Proof.
  intros Hstep Hc Hsteps.
  remember (i, AAnswer c) as l eqn:El.
  destruct Hstep as [t n before q after a t' n' q' Hw].
  injection El as Ei Ea. subst a i.
  destruct (wstep_leaving _ _ _ _ _ _ _ Hw) as [_ Hfail]. cbn in Hfail.
  apply (Steps_leaving _ _ _ (List.length before) q' Hsteps).
  - cbn [workers]. apply nth_error_middle.
  - apply Hfail, Hc.
Qed.

(* ================================================================= *)
(** ** Strings: fields and lines *)

Lemma all_plain_app a b : all_plain (a ++ b) = all_plain a && all_plain b.
Proof.
  induction a as [|c a IH]; cbn; [reflexivity|].
  rewrite IH, andb_assoc. reflexivity.
Qed.

Lemma url_ok_app a b : url_ok (a ++ b) = url_ok a && url_ok b.
Proof.
  induction a as [|c a IH]; cbn; [reflexivity|].
  rewrite IH, !andb_assoc. reflexivity.
Qed.

Lemma all_plain_url_ok s : all_plain s = true -> url_ok s = true.
Proof.
  induction s as [|c s IH]; cbn; [reflexivity|].
  unfold plain. intros H. apply andb_true_iff in H. destruct H as [Hc Hs].
  apply andb_true_iff in Hc. destruct Hc as [Hc _].
  rewrite Hc, (IH Hs). reflexivity.
Qed.

Lemma append_assoc (a b c : string) : (a ++ b) ++ c = a ++ (b ++ c).
Proof. induction a as [|x a IH]; cbn; [reflexivity | rewrite IH; reflexivity]. Qed.

Lemma append_nil_r (a : string) : a ++ "" = a.
Proof. induction a as [|x a IH]; cbn; [reflexivity | rewrite IH; reflexivity]. Qed.

Lemma snoc_append cur c r : Bytes.snoc cur c ++ r = cur ++ String c r.
Proof. unfold Bytes.snoc. rewrite append_assoc. reflexivity. Qed.

Lemma len_append a b : Bytes.len (a ++ b) = Bytes.len a + Bytes.len b.
Proof.
  unfold Bytes.len. induction a as [|x a IH]; cbn [String.length append].
  - reflexivity.
  - rewrite !Nat2Z.inj_succ, IH. lia.
Qed.

Lemma len_nonneg a : 0 <= Bytes.len a.
Proof. unfold Bytes.len. lia. Qed.

(** A field without a comma, followed by a comma, is the first field. *)
Lemma Split_from_field a b cur :
  url_ok a = true ->
  strings.Split_from (a ++ String Bytes.comma b) cur
  = (cur ++ a) :: strings.Split_from b "".
Proof.
  revert cur. induction a as [|c a IH]; intros cur H.
  - cbn. rewrite append_nil_r. reflexivity.
  - cbn [url_ok] in H. apply andb_true_iff in H. destruct H as [Hc Ha].
    apply andb_true_iff in Hc. destruct Hc as [Hc _].
    cbn [append strings.Split_from]. apply negb_true_iff in Hc. rewrite Hc.
    rewrite (IH _ Ha), snoc_append. reflexivity.
Qed.

(** A field without a comma, at the end, is the last field. *)
Lemma Split_from_last a cur :
  url_ok a = true -> strings.Split_from a cur = [cur ++ a].
Proof.
  revert cur. induction a as [|c a IH]; intros cur H.
  - cbn. rewrite append_nil_r. reflexivity.
  - cbn [url_ok] in H. apply andb_true_iff in H. destruct H as [Hc Ha].
    apply andb_true_iff in Hc. destruct Hc as [Hc _].
    cbn [strings.Split_from]. apply negb_true_iff in Hc. rewrite Hc.
    rewrite (IH _ Ha), snoc_append. reflexivity.
Qed.

Lemma Split_seven u f1 f2 f3 f4 f5 f6 :
  url_ok u = true -> url_ok f1 = true -> url_ok f2 = true -> url_ok f3 = true ->
  url_ok f4 = true -> url_ok f5 = true -> url_ok f6 = true ->
  strings.Split (u ++ "," ++ f1 ++ "," ++ f2 ++ "," ++ f3 ++ "," ++ f4 ++ ","
                 ++ f5 ++ "," ++ f6)
  = [u; f1; f2; f3; f4; f5; f6].
Proof.
  intros H0 H1 H2 H3 H4 H5 H6. unfold strings.Split.
  change ("," ++ ?x) with (String Bytes.comma x).
  repeat (rewrite Split_from_field by assumption; cbn [append]; f_equal).
  apply Split_from_last. assumption.
Qed.

Lemma dropCR_no_CR s : Bytes.last_is Bytes.CR s = false -> bufio.dropCR s = s.
Proof.
  induction s as [|c s IH]; [reflexivity|].
  destruct s as [|d s].
  - cbn. intros ->. reflexivity.
  - intros H. change (bufio.dropCR (String c (String d s)))
      with (String c (bufio.dropCR (String d s))).
    rewrite IH; [reflexivity | exact H].
Qed.

Lemma last_is_plain s c :
  all_plain (String c s) = true -> Bytes.last_is Bytes.CR (String c s) = false.
Proof.
  revert c. induction s as [|d s IH]; intros c H.
  - cbn in *. unfold plain in H. rewrite andb_true_r in H.
    apply andb_true_iff in H. destruct H as [_ H]. apply negb_true_iff in H. exact H.
  - change (Bytes.last_is Bytes.CR (String c (String d s)))
      with (Bytes.last_is Bytes.CR (String d s)).
    apply IH. cbn [all_plain] in H. apply andb_true_iff in H. apply H.
Qed.

Lemma last_is_append a b c :
  Bytes.last_is Bytes.CR (a ++ String c b) = Bytes.last_is Bytes.CR (String c b).
Proof.
  induction a as [|x a IH]; [reflexivity|].
  cbn [append]. destruct (a ++ String c b) eqn:E.
  - destruct a; discriminate.
  - rewrite <- E in *. change (Bytes.last_is Bytes.CR (String x (a ++ String c b)))
      with (match a ++ String c b with "" => Bytes.eqb x Bytes.CR
            | _ => Bytes.last_is Bytes.CR (a ++ String c b) end).
    rewrite E, <- IH, E. reflexivity.
Qed.

Lemma contains_append c a b :
  Bytes.contains c (a ++ b) = Bytes.contains c a || Bytes.contains c b.
Proof.
  induction a as [|x a IH]; cbn; [reflexivity|].
  rewrite IH, orb_assoc. reflexivity.
Qed.

Lemma url_ok_no_LF s : url_ok s = true -> Bytes.contains Bytes.LF s = false.
Proof.
  induction s as [|c s IH]; cbn; [reflexivity|].
  intros H. apply andb_true_iff in H. destruct H as [Hc Hs].
  apply andb_true_iff in Hc. destruct Hc as [_ Hc]. apply negb_true_iff in Hc.
  rewrite Hc, (IH Hs). reflexivity.
Qed.

(** A text without a line feed, short enough, is read as one line. *)
Lemma ScanLines_from_one_line data line n :
  Bytes.contains Bytes.LF data = false ->
  n = Bytes.len line ->
  n + Bytes.len data < bufio.MaxScanTokenSize ->
  0 < n + Bytes.len data ->
  bufio.ScanLines_from data line n = ([bufio.dropCR (line ++ data)], None).
Proof.
  revert line n. induction data as [|c data IH]; intros line n Hok Hn Hlen Hpos.
  - cbn [bufio.ScanLines_from]. change (Bytes.len "") with 0 in Hpos.
    replace (n =? 0) with false by (symmetry; apply Z.eqb_neq; lia).
    rewrite append_nil_r. reflexivity.
  - cbn [Bytes.contains] in Hok. apply orb_false_iff in Hok. destruct Hok as [Hc Hok].
    cbn [bufio.ScanLines_from]. rewrite Hc.
    assert (L : Bytes.len (String c data) = 1 + Bytes.len data).
    { unfold Bytes.len. cbn [String.length]. lia. }
    pose proof (len_nonneg data).
    rewrite L in Hlen.
    replace (bufio.MaxScanTokenSize <=? n + 1) with false
      by (symmetry; apply Z.leb_gt; lia).
    rewrite (IH (Bytes.snoc line c) (n + 1) Hok).
    + rewrite snoc_append. reflexivity.
    + unfold Bytes.snoc. rewrite len_append, Hn. reflexivity.
    + lia.
    + lia.
Qed.

Lemma ScanLines_one_line data :
  Bytes.contains Bytes.LF data = false ->
  Bytes.last_is Bytes.CR data = false ->
  0 < Bytes.len data < bufio.MaxScanTokenSize ->
  bufio.ScanLines data = ([data], None).
Proof.
  intros Hok Hcr Hlen. unfold bufio.ScanLines.
  rewrite (ScanLines_from_one_line data "" 0 Hok eq_refl); try lia.
  cbn [append]. rewrite (dropCR_no_CR _ Hcr). reflexivity.
Qed.

(* ================================================================= *)
(** ** Printing and parsing integers *)

Lemma digits_value_ge d n : 0 <= n -> n <= digits_value d n.
Proof.
  revert n. induction d; intros n Hn; cbn [digits_value]; try lia;
    match goal with
    | |- _ <= digits_value _ ?m => specialize (IHd m ltac:(lia)); lia
    end.
Qed.

Lemma digits_value_acc d acc :
  digits_value d (Zpos acc) = Zpos (Pos.of_uint_acc d acc).
Proof.
  revert acc. induction d; intros acc; cbn [digits_value Pos.of_uint_acc];
    try reflexivity; rewrite <- IHd; f_equal; lia.
Qed.

Lemma digits_value_0 d : digits_value d 0 = Z.of_N (Pos.of_uint d).
Proof.
  induction d; cbn [digits_value Pos.of_uint]; try reflexivity;
    try exact IHd;
    match goal with
    | |- digits_value _ ?m = _ =>
        let p := eval cbv in (Z.to_pos m) in
        change m with (Zpos p); rewrite digits_value_acc; reflexivity
    end.
Qed.

Lemma ParseUint_from_digits d n :
  0 <= n ->
  digits_value d n <= strconv.maxUint64 ->
  strconv.ParseUint_from (NilEmpty.string_of_uint d) n = inr (digits_value d n).
Proof.
  revert n. induction d; intros n Hn Hmax;
    cbn [NilEmpty.string_of_uint strconv.ParseUint_from digits_value] in *;
    try reflexivity;
    match goal with
    | |- context [Bytes.is_digit ?c] =>
        change (Bytes.is_digit c) with true; cbv iota;
        match goal with
        | |- context [Bytes.digit_val c] =>
            let v := eval cbv in (Bytes.digit_val c) in
            change (Bytes.digit_val c) with v
        end
    end;
    match goal with
    | H : digits_value ?l ?m <= _ |- _ =>
        pose proof (digits_value_ge l m ltac:(lia));
        replace (strconv.maxUint64 <? m) with false
          by (symmetry; apply Z.ltb_ge; lia);
        apply IHd; [lia | exact H]
    end.
Qed.

Lemma all_plain_digits d : all_plain (NilEmpty.string_of_uint d) = true.
Proof. induction d; cbn; [reflexivity | exact IHd ..]. Qed.

Lemma NilZero_string_of_uint_nonnil d :
  d <> Decimal.Nil -> NilZero.string_of_uint d = NilEmpty.string_of_uint d.
Proof. destruct d; [congruence | reflexivity ..]. Qed.

Lemma all_plain_NilZero d : all_plain (NilZero.string_of_uint d) = true.
Proof.
  destruct d; [reflexivity | apply (all_plain_digits (_ _)) ..].
Qed.

Lemma all_plain_FormatInt n : all_plain (strconv.FormatInt n) = true.
Proof.
  unfold strconv.FormatInt. destruct n as [|p|p]; cbn [Z.to_int NilZero.string_of_int].
  - reflexivity.
  - apply all_plain_NilZero.
  - cbn [all_plain]. rewrite all_plain_NilZero. reflexivity.
Qed.

(** The digits of a positive number, read back. *)
Lemma Atoi_digits_of_pos p :
  Zpos p <= 2 ^ 63 ->
  exists c r,
    NilZero.string_of_uint (Pos.to_uint p) = String c r /\
    Bytes.is_digit c = true /\
    strconv.ParseUint_from (String c r) 0 = inr (Zpos p).
Proof.
  intros Hp.
  pose proof (DecimalPos.Unsigned.to_uint_nonnil p) as Hnn.
  rewrite (NilZero_string_of_uint_nonnil _ Hnn).
  assert (V : digits_value (Pos.to_uint p) 0 = Zpos p).
  { rewrite digits_value_0, DecimalPos.Unsigned.of_to. reflexivity. }
  assert (P : strconv.ParseUint_from (NilEmpty.string_of_uint (Pos.to_uint p)) 0
              = inr (Zpos p)).
  { rewrite <- V. apply ParseUint_from_digits; [lia|].
    rewrite V. unfold strconv.maxUint64. lia. }
  destruct (Pos.to_uint p) eqn:E; [congruence | ..];
    cbn [NilEmpty.string_of_uint] in *; eexists _, _;
    (split; [reflexivity | split; [reflexivity | exact P]]).
Qed.

(** [Atoi] reads back what [%d] prints. *)
Lemma Atoi_FormatInt n :
  GoInt.in_range n -> strconv.Atoi (strconv.FormatInt n) = Ok n.
Proof.
  unfold GoInt.in_range, GoInt.min_int, GoInt.max_int. intros Hn.
  unfold strconv.FormatInt. destruct n as [|p|p]; cbn [Z.to_int NilZero.string_of_int].
  - reflexivity.
  - destruct (Atoi_digits_of_pos p ltac:(lia)) as (c & r & E & Hc & P).
    rewrite E. unfold strconv.Atoi.
    assert (S : match String c r with
                | String "+" r0 => (false, r0)
                | String "-" r0 => (true, r0)
                | _ => (false, String c r)
                end = (false, String c r)).
    { destruct c as [[] [] [] [] [] [] [] []]; try reflexivity; discriminate Hc. }
    rewrite S, P.
    replace (2 ^ 63 <=? Zpos p) with false by (symmetry; apply Z.leb_gt; lia).
    reflexivity.
  - destruct (Atoi_digits_of_pos p ltac:(lia)) as (c & r & E & Hc & P).
    rewrite E. unfold strconv.Atoi. cbv iota beta. rewrite P.
    replace (2 ^ 63 <? Zpos p) with false by (symmetry; apply Z.ltb_ge; lia).
    reflexivity.
Qed.

(* ================================================================= *)
(** ** Printing floats *)

Lemma all_plain_digits_of n : all_plain (strconv.digits_of n) = true.
Proof. apply all_plain_NilZero. Qed.

Lemma all_plain_FormatFloat3 x : all_plain (strconv.FormatFloat3 x) = true.
Proof.
  destruct x as [s|s| |s m e]; cbn [strconv.FormatFloat3].
  - destruct s; reflexivity.
  - destruct s; reflexivity.
  - reflexivity.
  - unfold strconv.pad3.
    rewrite !all_plain_app, !all_plain_digits_of. destruct s; reflexivity.
Qed.

Lemma FormatFloat3_nonempty x : exists c r, strconv.FormatFloat3 x = String c r.
Proof.
  destruct x as [s|s| |s m e]; cbn [strconv.FormatFloat3].
  - destruct s; eexists _, _; reflexivity.
  - destruct s; eexists _, _; reflexivity.
  - eexists _, _; reflexivity.
  - destruct s; cbn [append].
    + eexists _, _; reflexivity.
    + destruct (strconv.digits_of _); cbn [append]; eexists _, _; reflexivity.
Qed.

(* ================================================================= *)
(** ** The stats codec: writing, then reading *)

(** C2, as stated, fails: the mean is not written, so it comes back as
    zero.  The record is one [SetMetrics] produces from the samples 50, 100,
    200, 100, 50 of the package's test. *)
Lemma round_trip_loses_mean :
  let s := Stats.mk "http://fake.url" (F64.of_int 100) (F64.of_int 100)
             (F64.of_int 200) (F64.of_int 200) 0 5 5 in
  ReadStatsFile (io.data (fst (WriteStatsFile io.empty s)))
    = Ok [Stats.mk "http://fake.url" F64.zero (F64.of_int 100)
            (F64.of_int 200) (F64.of_int 200) 0 5 5] /\
  ReadStatsFile (io.data (fst (WriteStatsFile io.empty s))) <> Ok [s].
Proof. split; [vm_compute; reflexivity | vm_compute; discriminate]. Qed.

(** Nor do the percentiles come back when they have more than three
    decimals: 1/8000 is written as 0.000. *)
Lemma round_trip_rounds_percentiles :
  let s := Stats.mk "http://fake.url" F64.zero (F64.of_ratio 1 8000)
             (F64.of_int 1) (F64.of_int 1) 0 5 5 in
  stats_line s = "http://fake.url,5,5,0,0.000,1.000,1.000" /\
  ReadStatsFile (io.data (fst (WriteStatsFile io.empty s))) <> Ok [s].
Proof. split; [vm_compute; reflexivity | vm_compute; discriminate]. Qed.

Lemma contains_LF_plain s : all_plain s = true -> Bytes.contains Bytes.LF s = false.
Proof. intros H. apply url_ok_no_LF, all_plain_url_ok, H. Qed.

Lemma stats_line_one_line s :
  url_ok (Stats.URL s) = true ->
  Bytes.len (stats_line s) < bufio.MaxScanTokenSize ->
  bufio.ScanLines (stats_line s) = ([stats_line s], None).
Proof.
  intros Hurl Hlen. apply ScanLines_one_line.
  - unfold stats_line. rewrite !contains_append.
    rewrite (url_ok_no_LF _ Hurl).
    rewrite !(contains_LF_plain _ (all_plain_FormatInt _)).
    rewrite !(contains_LF_plain _ (all_plain_FormatFloat3 _)).
    reflexivity.
  - unfold stats_line.
    destruct (FormatFloat3_nonempty (Stats.P99 s)) as (c & r & E).
    pose proof (all_plain_FormatFloat3 (Stats.P99 s)) as Hp. rewrite E in Hp.
    rewrite E. rewrite <- !append_assoc, last_is_append.
    apply last_is_plain, Hp.
  - split; [|exact Hlen]. unfold stats_line.
    rewrite len_append, len_append.
    pose proof (len_nonneg (Stats.URL s)).
    match goal with |- 0 < _ + (Bytes.len "," + Bytes.len ?x) =>
      pose proof (len_nonneg x) end.
    change (Bytes.len ",") with 1. lia.
Qed.

(** C2, amended.  Decoding the line that encodes a record gives the record
    back, [decode(encode(s)) == [s]], for every record whose mean is zero
    (the line has no field for it), whose URL has no comma and no line feed,
    whose counts are ints, whose three percentiles are unchanged by printing
    with three decimals and parsing back, and whose line fits the scanner's
    buffer. *)
Theorem stats_round_trip (s : Stats.t) :
  Stats.Mean s = F64.zero ->
  url_ok (Stats.URL s) = true ->
  ints_ok s ->
  three_decimals (Stats.P50 s) ->
  three_decimals (Stats.P90 s) ->
  three_decimals (Stats.P99 s) ->
  Bytes.len (stats_line s) < bufio.MaxScanTokenSize ->
  WriteStatsFile io.empty s = ({| io.data := stats_line s; io.fail := None |}, None) /\
  ReadStatsFile (io.data (fst (WriteStatsFile io.empty s))) = Ok [s].
Proof.
  intros Hmean Hurl (Hr & Hs & Hf) H50 H90 H99 Hlen.
  split; [reflexivity|].
  change (io.data (fst (WriteStatsFile io.empty s))) with (stats_line s).
  unfold ReadStatsFile. rewrite (stats_line_one_line s Hurl Hlen).
  cbn [read_records]. unfold read_record.
  assert (Hsplit : strings.Split (stats_line s) =
    [Stats.URL s; strconv.FormatInt (Stats.Requests s);
     strconv.FormatInt (Stats.Successes s); strconv.FormatInt (Stats.Failures s);
     strconv.FormatFloat3 (Stats.P50 s); strconv.FormatFloat3 (Stats.P90 s);
     strconv.FormatFloat3 (Stats.P99 s)]).
  { apply Split_seven; try exact Hurl;
      apply all_plain_url_ok;
      first [apply all_plain_FormatInt | apply all_plain_FormatFloat3]. }
  rewrite Hsplit.
  repeat match goal with
  | |- context [index (?a :: ?l) ?i] =>
      let v := eval cbv [index List.length nth_error Z.of_nat Z.to_nat Pos.of_succ_nat
                         Pos.succ Z.ltb Z.leb Z.compare Pos.compare Pos.compare_cont
                         Pos.to_nat Pos.iter_op Nat.add orb]
               in (index (a :: l) i) in
      change (index (a :: l) i) with v; cbn [bind]
  end.
  rewrite !Atoi_FormatInt by assumption. cbn [bind].
  unfold three_decimals in *. rewrite H50, H90, H99. cbn [bind app].
  destruct s as [u mean p50 p90 p99 f r su]. cbn in *. subst mean. reflexivity.
Qed.

(** The record of the package's tests for the codec. *)
Lemma stats_round_trip_witness :
  let s := Stats.mk "http://fake.url" F64.zero (F64.of_ratio 100123 1000)
             (F64.of_int 150) (F64.of_ratio 198465 1000) 2 20 18 in
  stats_line s = "http://fake.url,20,18,2,100.123,150.000,198.465" /\
  ReadStatsFile (io.data (fst (WriteStatsFile io.empty s))) = Ok [s].
Proof.
  intros s. split; [vm_compute; reflexivity|].
  apply (stats_round_trip s).
  - reflexivity.
  - reflexivity.
  - unfold ints_ok, GoInt.in_range, GoInt.min_int, GoInt.max_int. cbn. lia.
  - vm_compute. reflexivity.
  - vm_compute. reflexivity.
  - vm_compute. reflexivity.
  - vm_compute. reflexivity.
Defined.

(* ================================================================= *)
(** ** Binary64: the rounding of [SpecFloat] in terms of integers *)

Lemma digits2_pos_size p : digits2_pos p = Pos.size p.
Proof. induction p; cbn; congruence. Qed.

Lemma digits_bounds p :
  2 ^ (Zpos (digits2_pos p) - 1) <= Zpos p < 2 ^ Zpos (digits2_pos p).
Proof.
  rewrite digits2_pos_size.
  pose proof (Pos.size_gt p) as Hgt. pose proof (Pos.size_le p) as Hle.
  apply Pos2Z.pos_lt_pos in Hgt. apply Pos2Z.pos_le_pos in Hle.
  rewrite Pos2Z.inj_pow in Hgt, Hle. change (Zpos p~0) with (2 * Zpos p) in Hle.
  assert (E : 2 ^ Zpos (Pos.size p) = 2 ^ (Zpos (Pos.size p) - 1) * 2).
  { rewrite Z.mul_comm, <- (Z.pow_succ_r 2) by lia. f_equal. lia. }
  split; lia.
Qed.

Lemma digits_unique p d :
  2 ^ (d - 1) <= Zpos p < 2 ^ d -> Zpos (digits2_pos p) = d.
Proof.
  intros [Hlo Hhi]. pose proof (digits_bounds p) as [Blo Bhi].
  assert (0 < d).
  { destruct (Z.le_gt_cases d 0) as [Hd|Hd]; [|exact Hd].
    assert (2 ^ d <= 2 ^ 0) by (apply Z.pow_le_mono_r; lia).
    change (2 ^ 0) with 1 in *. lia. }
  destruct (Z.lt_trichotomy (Zpos (digits2_pos p)) d) as [Hlt|[Heq|Hgt]];
    [|exact Heq|].
  - assert (2 ^ Zpos (digits2_pos p) <= 2 ^ (d - 1))
      by (apply Z.pow_le_mono_r; lia). lia.
  - assert (2 ^ d <= 2 ^ (Zpos (digits2_pos p) - 1))
      by (apply Z.pow_le_mono_r; lia). lia.
Qed.

Lemma iter_pos_nat {A} (f : A -> A) p x :
  iter_pos f p x = Nat.iter (Pos.to_nat p) f x.
Proof.
  revert x. induction p as [p IH|p IH|]; intros x; cbn [iter_pos].
  - rewrite !IH, Pos2Nat.inj_xI. cbn [Nat.mul]. rewrite Nat.add_0_r.
    rewrite <- Nat.iter_add. rewrite Nat.iter_succ_r. reflexivity.
  - rewrite !IH, Pos2Nat.inj_xO. cbn [Nat.mul]. rewrite Nat.add_0_r.
    rewrite <- Nat.iter_add. reflexivity.
  - reflexivity.
Qed.

Lemma shr_1_spec m r s :
  0 <= m ->
  shr_1 {| shr_m := m; shr_r := r; shr_s := s |}
  = {| shr_m := m / 2; shr_r := Z.odd m; shr_s := r || s |}.
Proof.
  intros Hm. rewrite <- Z.div2_div.
  destruct m as [|[p|p|]|p]; try reflexivity. lia.
Qed.

(** After [j + 1] shifts: the quotient, the last bit shifted out, and
    whether a bit shifted out before it was set. *)
Lemma shr_iter M j :
  0 <= M ->
  Nat.iter (S j) shr_1 {| shr_m := M; shr_r := false; shr_s := false |}
  = {| shr_m := M / 2 ^ (Z.of_nat j + 1);
       shr_r := Z.odd (M / 2 ^ Z.of_nat j);
       shr_s := negb (M mod 2 ^ Z.of_nat j =? 0) |}.
Proof.
  intros HM. induction j as [|j IH].
  - cbn [Nat.iter]. rewrite shr_1_spec by exact HM.
    change (2 ^ (Z.of_nat 0 + 1)) with 2. change (2 ^ Z.of_nat 0) with 1.
    rewrite Z.div_1_r, Z.mod_1_r. reflexivity.
  - rewrite Nat.iter_succ, IH. rewrite Nat2Z.inj_succ.
    set (J := Z.of_nat j). assert (HJ : 0 <= J) by (unfold J; lia).
    replace (Z.succ J) with (J + 1) by lia.
    assert (P : 0 < 2 ^ J) by (apply Z.pow_pos_nonneg; lia).
    assert (P1 : 2 ^ (J + 1) = 2 ^ J * 2)
      by (rewrite Z.pow_add_r by lia; reflexivity).
    assert (P2 : 2 ^ (J + 1 + 1) = 2 ^ (J + 1) * 2)
      by (rewrite (Z.pow_add_r 2 (J + 1) 1) by lia; reflexivity).
    rewrite shr_1_spec by (apply Z.div_pos; lia).
    f_equal.
    + rewrite Z.div_div by lia. rewrite P2. reflexivity.
    + rewrite P1. rewrite Z.rem_mul_r by lia.
      pose proof (Z.mod_pos_bound M (2 ^ J) P) as B1.
      rewrite (Zmod_odd (M / 2 ^ J)).
      destruct (Z.odd (M / 2 ^ J)); cbn [orb].
      * symmetry. apply negb_true_iff, Z.eqb_neq. lia.
      * rewrite Z.mul_0_r, Z.add_0_r. reflexivity.
Qed.

(** Shifting [k] bits out of [M] and rounding to nearest even is the
    rounded quotient by [2^k]. *)
Lemma shr_round M E k :
  0 <= M -> 0 < k ->
  let '(mrs, e) := shr {| shr_m := M; shr_r := false; shr_s := false |} E k in
  round_nearest_even (shr_m mrs) (loc_of_shr_record mrs)
    = strconv.round_half_even M (2 ^ k) /\
  e = E + k.
Proof.
  intros HM Hk. destruct k as [|p|p]; try lia. cbn [shr].
  split; [|reflexivity].
  rewrite iter_pos_nat.
  destruct (Pos.to_nat p) as [|j] eqn:Ej; [lia|].
  rewrite shr_iter by exact HM.
  assert (Hp : Zpos p = Z.of_nat j + 1) by lia. rewrite Hp.
  set (J := Z.of_nat j). assert (HJ : 0 <= J) by (unfold J; lia).
  assert (P : 0 < 2 ^ J) by (apply Z.pow_pos_nonneg; lia).
  unfold strconv.round_half_even.
  rewrite Z.pow_add_r by lia. change (2 ^ 1) with 2.
  rewrite Z.rem_mul_r by lia.
  pose proof (Z.mod_pos_bound M (2 ^ J) P) as B1.
  rewrite (Zmod_odd (M / 2 ^ J)).
  cbn [shr_m shr_r shr_s loc_of_shr_record].
  destruct (Z.odd (M / 2 ^ J)); destruct (M mod 2 ^ J =? 0) eqn:Ez;
    cbn [negb loc_of_shr_record round_nearest_even];
    [apply Z.eqb_eq in Ez | apply Z.eqb_neq in Ez
    |apply Z.eqb_eq in Ez | apply Z.eqb_neq in Ez].
  - replace (2 * (M mod 2 ^ J + 2 ^ J * 1) <? 2 ^ J * 2) with false
      by (symmetry; apply Z.ltb_ge; lia).
    replace (2 ^ J * 2 <? 2 * (M mod 2 ^ J + 2 ^ J * 1)) with false
      by (symmetry; apply Z.ltb_ge; lia).
    reflexivity.
  - replace (2 * (M mod 2 ^ J + 2 ^ J * 1) <? 2 ^ J * 2) with false
      by (symmetry; apply Z.ltb_ge; lia).
    replace (2 ^ J * 2 <? 2 * (M mod 2 ^ J + 2 ^ J * 1)) with true
      by (symmetry; apply Z.ltb_lt; lia).
    reflexivity.
  - replace (2 * (M mod 2 ^ J + 2 ^ J * 0) <? 2 ^ J * 2) with true
      by (symmetry; apply Z.ltb_lt; lia).
    reflexivity.
  - replace (2 * (M mod 2 ^ J + 2 ^ J * 0) <? 2 ^ J * 2) with true
      by (symmetry; apply Z.ltb_lt; lia).
    reflexivity.
Qed.

Lemma fexp_normal e : -1021 <= e -> fexp F64.prec F64.emax e = e - 53.
Proof. unfold fexp, emin, F64.prec, F64.emax. lia. Qed.

Lemma round_half_even_bounds a b :
  0 < b -> a / b <= strconv.round_half_even a b <= a / b + 1.
Proof.
  intros Hb. unfold strconv.round_half_even.
  destruct (2 * (a mod b) <? b); [lia|].
  destruct (b <? 2 * (a mod b)); [lia|].
  destruct (Z.even (a / b)); lia.
Qed.

(** A mantissa of at most 53 bits, at an exponent of the format, is kept. *)
Lemma binary_round_aux_exact s m E :
  Zpos (digits2_pos m) <= 53 -> -1074 <= E <= 971 ->
  binary_round_aux F64.prec F64.emax s (Zpos m) E loc_Exact = S754_finite s m E.
Proof.
  intros Hd HE. unfold binary_round_aux, shr_fexp.
  cbn [Zdigits2 shr_record_of_loc].
  assert (Hs : fexp F64.prec F64.emax (Zpos (digits2_pos m) + E) - E <= 0).
  { unfold fexp, emin, F64.prec, F64.emax. lia. }
  assert (Hshr : forall r, shr r E (fexp F64.prec F64.emax (Zpos (digits2_pos m) + E) - E)
                           = (r, E)).
  { intros r. destruct (fexp _ _ _ - E); try reflexivity. lia. }
  rewrite Hshr. cbn [shr_m loc_of_shr_record round_nearest_even Zdigits2].
  rewrite Hshr. cbn [shr_m].
  replace (E <=? F64.emax - F64.prec) with true
    by (symmetry; apply Z.leb_le; unfold F64.emax, F64.prec; lia).
  reflexivity.
Qed.

(** A mantissa of more than 53 bits is rounded to 53 bits, to nearest
    even; when the rounding carries into a 54th bit the exponent grows. *)
Lemma binary_round_aux_round s m E :
  let d := Zpos (digits2_pos m) in
  let e0 := E + d - 53 in
  53 < d -> -1074 <= e0 -> e0 < 971 ->
  exists m' e',
    binary_round_aux F64.prec F64.emax s (Zpos m) E loc_Exact = S754_finite s m' e' /\
    2 ^ 52 <= Zpos m' < 2 ^ 53 /\
    e0 <= e' <= e0 + 1 /\
    Zpos m' * 2 ^ (e' - e0) = strconv.round_half_even (Zpos m) (2 ^ (d - 53)).
Proof.
  intros d e0 Hd Hlo Hhi.
  pose proof (digits_bounds m) as [Blo Bhi]. fold d in Blo, Bhi.
  set (k := d - 53). assert (Hk : 0 < k) by (unfold k; lia).
  assert (Pk : 0 < 2 ^ k) by (apply Z.pow_pos_nonneg; lia).
  assert (Ed : 2 ^ d = 2 ^ 53 * 2 ^ k).
  { rewrite <- Z.pow_add_r by lia. f_equal. unfold k. lia. }
  assert (Ed1 : 2 ^ (d - 1) = 2 ^ 52 * 2 ^ k).
  { rewrite <- Z.pow_add_r by lia. f_equal. unfold k. lia. }
  assert (Q : 2 ^ 52 <= Zpos m / 2 ^ k < 2 ^ 53).
  { split.
    - apply Z.div_le_lower_bound; lia.
    - apply Z.div_lt_upper_bound; lia. }
  pose proof (round_half_even_bounds (Zpos m) (2 ^ k) Pk) as R.
  set (m0 := strconv.round_half_even (Zpos m) (2 ^ k)) in *.
  unfold binary_round_aux, shr_fexp. cbn [Zdigits2 shr_record_of_loc].
  fold d. rewrite fexp_normal by (unfold e0 in *; lia).
  replace (d + E - 53 - E) with k by (unfold k; lia).
  pose proof (shr_round (Zpos m) E k ltac:(lia) Hk) as Hshr.
  destruct (shr _ E k) as [mrs e1]. destruct Hshr as [Hm0 He1].
  fold m0 in Hm0. rewrite Hm0. subst e1.
  replace (E + k) with e0 by (unfold e0, k; lia).
  destruct m0 as [|q|q] eqn:Eq; try lia.
  destruct (Z.eq_dec (Zpos q) (2 ^ 53)) as [Hcarry|Hno].
  - (* the rounding carries *)
    assert (Dq : Zpos (digits2_pos q) = 54).
    { apply digits_unique. rewrite Hcarry. split; [|apply Z.pow_lt_mono_r]; lia. }
    cbn [Zdigits2 shr_record_of_loc]. rewrite Dq.
    rewrite fexp_normal by lia.
    replace (54 + e0 - 53 - e0) with 1 by lia.
    cbn [shr iter_pos]. rewrite shr_1_spec by lia. cbn [shr_m].
    rewrite Hcarry. change (2 ^ 53 / 2) with (2 ^ 52).
    change (2 ^ 52) with (Zpos (Z.to_pos (2 ^ 52))) at 1. cbv iota.
    replace (e0 + 1 <=? F64.emax - F64.prec) with true
      by (symmetry; apply Z.leb_le; unfold F64.emax, F64.prec; lia).
    eexists _, _. split; [reflexivity|].
    change (Zpos (Z.to_pos (2 ^ 52))) with (2 ^ 52).
    split; [lia|]. split; [lia|].
    replace (e0 + 1 - e0) with 1 by lia. lia.
  - assert (Dq : Zpos (digits2_pos q) = 53).
    { apply digits_unique. change (53 - 1) with 52. lia. }
    cbn [Zdigits2 shr_record_of_loc]. rewrite Dq.
    rewrite fexp_normal by lia.
    replace (53 + e0 - 53 - e0) with 0 by lia.
    cbn [shr shr_m].
    replace (e0 <=? F64.emax - F64.prec) with true
      by (symmetry; apply Z.leb_le; unfold F64.emax, F64.prec; lia).
    eexists _, _. split; [reflexivity|].
    split; [lia|]. split; [lia|].
    rewrite Z.sub_diag. lia.
Qed.

Lemma bits_bounds n : 0 < n -> 2 ^ (bits n - 1) <= n < 2 ^ bits n.
Proof.
  intros Hn. unfold bits. destruct (Z.log2_spec n Hn) as [Hlo Hhi].
  replace (Z.log2 n + 1 - 1) with (Z.log2 n) by lia.
  replace (Z.log2 n + 1) with (Z.succ (Z.log2 n)) by lia. lia.
Qed.

Lemma bits_pos n : 0 < n -> 1 <= bits n.
Proof. intros Hn. unfold bits. pose proof (Z.log2_nonneg n). lia. Qed.

Lemma bits_le n b : 0 < n -> n < 2 ^ b -> bits n <= b.
Proof.
  intros Hn Hb. destruct (bits_bounds n Hn) as [Hlo _].
  destruct (Z.le_gt_cases (bits n) b) as [H|H]; [exact H|].
  assert (2 ^ b <= 2 ^ (bits n - 1)).
  { apply Z.pow_le_mono_r; [lia|]. lia. }
  lia.
Qed.

Lemma pow2_pos k : 0 <= k -> 0 < 2 ^ k.
Proof. intros. apply Z.pow_pos_nonneg; lia. Qed.

(** The mantissa of [exact_float n]. *)
Lemma exact_mantissa n :
  0 < n < 2 ^ 53 ->
  Zpos (Z.to_pos (n * 2 ^ (53 - bits n))) = n * 2 ^ (53 - bits n) /\
  2 ^ 52 <= n * 2 ^ (53 - bits n) < 2 ^ 53.
Proof.
  intros [Hn Hhi]. pose proof (bits_bounds n Hn) as [Blo Bhi].
  pose proof (bits_pos n Hn). pose proof (bits_le n 53 Hn Hhi).
  assert (P : 0 < 2 ^ (53 - bits n)) by (apply pow2_pos; lia).
  assert (E1 : 2 ^ 53 = 2 ^ bits n * 2 ^ (53 - bits n)).
  { rewrite <- Z.pow_add_r by lia. f_equal. lia. }
  assert (E2 : 2 ^ 52 = 2 ^ (bits n - 1) * 2 ^ (53 - bits n)).
  { rewrite <- Z.pow_add_r by lia. f_equal. lia. }
  split; [apply Z2Pos.id; nia|]. rewrite E1, E2. split; nia.
Qed.

Lemma Pos_iter_xO m p : Zpos (Pos.iter xO m p) = Zpos m * 2 ^ Zpos p.
Proof.
  induction p as [|p IH] using Pos.peano_ind.
  - cbn [Pos.iter]. rewrite Pos2Z.inj_xO. change (2 ^ 1) with 2. lia.
  - rewrite Pos.iter_succ, Pos2Z.inj_xO, IH, Pos2Z.inj_succ.
    rewrite Z.pow_succ_r by lia. lia.
Qed.

Lemma round_half_even_exact q b : 0 < b -> strconv.round_half_even (q * b) b = q.
Proof.
  intros Hb. unfold strconv.round_half_even.
  rewrite Z.mod_mul, Z.div_mul by lia.
  replace (2 * 0 <? b) with true by (symmetry; apply Z.ltb_lt; lia).
  reflexivity.
Qed.

(** Normalizing [n * 2^j] at exponent [-j] gives the integer [n]. *)
Lemma binary_normalize_exact n j sz :
  0 < n < 2 ^ 53 -> 0 <= j ->
  binary_normalize F64.prec F64.emax (n * 2 ^ j) (- j) sz = exact_float n.
Proof.
  intros Hn Hj. destruct (exact_mantissa n Hn) as [Em [Mlo Mhi]].
  pose proof (bits_bounds n (proj1 Hn)) as [Blo Bhi].
  pose proof (bits_pos n (proj1 Hn)) as B1.
  pose proof (bits_le n 53 (proj1 Hn) (proj2 Hn)) as B53.
  assert (Pj : 0 < 2 ^ j) by (apply pow2_pos; lia).
  destruct (n * 2 ^ j) as [|M|M] eqn:EM; try nia.
  cbn [binary_normalize]. unfold binary_round.
  assert (DM : Zpos (digits2_pos M) = bits n + j).
  { apply digits_unique. rewrite <- EM.
    replace (bits n + j - 1) with (bits n - 1 + j) by lia.
    rewrite !Z.pow_add_r by lia. split; nia. }
  rewrite DM. replace (bits n + j + - j) with (bits n) by lia.
  rewrite fexp_normal by lia.
  unfold shl_align. replace (bits n - 53 - - j) with (bits n + j - 53) by lia.
  unfold exact_float.
  destruct (bits n + j - 53) as [|delta|delta] eqn:Ed.
  - (* 53 bits already *)
    rewrite binary_round_aux_exact by lia.
    f_equal; [|lia]. apply Pos2Z.inj. rewrite Em, <- EM.
    f_equal. f_equal. lia.
  - (* more than 53 bits: the low bits are zero *)
    destruct (binary_round_aux_round false M (- j)) as (m' & e' & Hbra & Hm' & He' & Hval).
    + lia.
    + lia.
    + lia.
    + cbv zeta in Hval. rewrite DM in He', Hval.
      replace (bits n + j - 53) with (Zpos delta) in Hval by lia.
      assert (Pd : 0 < 2 ^ Zpos delta) by (apply pow2_pos; lia).
      assert (Esplit : Zpos M = n * 2 ^ (53 - bits n) * 2 ^ Zpos delta).
      { rewrite <- EM, <- Z.mul_assoc, <- Z.pow_add_r by lia.
        f_equal. f_equal. lia. }
      rewrite Esplit, round_half_even_exact in Hval by exact Pd.
      assert (e' = - j + (bits n + j) - 53).
      { destruct (Z.eq_dec e' (- j + (bits n + j) - 53)) as [H|H]; [exact H|].
        replace (e' - (- j + (bits n + j) - 53)) with 1 in Hval by lia.
        change (2 ^ 1) with 2 in Hval. lia. }
      subst e'. rewrite Z.sub_diag in Hval. change (2 ^ 0) with 1 in Hval.
      rewrite Hbra. f_equal; [|lia]. apply Pos2Z.inj. rewrite Em. lia.
  - (* fewer than 53 bits: shift left *)
    assert (Dm : Zpos (Pos.iter xO M delta) = n * 2 ^ (53 - bits n)).
    { rewrite Pos_iter_xO, <- EM, <- Z.mul_assoc, <- Z.pow_add_r by lia.
      f_equal. f_equal. lia. }
    rewrite binary_round_aux_exact.
    + f_equal. apply Pos2Z.inj. rewrite Em. exact Dm.
    + replace (Zpos (digits2_pos (Pos.iter xO M delta))) with 53; [lia|].
      symmetry. apply digits_unique. rewrite Dm. change (53 - 1) with 52. lia.
    + lia.
Qed.

(** [float64(n)] is exact below [2^53]. *)
Lemma of_int_exact n : 0 < n < 2 ^ 53 -> F64.of_int n = exact_float n.
Proof.
  intros Hn. unfold F64.of_int.
  rewrite <- (binary_normalize_exact n 0 false Hn ltac:(lia)).
  change (2 ^ 0) with 1. rewrite Z.mul_1_r. reflexivity.
Qed.

Lemma to_int_exact n : 0 < n < 2 ^ 53 -> F64.to_int (exact_float n) = n.
Proof.
  intros Hn. destruct (exact_mantissa n Hn) as [Em _].
  pose proof (bits_le n 53 (proj1 Hn) (proj2 Hn)) as B53.
  unfold exact_float, F64.to_int. cbn [cond_Zopp]. rewrite Em.
  destruct (0 <=? bits n - 53) eqn:E.
  - apply Z.leb_le in E. replace (bits n - 53) with 0 by lia.
    replace (53 - bits n) with 0 by lia. change (2 ^ 0) with 1. lia.
  - apply Z.leb_gt in E. replace (- (bits n - 53)) with (53 - bits n) by lia.
    apply Z.div_mul. apply Z.pow_nonzero; lia.
Qed.

(** [int(math.Round(x))] on a positive [x] with a fractional part. *)
Lemma to_int_Round m e :
  e < 0 -> F64.round_half_away m e < 2 ^ 53 ->
  F64.to_int (F64.Round (S754_finite false m e)) = F64.round_half_away m e.
Proof.
  intros He Hq. unfold F64.Round.
  replace (0 <=? e) with false by (symmetry; apply Z.leb_gt; lia).
  cbn [cond_Zopp].
  assert (0 <= F64.round_half_away m e).
  { unfold F64.round_half_away. apply Z.div_pos; [|apply pow2_pos; lia].
    pose proof (pow2_pos (- e - 1) ltac:(lia)). lia. }
  destruct (Z.eq_dec (F64.round_half_away m e) 0) as [Hz|Hnz].
  - rewrite Hz. reflexivity.
  - replace (F64.round_half_away m e) with (F64.round_half_away m e * 2 ^ 0) at 1
      by (change (2 ^ 0) with 1; lia).
    change 0 with (- 0) at 2.
    rewrite binary_normalize_exact by lia. apply to_int_exact. lia.
Qed.

Lemma round_half_even_error a b :
  0 < b ->
  2 * a - b <= 2 * strconv.round_half_even a b * b <= 2 * a + b.
Proof.
  intros Hb. unfold strconv.round_half_even.
  pose proof (Z.div_mod a b ltac:(lia)) as E.
  pose proof (Z.mod_pos_bound a b Hb) as B.
  destruct (2 * (a mod b) <? b) eqn:E1; [apply Z.ltb_lt in E1; nia|].
  apply Z.ltb_ge in E1.
  destruct (b <? 2 * (a mod b)) eqn:E2; [apply Z.ltb_lt in E2; nia|].
  apply Z.ltb_ge in E2.
  destruct (Z.even (a / b)); nia.
Qed.

(** The arithmetic of one percentile index: [W] is the mantissa of the
    length [n] ([W = n * X]), [c] the mantissa of the constant, within
    [delta / 100] of [P * 2^53 / 100]; [m0] is their product rounded to 53
    bits, a multiple of [1 / (2 * J)]; [T] is [n * P / 100] rounded. *)
Lemma percentile_rounding n X K J c P delta m0 :
  0 < n -> 128 <= X -> 2 ^ 52 <= n * X < 2 ^ 53 ->
  2 ^ 52 <= K <= 2 ^ 53 -> 0 < J -> 2 * K * J = 2 ^ 53 * X ->
  2 * (n * X * c) - K <= 2 * m0 * K <= 2 * (n * X * c) + K ->
  100 * c = P * 2 ^ 53 + delta -> -8 <= delta <= 20 -> 0 < P < 100 ->
  (m0 + J) / (2 * J) = round_ratio (n * P) 100.
Proof.
  intros Hn HX HW HK HJ HKJ Hm0 Hc Hdelta HP.
  unfold round_ratio. set (T := (2 * (n * P) + 100) / (2 * 100)).
  assert (HT : 200 * T <= 2 * (n * P) + 100 <= 200 * T + 198).
  { unfold T. pose proof (Z.div_mod (2 * (n * P) + 100) (2 * 100) ltac:(lia)) as E.
    pose proof (Z.mod_pos_bound (2 * (n * P) + 100) (2 * 100) ltac:(lia)) as B.
    assert (Hev : (2 * (n * P) + 100) mod (2 * 100) <> 199).
    { intros H199. rewrite H199 in E.
      assert (Z.even (2 * (n * P) + 100) = true).
      { rewrite Z.even_add, Z.even_mul. reflexivity. }
      rewrite E in H. rewrite Z.even_add, Z.even_mul in H. discriminate H. }
    lia. }
  clearbody T.
  change (2 ^ 53) with 9007199254740992 in *.
  change (2 ^ 52) with 4503599627370496 in *.
  set (W := n * X) in *.
  assert (E200 : 200 * (W * c) = 2 * W * (P * 9007199254740992 + delta)) by nia.
  assert (EP : W * P = n * P * X) by (unfold W; nia).
  symmetry. apply Z.div_unique with (r := m0 + J - T * (2 * J)); [|lia].
  left. split.
  - (* (2T - 1) J <= m0 *)
    destruct (Z.le_gt_cases ((2 * T - 1) * J) m0) as [H|H]; [lia|exfalso].
    assert (H1 : 2 * m0 * K <= (2 * T - 1) * (9007199254740992 * X) - 2 * K) by nia.
    assert (H2 : 200 * (W * c) <= 100 * (2 * T - 1) * (9007199254740992 * X) - 100 * K)
      by lia.
    rewrite E200 in H2.
    assert (H3 : 0 <= (2 * (n * P) - 100 * (2 * T - 1)) * (9007199254740992 * X))
      by (apply Z.mul_nonneg_nonneg; lia).
    assert (H4 : - 16 * W <= 2 * W * delta) by nia.
    nia.
  - (* m0 < (2T + 1) J *)
    destruct (Z.lt_ge_cases m0 ((2 * T + 1) * J)) as [H|H]; [lia|exfalso].
    assert (H1 : (2 * T + 1) * (9007199254740992 * X) <= 2 * m0 * K) by nia.
    assert (H2 : 100 * (2 * T + 1) * (9007199254740992 * X)
                 <= 200 * (W * c) + 100 * K) by lia.
    rewrite E200 in H2.
    assert (H3 : 2 * (9007199254740992 * X)
                 <= (100 * (2 * T + 1) - 2 * (n * P)) * (9007199254740992 * X))
      by (apply Z.mul_le_mono_nonneg_r; lia).
    assert (H4 : 2 * W * delta <= 40 * W) by nia.
    nia.
Qed.

(** The index [int(math.Round(float64(n) * p)) - 1] computed in float64 is
    the index computed on rationals, for a constant [p] near [P / 100]. *)
Lemma percentile_index_spec (c : positive) (P delta n : Z) :
  2 ^ 52 <= Zpos c < 2 ^ 53 ->
  100 * Zpos c = P * 2 ^ 53 + delta -> -8 <= delta <= 20 -> 50 <= P < 100 ->
  1 <= n < max_samples ->
  percentile_index n (S754_finite false c (-53)) = round_ratio (n * P) 100 - 1 /\
  0 <= round_ratio (n * P) 100 - 1 < n.
Proof.
  intros Hc Hc100 Hdelta HP Hn. unfold max_samples in Hn.
  assert (Hn53 : 0 < n < 2 ^ 53) by lia.
  destruct (exact_mantissa n Hn53) as [Em [Mlo Mhi]].
  pose proof (bits_pos n (proj1 Hn53)) as B1.
  pose proof (bits_le n 45 (proj1 Hn53) (proj2 Hn)) as B45.
  set (X := 2 ^ (53 - bits n)) in *.
  assert (HX : 128 <= X).
  { unfold X. change 128 with (2 ^ 7). apply Z.pow_le_mono_r; lia. }
  (* the rational index is in range *)
  assert (HT : 1 <= round_ratio (n * P) 100 <= n).
  { unfold round_ratio. split.
    - apply Z.div_le_lower_bound; nia.
    - apply Z.lt_succ_r, Z.div_lt_upper_bound; nia. }
  split; [|lia].
  unfold percentile_index. rewrite of_int_exact by exact Hn53.
  unfold exact_float. fold X.
  set (mn := Z.to_pos (n * X)) in *.
  unfold F64.mul, SFmul. cbn [xorb].
  set (M := (mn * c)%positive).
  assert (EM : Zpos M = n * X * Zpos c) by (unfold M; rewrite Pos2Z.inj_mul, Em; reflexivity).
  pose proof (digits_bounds M) as [Dlo Dhi].
  set (d := Zpos (digits2_pos M)) in *.
  assert (Hd : 105 <= d <= 106).
  { assert (L : 2 ^ 104 <= Zpos M) by (rewrite EM; change (2 ^ 104) with (2 ^ 52 * 2 ^ 52); nia).
    assert (U : Zpos M < 2 ^ 106) by (rewrite EM; change (2 ^ 106) with (2 ^ 53 * 2 ^ 53); nia).
    split.
    - destruct (Z.le_gt_cases 105 d) as [H|H]; [exact H|].
      assert (2 ^ d <= 2 ^ 104) by (apply Z.pow_le_mono_r; lia). lia.
    - destruct (Z.le_gt_cases d 106) as [H|H]; [exact H|].
      assert (2 ^ 106 <= 2 ^ (d - 1)) by (apply Z.pow_le_mono_r; lia). lia. }
  destruct (binary_round_aux_round false M (bits n - 53 + -53))
    as (m' & e' & Hbra & Hm' & He' & Hval); fold d; try lia.
  cbv zeta in He', Hval. fold d in He', Hval.
  rewrite Hbra.
  set (e0 := bits n - 53 + -53 + d - 53) in *.
  set (K := 2 ^ (d - 53)) in *.
  set (m0 := strconv.round_half_even (Zpos M) K) in *.
  assert (PK : 2 ^ 52 <= K <= 2 ^ 53).
  { unfold K. split; apply Z.pow_le_mono_r; lia. }
  set (J := 2 ^ (- e0 - 1)).
  assert (PJ : 0 < J) by (apply pow2_pos; unfold e0; lia).
  assert (EJ : 2 ^ (- e0) = 2 * J).
  { unfold J. rewrite <- (Z.pow_succ_r 2) by (unfold e0; lia). f_equal. lia. }
  assert (HKJ : 2 * K * J = 2 ^ 53 * X).
  { replace (2 * K * J) with (K * (2 * J)) by lia. rewrite <- EJ. unfold K, X.
    rewrite <- !Z.pow_add_r by (unfold e0; lia). f_equal. unfold e0. lia. }
  pose proof (round_half_even_error (Zpos M) K ltac:(lia)) as Herr.
  fold m0 in Herr. rewrite EM in Herr.
  pose proof (percentile_rounding n X K J (Zpos c) P delta m0
                ltac:(lia) HX ltac:(lia) PK PJ HKJ Herr Hc100 Hdelta ltac:(lia)) as Hround.
  (* the rounded product, read at its own exponent *)
  assert (Haway : F64.round_half_away m' e' = round_ratio (n * P) 100).
  { rewrite <- Hround. unfold F64.round_half_away.
    destruct (Z.eq_dec e' e0) as [->|Hne].
    - rewrite Z.sub_diag in Hval. change (2 ^ 0) with 1 in Hval.
      rewrite EJ. fold J. f_equal. lia.
    - assert (e' = e0 + 1) by lia. subst e'.
      replace (e0 + 1 - e0) with 1 in Hval by lia. change (2 ^ 1) with 2 in Hval.
      assert (EJ' : 2 ^ (- (e0 + 1)) = J) by (unfold J; f_equal; lia).
      assert (PJ2 : 0 < 2 ^ (- (e0 + 1) - 1)) by (apply pow2_pos; unfold e0; lia).
      assert (EJ2 : J = 2 * 2 ^ (- (e0 + 1) - 1)).
      { rewrite <- EJ'. rewrite <- (Z.pow_succ_r 2) by (unfold e0; lia). f_equal. lia. }
      rewrite EJ'. rewrite <- Hval.
      replace (Zpos m' * 2 + J) with (2 * (Zpos m' + 2 ^ (- (e0 + 1) - 1))) by lia.
      rewrite Z.div_mul_cancel_l by lia. reflexivity. }
  rewrite to_int_Round; [| unfold e0 in *; lia | rewrite Haway; lia].
  rewrite Haway. apply sub_exact.
  unfold GoInt.in_range, GoInt.min_int, GoInt.max_int. lia.
Qed.

Lemma c0_5_value : F64.c0_5 = S754_finite false 4503599627370496 (-53).
Proof. reflexivity. Qed.

Lemma c0_9_value : F64.c0_9 = S754_finite false 8106479329266893 (-53).
Proof. reflexivity. Qed.

Lemma c0_99_value : F64.c0_99 = S754_finite false 8917127262193582 (-53).
Proof. reflexivity. Qed.

(** The three indices of [SetMetrics]. *)
Lemma percentile_indices n :
  1 <= n < max_samples ->
  (percentile_index n F64.c0_5 = round_ratio (n * 50) 100 - 1 /\
   0 <= round_ratio (n * 50) 100 - 1 < n) /\
  (percentile_index n F64.c0_9 = round_ratio (n * 90) 100 - 1 /\
   0 <= round_ratio (n * 90) 100 - 1 < n) /\
  (percentile_index n F64.c0_99 = round_ratio (n * 99) 100 - 1 /\
   0 <= round_ratio (n * 99) 100 - 1 < n).
Proof.
  intros Hn. rewrite c0_5_value, c0_9_value, c0_99_value.
  split; [|split].
  - apply (percentile_index_spec _ 50 0); try lia; reflexivity.
  - apply (percentile_index_spec _ 90 20); try lia; reflexivity.
  - apply (percentile_index_spec _ 99 (-8)); try lia; reflexivity.
Qed.

(* ================================================================= *)
(** ** Counting in float64 *)

Lemma shl_align_value mx ex ez :
  ez <= ex -> Zpos (fst (shl_align mx ex ez)) = Zpos mx * 2 ^ (ex - ez).
Proof.
  intros H. unfold shl_align. destruct (ez - ex) as [|p|p] eqn:E; cbn [fst]; try lia.
  - replace (ex - ez) with 0 by lia. change (2 ^ 0) with 1. lia.
  - rewrite Pos_iter_xO. f_equal. f_equal. lia.
Qed.

(** [nreq++] on a float64 that holds a count. *)
Lemma add_one_exact k :
  0 <= k -> k + 1 < 2 ^ 53 ->
  F64.add (F64.of_int k) F64.one = F64.of_int (k + 1).
Proof.
  intros Hk Hk1. destruct (Z.eq_dec k 0) as [->|Hnz]; [reflexivity|].
  rewrite !of_int_exact by lia.
  change F64.one with (S754_finite false 4503599627370496 (-52)).
  destruct (exact_mantissa k ltac:(lia)) as [Em [Mlo Mhi]].
  pose proof (bits_pos k ltac:(lia)) as B1.
  pose proof (bits_le k 53 ltac:(lia) ltac:(lia)) as B53.
  unfold exact_float at 1. unfold F64.add, SFadd. cbn [cond_Zopp].
  set (ez := Z.min (bits k - 53) (-52)).
  assert (Hez : ez <= bits k - 53 /\ ez <= -52) by (unfold ez; lia).
  rewrite !shl_align_value by lia. rewrite Em.
  replace (k * 2 ^ (53 - bits k) * 2 ^ (bits k - 53 - ez) + 4503599627370496 * 2 ^ (-52 - ez))
    with ((k + 1) * 2 ^ (- ez)).
  - replace ez with (- - ez) at 2 by lia.
    apply binary_normalize_exact; lia.
  - rewrite <- Z.mul_assoc, <- Z.pow_add_r by lia.
    replace (53 - bits k + (bits k - 53 - ez)) with (- ez) by lia.
    change 4503599627370496 with (2 ^ 52). rewrite <- Z.pow_add_r by lia.
    replace (52 + (-52 - ez)) with (- ez) by lia. lia.
Qed.

Lemma count_and_total_from xs k total :
  0 <= k -> k + len xs < 2 ^ 53 ->
  fold_left (fun acc v => (F64.add (fst acc) F64.one, F64.add (snd acc) v))
    xs (F64.of_int k, total)
  = (F64.of_int (k + len xs), fold_left F64.add xs total).
Proof.
  revert k total. induction xs as [|x xs IH]; intros k total Hk Hlen.
  - cbn. unfold len. cbn. rewrite Z.add_0_r. reflexivity.
  - unfold len in *. cbn [List.length fold_left fst snd] in *.
    rewrite Nat2Z.inj_succ in Hlen.
    rewrite add_one_exact by lia. rewrite IH by lia.
    f_equal. f_equal. lia.
Qed.

(** The loop of [SetMetrics] counts the samples exactly and sums them. *)
Lemma count_and_total_spec xs :
  len xs < 2 ^ 53 ->
  count_and_total xs = (F64.of_int (len xs), float_sum xs).
Proof.
  intros H. unfold count_and_total, float_sum.
  change F64.zero with (F64.of_int 0) at 1.
  rewrite count_and_total_from by (unfold len in *; lia). reflexivity.
Qed.

(* ================================================================= *)
(** ** Sorting *)

Lemma insert_perm {A} (less : A -> A -> bool) x l :
  Permutation (x :: l) (sort.insert less x l).
Proof.
  induction l as [|y l IH]; cbn; [apply Permutation_refl|].
  destruct (less y x).
  - apply perm_trans with (y :: x :: l); [apply perm_swap|].
    apply perm_skip, IH.
  - apply Permutation_refl.
Qed.

Lemma Slice_perm {A} (less : A -> A -> bool) xs :
  Permutation xs (sort.Slice less xs).
Proof.
  induction xs as [|x xs IH]; cbn; [apply perm_nil|].
  apply perm_trans with (x :: sort.Slice less xs); [apply perm_skip, IH|].
  apply insert_perm.
Qed.

Lemma Slice_length {A} (less : A -> A -> bool) xs :
  len (sort.Slice less xs) = len xs.
Proof.
  unfold len. f_equal. symmetry. apply Permutation_length, Slice_perm.
Qed.

Lemma SFcompare_swap x y :
  SFcompare y x = option_map CompOpp (SFcompare x y).
Proof.
  destruct x as [sx|sx| |sx mx ex], y as [sy|sy| |sy my ey]; cbn;
    try reflexivity;
    try (destruct sx; reflexivity); try (destruct sy; reflexivity);
    try (destruct sx, sy; reflexivity).
  pose proof (Pos.compare_cont_antisym mx my Eq) as A. cbn [CompOpp] in A.
  destruct sx, sy; cbn; try reflexivity; f_equal;
    rewrite (Z.compare_antisym ex ey);
    destruct (ex ?= ey); cbn; try reflexivity;
    rewrite <- A, ?CompOpp_involutive; reflexivity.
Qed.

Lemma SFcompare_not_nan x y :
  F64.is_nan x = false -> F64.is_nan y = false -> exists c, SFcompare x y = Some c.
Proof.
  destruct x, y; cbn; try discriminate; intros _ _; eexists; reflexivity.
Qed.

(** Without NaN the order is total: not [y < x] is [x <= y]. *)
Lemma not_ltb_leb x y :
  F64.is_nan x = false -> F64.is_nan y = false ->
  F64.ltb y x = false -> F64.leb x y = true.
Proof.
  intros Hx Hy. unfold F64.ltb, F64.leb, SFltb, SFleb.
  rewrite (SFcompare_swap x y).
  destruct (SFcompare_not_nan x y Hx Hy) as [c ->]. cbn.
  destruct c; cbn; congruence.
Qed.

Lemma ltb_leb x y : F64.ltb x y = true -> F64.leb x y = true.
Proof.
  unfold F64.ltb, F64.leb, SFltb, SFleb.
  destruct (SFcompare x y) as [[]|]; congruence.
Qed.

Lemma insert_sorted x l :
  F64.is_nan x = false -> Forall (fun y => F64.is_nan y = false) l ->
  ascending l -> ascending (sort.insert F64.ltb x l).
Proof.
  unfold ascending. intros Hx Hl Hs. induction Hs as [|y l Hs IH Hhd].
  - cbn. repeat constructor.
  - inversion Hl as [|? ? Hy Hl']; subst. cbn [sort.insert].
    destruct (F64.ltb y x) eqn:E.
    + constructor; [apply IH, Hl'|].
      destruct l as [|z l]; cbn [sort.insert].
      * constructor. apply ltb_leb, E.
      * destruct (F64.ltb z x); constructor.
        -- inversion Hhd; assumption.
        -- apply ltb_leb, E.
    + constructor; [constructor; assumption|].
      constructor. apply not_ltb_leb; assumption.
Qed.

Lemma Forall_insert {A} (P : A -> Prop) less x l :
  P x -> Forall P l -> Forall P (sort.insert less x l).
Proof.
  intros Hx Hl. eapply Permutation_Forall; [apply insert_perm|].
  constructor; assumption.
Qed.

Lemma Slice_sorted xs :
  Forall (fun y => F64.is_nan y = false) xs ->
  ascending (sort.Slice F64.ltb xs) /\
  Forall (fun y => F64.is_nan y = false) (sort.Slice F64.ltb xs).
Proof.
  induction 1 as [|x xs Hx Hxs [IH1 IH2]]; cbn [sort.Slice].
  - split; constructor.
  - split; [apply insert_sorted | apply Forall_insert]; assumption.
Qed.

(* ================================================================= *)
(** ** SetMetrics *)

(** C1.  On a recorder that holds [n] samples, [1 <= n], [SetMetrics]
    succeeds: it sorts the samples in ascending order, in place; it sets P50,
    P90 and P99 to the elements of the sorted samples at the 0-based indices
    [round(n * p) - 1] for [p] = 50/100, 90/100 and 99/100, the rounding
    being to nearest with halves away from zero (the indices computed in
    float64 are these, and they are within the slice); and it sets Mean to
    the sum of the samples divided by their number, in float64.  (No sample
    is NaN, and the slice has fewer than 2^45 elements, as a slice of float64
    has.) *)
Theorem SetMetrics_percentiles (t : Tester.t) :
  let times := Tester.TimeRecorder t in
  let n := len times in
  1 <= n < max_samples ->
  Forall (fun x => F64.is_nan x = false) times ->
  exists sorted p50 p90 p99,
    Permutation times sorted /\
    ascending sorted /\
    nth_error sorted (Z.to_nat (round_ratio (n * 50) 100 - 1)) = Some p50 /\
    nth_error sorted (Z.to_nat (round_ratio (n * 90) 100 - 1)) = Some p90 /\
    nth_error sorted (Z.to_nat (round_ratio (n * 99) 100 - 1)) = Some p99 /\
    SetMetrics t =
      Ok (Tester.with_stats
            (Stats.mk (Tester.URL t)
               (F64.div (float_sum sorted) (F64.of_int n))
               p50 p90 p99
               (Stats.Failures (Tester.stats t))
               (Stats.Requests (Tester.stats t))
               (Stats.Successes (Tester.stats t)))
            (Tester.with_times sorted t),
          None).
Proof.
  intros times n Hn Hnan.
  set (sorted := sort.Slice F64.ltb times).
  assert (Hlen : len sorted = n) by apply Slice_length.
  destruct (percentile_indices n Hn) as ((E50 & R50) & (E90 & R90) & (E99 & R99)).
  destruct (index_in_range sorted (round_ratio (n * 50) 100 - 1) ltac:(lia))
    as (p50 & I50 & N50).
  destruct (index_in_range sorted (round_ratio (n * 90) 100 - 1) ltac:(lia))
    as (p90 & I90 & N90).
  destruct (index_in_range sorted (round_ratio (n * 99) 100 - 1) ltac:(lia))
    as (p99 & I99 & N99).
  exists sorted, p50, p90, p99.
  split; [apply Slice_perm|].
  split; [apply Slice_sorted, Hnan|].
  split; [exact N50|]. split; [exact N90|]. split; [exact N99|].
  unfold SetMetrics. fold times. fold n.
  replace (n <? 1) with false by (symmetry; apply Z.ltb_ge; lia).
  fold sorted. rewrite Hlen, E50, E90, E99, I50, I90, I99. cbn [bind].
  rewrite count_and_total_spec by (rewrite Hlen; unfold max_samples in Hn; lia).
  rewrite Hlen. reflexivity.
Qed.

(** The samples 5, 6, 7, 8, 10, 11, 13 of the package's test: P50 = 8,
    P90 = 11, P99 = 13, and the mean is the float64 nearest to 60/7. *)
Lemma SetMetrics_percentiles_example :
  let t := Tester.with_times (map F64.of_int [5; 6; 7; 8; 10; 11; 13]) default_tester in
  exists t',
    SetMetrics t = Ok (t', None) /\
    Stats.P50 (Tester.stats t') = F64.of_int 8 /\
    Stats.P90 (Tester.stats t') = F64.of_int 11 /\
    Stats.P99 (Tester.stats t') = F64.of_int 13 /\
    Stats.Mean (Tester.stats t') = F64.of_ratio 60 7.
Proof.
  intros t.
  destruct (SetMetrics_percentiles t) as (sorted & p50 & p90 & p99 & _ & _ & _ & _ & _ & H).
  - unfold max_samples. cbn. lia.
  - repeat constructor.
  - match type of H with _ = Ok (?x, None) => set (t' := x) in H end.
    exists t'. split; [exact H|].
    assert (C : SetMetrics t =
      Ok (Tester.with_stats
            (Stats.mk "" (F64.of_ratio 60 7) (F64.of_int 8) (F64.of_int 11)
               (F64.of_int 13) 0 0 0)
            t, None)) by (vm_compute; reflexivity).
    rewrite C in H.
    assert (S : forall a b : Tester.t,
               Ok (a, @None error) = Ok (b, None) -> Tester.stats b = Tester.stats a)
      by (intros a b [= ->]; reflexivity).
    apply S in H. rewrite H. repeat split; reflexivity.
Defined.

(** The samples 50, 100, 200, 100, 50: the mean is exactly 100. *)
Lemma SetMetrics_mean_example :
  let t := Tester.with_times (map F64.of_int [50; 100; 200; 100; 50]) default_tester in
  exists t',
    SetMetrics t = Ok (t', None) /\
    Stats.Mean (Tester.stats t') = F64.of_int 100 /\
    Tester.TimeRecorder t' = map F64.of_int [50; 50; 100; 100; 200].
Proof. intros t. eexists. split; [vm_compute; reflexivity|]. split; reflexivity. Qed.

(* ================================================================= *)
(** ** The sorted samples do not depend on the sorting algorithm *)

Lemma leb_finite_pos m1 e1 m2 e2 :
  F64.leb (S754_finite false m1 e1) (S754_finite false m2 e2) = true <->
  e1 < e2 \/ (e1 = e2 /\ (m1 <= m2)%positive).
Proof.
  unfold F64.leb, SFleb. cbn.
  change (Pos.compare_cont Eq m1 m2) with (m1 ?= m2)%positive.
  destruct (Z.compare_spec e1 e2) as [He|He|He];
    [destruct (Pos.compare_spec m1 m2) as [Hm|Hm|Hm]| |];
    split; intros H; try reflexivity; try discriminate; try lia.
Qed.

Lemma leb_finite_neg m1 e1 m2 e2 :
  F64.leb (S754_finite true m1 e1) (S754_finite true m2 e2) = true <->
  e2 < e1 \/ (e1 = e2 /\ (m2 <= m1)%positive).
Proof.
  unfold F64.leb, SFleb. cbn.
  change (Pos.compare_cont Eq m1 m2) with (m1 ?= m2)%positive.
  destruct (Z.compare_spec e1 e2) as [He|He|He];
    [destruct (Pos.compare_spec m1 m2) as [Hm|Hm|Hm]| |];
    split; intros H; try reflexivity; try discriminate; try lia.
Qed.

Lemma leb_trans x y z :
  F64.leb x y = true -> F64.leb y z = true -> F64.leb x z = true.
Proof.
  destruct x as [sx|sx| |sx mx ex], y as [sy|sy| |sy my ey], z as [sz|sz| |sz mz ez];
    try (destruct sx); try (destruct sy); try (destruct sz);
    try (cbn; congruence);
    rewrite ?leb_finite_pos, ?leb_finite_neg; lia.
Qed.

Lemma leb_antisym x y :
  x <> S754_zero true -> y <> S754_zero true ->
  F64.leb x y = true -> F64.leb y x = true -> x = y.
Proof.
  destruct x as [sx|sx| |sx mx ex], y as [sy|sy| |sy my ey];
    try (destruct sx); try (destruct sy);
    try (cbn; congruence);
    rewrite ?leb_finite_pos, ?leb_finite_neg; intros _ _ H1 H2;
    assert (ex = ey /\ mx = my) as [-> ->] by lia; reflexivity.
Qed.

Lemma ascending_strongly xs :
  ascending xs -> StronglySorted (fun a b => F64.leb a b = true) xs.
Proof.
  apply Sorted_StronglySorted. intros x y z. apply leb_trans.
Qed.

(** Two ascending arrangements of the same samples are the same list. *)
Lemma ascending_unique xs ys :
  Forall (fun x => x <> S754_zero true) xs ->
  Permutation xs ys -> ascending xs -> ascending ys -> xs = ys.
Proof.
  intros Hz Hp Hxs Hys.
  apply ascending_strongly in Hxs. apply ascending_strongly in Hys.
  revert ys Hp Hys. induction Hxs as [|x xs Hxs IH Hx]; intros ys Hp Hys.
  - apply Permutation_nil in Hp. congruence.
  - destruct Hys as [|y ys Hys Hy].
    + apply Permutation_sym, Permutation_nil in Hp. discriminate.
    + inversion Hz as [|? ? Hzx Hzxs]; subst.
      assert (Hzy : Forall (fun x => x <> S754_zero true) (y :: ys))
        by (eapply Permutation_Forall; eassumption).
      inversion Hzy as [|? ? Hzy1 _]; subst.
      assert (Exy : x = y).
      { assert (Hin1 : In y (x :: xs))
          by (eapply Permutation_in; [apply Permutation_sym, Hp | left; reflexivity]).
        assert (Hin2 : In x (y :: ys))
          by (eapply Permutation_in; [apply Hp | left; reflexivity]).
        destruct Hin1 as [E|Hin1]; [congruence|].
        destruct Hin2 as [E|Hin2]; [congruence|].
        rewrite Forall_forall in Hx, Hy.
        apply leb_antisym; auto. }
      subst y. f_equal. apply IH.
      * exact Hzxs.
      * eapply Permutation_cons_inv, Hp.
      * exact Hys.
Qed.

(** Whatever the algorithm of [sort.Slice], on samples without NaN (and
    without a negative zero) it leaves the list that [sort.Slice] is here. *)
Lemma Slice_unique xs ys :
  Forall (fun x => F64.is_nan x = false) xs ->
  Forall (fun x => x <> S754_zero true) xs ->
  Permutation xs ys -> ascending ys ->
  ys = sort.Slice F64.ltb xs.
Proof.
  intros Hnan Hz Hp Hys. symmetry. apply ascending_unique.
  - eapply Permutation_Forall; [apply Slice_perm | exact Hz].
  - apply perm_trans with xs; [apply Permutation_sym, Slice_perm | exact Hp].
  - apply Slice_sorted, Hnan.
  - exact Hys.
Qed.

(* ================================================================= *)
(** ** The samples the workers record are numbers *)

Lemma shr_1_nonneg r : 0 <= shr_m r -> 0 <= shr_m (shr_1 r).
Proof.
  destruct r as [m r s]. cbn [shr_m]. intros H. rewrite shr_1_spec by exact H.
  cbn [shr_m]. apply Z.div_pos; lia.
Qed.

Lemma shr_nonneg r e k : 0 <= shr_m r -> 0 <= shr_m (fst (shr r e k)).
Proof.
  intros H. destruct k as [|p|p]; cbn [shr fst]; try exact H.
  rewrite iter_pos_nat. induction (Pos.to_nat p) as [|j IH]; [exact H|].
  rewrite Nat.iter_succ. apply shr_1_nonneg, IH.
Qed.

Lemma shr_record_of_loc_m m l : shr_m (shr_record_of_loc m l) = m.
Proof. destruct l as [|[]]; reflexivity. Qed.

Lemma round_nearest_even_nonneg m l : 0 <= m -> 0 <= round_nearest_even m l.
Proof.
  intros H. destruct l as [|[]]; cbn; try lia. destruct (Z.even m); lia.
Qed.

(** Rounding a non-negative mantissa never gives NaN. *)
Lemma binary_round_aux_not_nan s m e l :
  0 <= m -> F64.is_nan (binary_round_aux F64.prec F64.emax s m e l) = false.
Proof.
  intros Hm. unfold binary_round_aux, shr_fexp.
  pose proof (shr_nonneg (shr_record_of_loc m l) e
                (fexp F64.prec F64.emax (Zdigits2 m + e) - e)) as H1.
  rewrite shr_record_of_loc_m in H1. specialize (H1 Hm).
  destruct (shr (shr_record_of_loc m l) e _) as [mrs' e']. cbn [fst] in H1.
  pose proof (round_nearest_even_nonneg (shr_m mrs') (loc_of_shr_record mrs') H1) as H2.
  set (m1 := round_nearest_even (shr_m mrs') (loc_of_shr_record mrs')) in *.
  pose proof (shr_nonneg (shr_record_of_loc m1 loc_Exact) e'
                (fexp F64.prec F64.emax (Zdigits2 m1 + e') - e')) as H3.
  rewrite shr_record_of_loc_m in H3. specialize (H3 H2).
  destruct (shr (shr_record_of_loc m1 loc_Exact) e' _) as [mrs'' e'']. cbn [fst] in H3.
  destruct (shr_m mrs'') as [|q|q]; try lia; [reflexivity|].
  destruct (e'' <=? F64.emax - F64.prec); reflexivity.
Qed.

Lemma of_int_cases n :
  match F64.of_int n with
  | S754_nan => False
  | _ => True
  end.
Proof.
  unfold F64.of_int. destruct n as [|p|p]; cbn [binary_normalize]; [exact I| |];
    unfold binary_round;
    destruct (shl_align _ _ _) as [mz ez];
    match goal with
    | |- match binary_round_aux ?a ?b ?s ?m ?e ?l with _ => _ end =>
        pose proof (binary_round_aux_not_nan s m e l ltac:(lia)) as H;
        destruct (binary_round_aux a b s m e l); try exact I; discriminate H
    end.
Qed.

(** A latency in milliseconds is never NaN. *)
Lemma milliseconds_not_nan elapsed : F64.is_nan (milliseconds elapsed) = false.
Proof.
  unfold milliseconds. pose proof (of_int_cases elapsed) as H.
  change F64.c1e6 with (S754_finite false 8589934592000000 (-33)).
  destruct (F64.of_int elapsed) as [s|s| |s m e]; try reflexivity; [contradiction|].
  unfold F64.div, SFdiv.
  destruct (SFdiv_core_binary F64.prec F64.emax (Zpos m) e 8589934592000000 (-33))
    as [[mz ez] lz] eqn:E.
  apply binary_round_aux_not_nan.
  unfold SFdiv_core_binary in E.
  match type of E with
  | (let '(q, r) := Z.div_eucl ?a ?b in _) = _ =>
      pose proof (Z.div_eucl_eq a b ltac:(lia)) as D;
      pose proof (Z_div_mod a b ltac:(lia)) as B;
      assert (Ha : 0 <= a);
      [| destruct (Z.div_eucl a b) as [q r]; injection E as <- _ _; nia]
  end.
  destruct (e - -33 - _) as [|k|k]; try lia.
  rewrite Z.shiftl_mul_pow2 by lia. pose proof (pow2_pos (Zpos k) ltac:(lia)). nia.
Qed.

Lemma wstep_not_nan t n p a t' n' p' :
  wstep (t, n, p) a (t', n', p') ->
  Forall (fun x => F64.is_nan x = false) (Tester.TimeRecorder t) ->
  Forall (fun x => F64.is_nan x = false) (Tester.TimeRecorder t').
Proof.
  intros H; inversion H; subst; try (intros F; exact F).
  intros F. cbn. apply Forall_app. split; [exact F|].
  constructor; [apply milliseconds_not_nan | constructor].
Qed.

(** Whatever the workers do, they leave no NaN in the recorder. *)
Lemma Steps_not_nan s tr s' :
  Steps s tr s' ->
  Forall (fun x => F64.is_nan x = false) (Tester.TimeRecorder (shared s)) ->
  Forall (fun x => F64.is_nan x = false) (Tester.TimeRecorder (shared s')).
Proof.
  induction 1 as [|s l s1 tr s2 Hstep _ IH]; [trivial|].
  intros F. apply IH. destruct Hstep as [t n before p after a t' n' p' Hw].
  cbn [shared] in *. eapply wstep_not_nan; eassumption.
Qed.

(* ================================================================= *)
(** ** Binary64: rounding a quotient *)

Lemma shr_iter_from M r0 s0 j :
  0 <= M ->
  Nat.iter (S j) shr_1 {| shr_m := M; shr_r := r0; shr_s := s0 |}
  = {| shr_m := M / 2 ^ (Z.of_nat j + 1);
       shr_r := Z.odd (M / 2 ^ Z.of_nat j);
       shr_s := negb (M mod 2 ^ Z.of_nat j =? 0) || (r0 || s0) |}.
Proof.
  intros HM. induction j as [|j IH].
  - cbn [Nat.iter]. rewrite shr_1_spec by exact HM.
    change (2 ^ (Z.of_nat 0 + 1)) with 2. change (2 ^ Z.of_nat 0) with 1.
    rewrite Z.div_1_r, Z.mod_1_r. reflexivity.
  - rewrite Nat.iter_succ, IH. rewrite Nat2Z.inj_succ.
    set (J := Z.of_nat j). assert (HJ : 0 <= J) by (unfold J; lia).
    replace (Z.succ J) with (J + 1) by lia.
    assert (P : 0 < 2 ^ J) by (apply Z.pow_pos_nonneg; lia).
    assert (P1 : 2 ^ (J + 1) = 2 ^ J * 2)
      by (rewrite Z.pow_add_r by lia; reflexivity).
    assert (P2 : 2 ^ (J + 1 + 1) = 2 ^ (J + 1) * 2)
      by (rewrite (Z.pow_add_r 2 (J + 1) 1) by lia; reflexivity).
    rewrite shr_1_spec by (apply Z.div_pos; lia).
    f_equal.
    + rewrite Z.div_div by lia. rewrite P2. reflexivity.
    + rewrite P1. rewrite Z.rem_mul_r by lia.
      pose proof (Z.mod_pos_bound M (2 ^ J) P) as B1.
      rewrite (Zmod_odd (M / 2 ^ J)).
      destruct (Z.odd (M / 2 ^ J)); cbn [orb].
      * replace (M mod 2 ^ J + 2 ^ J * 1 =? 0) with false
          by (symmetry; apply Z.eqb_neq; lia).
        reflexivity.
      * rewrite Z.mul_0_r, Z.add_0_r. reflexivity.
Qed.

Lemma new_location_cases b r :
  0 < b -> 0 <= r < b ->
  new_location b r =
    if r =? 0 then loc_Exact
    else loc_Inexact (if 2 * r <? b then Lt else if b <? 2 * r then Gt else Eq).
Proof.
  intros Hb Hr. unfold new_location, new_location_even, new_location_odd.
  destruct (Z.even b) eqn:Eb; cbv beta;
    (destruct (r =? 0) eqn:E0; [reflexivity|]); f_equal.
  - destruct (Z.compare_spec (2 * r) b) as [H|H|H].
    + replace (2 * r <? b) with false by (symmetry; apply Z.ltb_ge; lia).
      replace (b <? 2 * r) with false by (symmetry; apply Z.ltb_ge; lia).
      reflexivity.
    + replace (2 * r <? b) with true by (symmetry; apply Z.ltb_lt; lia).
      reflexivity.
    + replace (2 * r <? b) with false by (symmetry; apply Z.ltb_ge; lia).
      replace (b <? 2 * r) with true by (symmetry; apply Z.ltb_lt; lia).
      reflexivity.
  - assert (Hodd : 2 * r <> b).
    { intros H. rewrite <- H, Z.even_mul in Eb. discriminate Eb. }
    destruct (Z.compare_spec (2 * r + 1) b) as [H|H|H].
    + replace (2 * r <? b) with true by (symmetry; apply Z.ltb_lt; lia).
      reflexivity.
    + replace (2 * r <? b) with true by (symmetry; apply Z.ltb_lt; lia).
      reflexivity.
    + replace (2 * r <? b) with false by (symmetry; apply Z.ltb_ge; lia).
      replace (b <? 2 * r) with true by (symmetry; apply Z.ltb_lt; lia).
      reflexivity.
Qed.

(** The quotient [a / b] with the location of its remainder, shifted by [k]
    bits and rounded to nearest even, is [a / (b * 2^k)] rounded. *)
Lemma shr_round_quotient a b E k :
  0 <= a -> 0 < b -> 0 <= k ->
  let '(mrs, e) :=
    shr (shr_record_of_loc (a / b) (new_location b (a mod b))) E k in
  round_nearest_even (shr_m mrs) (loc_of_shr_record mrs)
    = strconv.round_half_even a (b * 2 ^ k) /\
  e = E + k.
Proof.
  intros Ha Hb Hk.
  pose proof (Z.mod_pos_bound a b Hb) as Br.
  pose proof (Z.div_mod a b ltac:(lia)) as Ea.
  assert (Hq : 0 <= a / b) by (apply Z.div_pos; lia).
  rewrite (new_location_cases b (a mod b) Hb Br).
  destruct k as [|p|p]; try lia.
  - (* no shift *)
    cbn [shr]. split; [|lia].
    change (2 ^ 0) with 1. rewrite Z.mul_1_r.
    unfold strconv.round_half_even.
    destruct (a mod b =? 0) eqn:E0.
    + apply Z.eqb_eq in E0. rewrite E0.
      replace (2 * 0 <? b) with true by (symmetry; apply Z.ltb_lt; lia).
      reflexivity.
    + destruct (2 * (a mod b) <? b); [reflexivity|].
      destruct (b <? 2 * (a mod b)); reflexivity.
  - cbn [shr]. split; [|reflexivity].
    rewrite iter_pos_nat.
    destruct (Pos.to_nat p) as [|j] eqn:Ej; [lia|].
    assert (Hp : Zpos p = Z.of_nat j + 1) by lia. rewrite Hp.
    set (J := Z.of_nat j). assert (HJ : 0 <= J) by (unfold J; lia).
    assert (P : 0 < 2 ^ J) by (apply Z.pow_pos_nonneg; lia).
    assert (P1 : 2 ^ (J + 1) = 2 ^ J * 2)
      by (rewrite Z.pow_add_r by lia; reflexivity).
    set (M := a / b) in *.
    assert (Hrec : exists r0 s0,
      shr_record_of_loc M
        (if a mod b =? 0 then loc_Exact
         else loc_Inexact (if 2 * (a mod b) <? b then Lt
                           else if b <? 2 * (a mod b) then Gt else Eq))
      = {| shr_m := M; shr_r := r0; shr_s := s0 |} /\
      r0 || s0 = negb (a mod b =? 0)).
    { destruct (a mod b =? 0); [eexists _, _; split; reflexivity|].
      destruct (2 * (a mod b) <? b); [eexists _, _; split; reflexivity|].
      destruct (b <? 2 * (a mod b)); eexists _, _; split; reflexivity. }
    destruct Hrec as (r0 & s0 & -> & Hsticky).
    rewrite shr_iter_from by exact Hq. fold J. rewrite Hsticky.
    cbn [shr_m shr_r shr_s].
    (* the quotient and the remainder by b * 2^(J+1) *)
    pose proof (Z.div_mod M (2 ^ (J + 1)) ltac:(lia)) as EM.
    pose proof (Z.mod_pos_bound M (2 ^ (J + 1)) ltac:(lia)) as BM.
    assert (Equot : a / (b * 2 ^ (J + 1)) = M / 2 ^ (J + 1)).
    { unfold M. rewrite Z.div_div by lia. reflexivity. }
    assert (Erem : a mod (b * 2 ^ (J + 1)) = b * (M mod 2 ^ (J + 1)) + a mod b).
    { rewrite Z.rem_mul_r by lia. fold M. lia. }
    unfold strconv.round_half_even. rewrite Equot, Erem.
    assert (Esplit : M mod 2 ^ (J + 1)
                     = M mod 2 ^ J + 2 ^ J * (if Z.odd (M / 2 ^ J) then 1 else 0)).
    { rewrite P1, Z.rem_mul_r by lia. rewrite (Zmod_odd (M / 2 ^ J)). reflexivity. }
    rewrite Esplit.
    pose proof (Z.mod_pos_bound M (2 ^ J) P) as BJ.
    set (low := M mod 2 ^ J) in *. set (r := a mod b) in *.
    rewrite P1.
    destruct (Z.odd (M / 2 ^ J)).
    + (* the round bit is set *)
      destruct (Z.eqb_spec low 0) as [El|El]; destruct (Z.eqb_spec r 0) as [Er|Er];
        cbn [negb orb loc_of_shr_record round_nearest_even].
      * replace (2 * (b * (low + 2 ^ J * 1) + r) <? b * (2 ^ J * 2)) with false
          by (symmetry; apply Z.ltb_ge; nia).
        replace (b * (2 ^ J * 2) <? 2 * (b * (low + 2 ^ J * 1) + r)) with false
          by (symmetry; apply Z.ltb_ge; nia).
        reflexivity.
      * replace (2 * (b * (low + 2 ^ J * 1) + r) <? b * (2 ^ J * 2)) with false
          by (symmetry; apply Z.ltb_ge; nia).
        replace (b * (2 ^ J * 2) <? 2 * (b * (low + 2 ^ J * 1) + r)) with true
          by (symmetry; apply Z.ltb_lt; nia).
        reflexivity.
      * replace (2 * (b * (low + 2 ^ J * 1) + r) <? b * (2 ^ J * 2)) with false
          by (symmetry; apply Z.ltb_ge; nia).
        replace (b * (2 ^ J * 2) <? 2 * (b * (low + 2 ^ J * 1) + r)) with true
          by (symmetry; apply Z.ltb_lt; nia).
        reflexivity.
      * replace (2 * (b * (low + 2 ^ J * 1) + r) <? b * (2 ^ J * 2)) with false
          by (symmetry; apply Z.ltb_ge; nia).
        replace (b * (2 ^ J * 2) <? 2 * (b * (low + 2 ^ J * 1) + r)) with true
          by (symmetry; apply Z.ltb_lt; nia).
        reflexivity.
    + (* the round bit is clear: round down *)
      replace (2 * (b * (low + 2 ^ J * 0) + r) <? b * (2 ^ J * 2)) with true
        by (symmetry; apply Z.ltb_lt; nia).
      destruct (negb (low =? 0) || negb (r =? 0)); reflexivity.
Qed.

(** The same for a quotient [a / b] of at least 53 bits, with the location
    of its remainder. *)
Lemma binary_round_aux_quotient s a b E :
  0 <= a -> 0 < b ->
  let M := a / b in
  let d := Zdigits2 M in
  let k := d - 53 in
  let e0 := E + k in
  2 ^ 52 <= M -> -1074 <= e0 -> e0 < 971 ->
  exists m' e',
    binary_round_aux F64.prec F64.emax s M E (new_location b (a mod b))
      = S754_finite s m' e' /\
    2 ^ 52 <= Zpos m' < 2 ^ 53 /\
    e0 <= e' <= e0 + 1 /\
    Zpos m' * 2 ^ (e' - e0) = strconv.round_half_even a (b * 2 ^ k).
Proof.
  intros Ha Hb M d k e0 HM Hlo Hhi.
  destruct M as [|q|q] eqn:EM; try lia.
  pose proof (digits_bounds q) as [Blo Bhi].
  assert (Ed : d = Zpos (digits2_pos q)) by reflexivity. rewrite <- Ed in Blo, Bhi.
  assert (Hd : 53 <= d).
  { destruct (Z.le_gt_cases 53 d) as [H|H]; [exact H|].
    assert (2 ^ d <= 2 ^ 52) by (apply Z.pow_le_mono_r; lia). lia. }
  assert (Hk : 0 <= k) by (unfold k; lia).
  assert (Pk : 0 < 2 ^ k) by (apply pow2_pos; lia).
  assert (E2d : 2 ^ d = 2 ^ 53 * 2 ^ k).
  { rewrite <- Z.pow_add_r by lia. f_equal. unfold k. lia. }
  assert (E2d1 : 2 ^ (d - 1) = 2 ^ 52 * 2 ^ k).
  { rewrite <- Z.pow_add_r by lia. f_equal. unfold k. lia. }
  assert (Q : 2 ^ 52 <= Zpos q / 2 ^ k < 2 ^ 53).
  { split.
    - apply Z.div_le_lower_bound; lia.
    - apply Z.div_lt_upper_bound; lia. }
  assert (Equot : a / (b * 2 ^ k) = Zpos q / 2 ^ k).
  { rewrite <- EM. unfold M. rewrite Z.div_div by lia. reflexivity. }
  pose proof (round_half_even_bounds a (b * 2 ^ k) ltac:(nia)) as R.
  rewrite Equot in R.
  set (m0 := strconv.round_half_even a (b * 2 ^ k)) in *.
  unfold binary_round_aux, shr_fexp.
  rewrite <- EM. replace (Zdigits2 M) with d by (rewrite EM; reflexivity).
  rewrite fexp_normal by (unfold e0, k in *; lia).
  replace (d + E - 53 - E) with k by (unfold k; lia).
  pose proof (shr_round_quotient a b E k Ha Hb Hk) as Hshr.
  fold M in Hshr.
  destruct (shr _ E k) as [mrs e1]. destruct Hshr as [Hm0 He1].
  fold m0 in Hm0. rewrite Hm0. subst e1. fold e0.
  destruct m0 as [|q0|q0] eqn:Eq0; try lia.
  destruct (Z.eq_dec (Zpos q0) (2 ^ 53)) as [Hcarry|Hno].
  - assert (Dq : Zpos (digits2_pos q0) = 54).
    { apply digits_unique. rewrite Hcarry. split; [|apply Z.pow_lt_mono_r]; lia. }
    cbn [Zdigits2 shr_record_of_loc]. rewrite Dq.
    rewrite fexp_normal by lia.
    replace (54 + e0 - 53 - e0) with 1 by lia.
    cbn [shr iter_pos]. rewrite shr_1_spec by lia. cbn [shr_m].
    rewrite Hcarry. change (2 ^ 53 / 2) with (2 ^ 52).
    change (2 ^ 52) with (Zpos (Z.to_pos (2 ^ 52))) at 1. cbv iota.
    replace (e0 + 1 <=? F64.emax - F64.prec) with true
      by (symmetry; apply Z.leb_le; unfold F64.emax, F64.prec; lia).
    eexists _, _. split; [reflexivity|].
    change (Zpos (Z.to_pos (2 ^ 52))) with (2 ^ 52).
    split; [lia|]. split; [lia|].
    replace (e0 + 1 - e0) with 1 by lia. lia.
  - assert (Dq : Zpos (digits2_pos q0) = 53).
    { apply digits_unique. change (53 - 1) with 52. lia. }
    cbn [Zdigits2 shr_record_of_loc]. rewrite Dq.
    rewrite fexp_normal by lia.
    replace (53 + e0 - 53 - e0) with 0 by lia.
    cbn [shr shr_m].
    replace (e0 <=? F64.emax - F64.prec) with true
      by (symmetry; apply Z.leb_le; unfold F64.emax, F64.prec; lia).
    eexists _, _. split; [reflexivity|].
    split; [lia|]. split; [lia|].
    rewrite Z.sub_diag. lia.
Qed.

Lemma round_half_even_near a b n :
  0 < b -> 2 * a - b < 2 * n * b < 2 * a + b -> strconv.round_half_even a b = n.
Proof.
  intros Hb H. unfold strconv.round_half_even.
  pose proof (Z.div_mod a b ltac:(lia)) as E.
  pose proof (Z.mod_pos_bound a b Hb) as B.
  destruct (2 * (a mod b) <? b) eqn:E1.
  - apply Z.ltb_lt in E1. nia.
  - apply Z.ltb_ge in E1. destruct (b <? 2 * (a mod b)) eqn:E2.
    + apply Z.ltb_lt in E2. nia.
    + apply Z.ltb_ge in E2. exfalso.
      assert (a / b < n) by nia. assert (n < a / b + 1) by nia. lia.
Qed.

(** The float64 nearest to [n / 1000] keeps its thousandths. *)
Lemma of_ratio_thousandths n :
  0 < n < 2 ^ 52 ->
  exists m e,
    F64.of_ratio (Z.to_pos n) 1000 = S754_finite false m e /\
    e < 0 /\
    strconv.thousandths m e = n.
Proof.
  intros Hn. assert (En : Zpos (Z.to_pos n) = n) by (apply Z2Pos.id; lia).
  unfold F64.of_ratio, F64.div, SFdiv, SFdiv_core_binary. cbn [xorb].
  rewrite En.
  pose proof (digits_bounds (Z.to_pos n)) as [Dlo Dhi]. rewrite En in Dlo, Dhi.
  assert (Dn : Zdigits2 n = Zpos (digits2_pos (Z.to_pos n))).
  { rewrite <- En at 1. reflexivity. }
  rewrite Dn. set (d1 := Zpos (digits2_pos (Z.to_pos n))) in *.
  assert (Hd1 : 1 <= d1 <= 52).
  { split; [unfold d1; lia|].
    destruct (Z.le_gt_cases d1 52) as [H|H]; [exact H|].
    assert (2 ^ 52 <= 2 ^ (d1 - 1)) by (apply Z.pow_le_mono_r; lia). lia. }
  change (Zdigits2 1000) with 10.
  rewrite fexp_normal by lia.
  replace (Z.min (d1 + 0 - (10 + 0) - 53) (0 - 0)) with (d1 - 63) by lia.
  replace (0 - 0 - (d1 - 63)) with (63 - d1) by lia.
  set (sh := 63 - d1).
  destruct sh as [|p|p] eqn:Esh; try lia. rewrite <- Esh. clear p Esh.
  assert (Hsh : 11 <= sh <= 62) by (unfold sh; lia).
  rewrite Z.shiftl_mul_pow2 by lia.
  set (a := n * 2 ^ sh).
  assert (Psh : 0 < 2 ^ sh) by (apply pow2_pos; lia).
  assert (E63 : 2 ^ 63 = 2 ^ d1 * 2 ^ sh).
  { rewrite <- Z.pow_add_r by lia. f_equal. unfold sh. lia. }
  assert (E62 : 2 ^ 62 = 2 ^ (d1 - 1) * 2 ^ sh).
  { rewrite <- Z.pow_add_r by lia. f_equal. unfold sh. lia. }
  assert (Ba : 2 ^ 62 <= a < 2 ^ 63) by (unfold a; rewrite E62, E63; nia).
  assert (Hdiv : Z.div_eucl a 1000 = (a / 1000, a mod 1000)).
  { unfold Z.div, Z.modulo. destruct (Z.div_eucl a 1000). reflexivity. }
  rewrite Hdiv.
  assert (BM : 2 ^ 52 <= a / 1000 < 2 ^ 54).
  { split.
    - apply Z.div_le_lower_bound; lia.
    - apply Z.div_lt_upper_bound; lia. }
  pose proof (binary_round_aux_quotient false a 1000 (d1 - 63) ltac:(lia) ltac:(lia))
    as Hbra. cbv zeta in Hbra.
  assert (Dq : 53 <= Zdigits2 (a / 1000) <= 54).
  { destruct (a / 1000) as [|q|q] eqn:Eq; try lia. cbn [Zdigits2].
    pose proof (digits_bounds q) as [Qlo Qhi].
    split.
    - destruct (Z.le_gt_cases 53 (Zpos (digits2_pos q))) as [H|H]; [exact H|].
      assert (2 ^ Zpos (digits2_pos q) <= 2 ^ 52) by (apply Z.pow_le_mono_r; lia).
      lia.
    - destruct (Z.le_gt_cases (Zpos (digits2_pos q)) 54) as [H|H]; [exact H|].
      assert (2 ^ 54 <= 2 ^ (Zpos (digits2_pos q) - 1))
        by (apply Z.pow_le_mono_r; lia).
      lia. }
  set (k := Zdigits2 (a / 1000) - 53) in *.
  destruct Hbra as (m & e & Hbra & Hm & He & Hval); try lia.
  exists m, e. split; [exact Hbra|]. split; [lia|].
  assert (Pk : 0 < 2 ^ k) by (apply pow2_pos; lia).
  pose proof (round_half_even_error a (1000 * 2 ^ k) ltac:(lia)) as Herr.
  rewrite <- Hval in Herr.
  unfold strconv.thousandths.
  replace (0 <=? e) with false by (symmetry; apply Z.leb_gt; lia).
  apply round_half_even_near; [apply pow2_pos; lia|].
  (* the exponent of the result against the shift of the dividend *)
  set (e0 := d1 - 63 + k) in *.
  assert (Ej : 2 ^ sh = 2 ^ (- e) * 2 ^ k * 2 ^ (e - e0)).
  { rewrite <- !Z.pow_add_r by lia. f_equal. unfold e0, sh. lia. }
  assert (Pe : 0 < 2 ^ (- e)) by (apply pow2_pos; lia).
  assert (Pd : 0 < 2 ^ (e - e0)) by (apply pow2_pos; lia).
  assert (Big : 1024 <= 2 ^ (- e) * 2 ^ (e - e0)).
  { rewrite <- Z.pow_add_r by lia. change 1024 with (2 ^ 10).
    apply Z.pow_le_mono_r; unfold e0, k in *; lia. }
  unfold a in Herr. rewrite Ej in Herr.
  set (A := 2 ^ (- e)) in *. set (K := 2 ^ k) in *. set (D := 2 ^ (e - e0)) in *.
  assert (HD : D = 1 \/ D = 2).
  { unfold D. destruct (Z.eq_dec e e0) as [->|Hne].
    - left. rewrite Z.sub_diag. reflexivity.
    - right. replace (e - e0) with 1 by lia. reflexivity. }
  destruct HD as [HD|HD]; rewrite HD in *; nia.
Qed.

(* ================================================================= *)
(** ** Parsing what [%.3f] prints *)

(** The mantissa loop over a run of decimal digits. *)
Lemma readMantissa_digits d rest st :
  exists st',
    strconv.readMantissa false (NilEmpty.string_of_uint d ++ rest) st
      = strconv.readMantissa false rest st' /\
    strconv.mant st' = digits_value d (strconv.mant st) /\
    strconv.nfrac st'
      = (if strconv.sawdot st
         then strconv.nfrac st + Z.of_nat (Decimal.nb_digits d)
         else strconv.nfrac st) /\
    strconv.sawdot st' = strconv.sawdot st /\
    strconv.underscores st' = strconv.underscores st /\
    strconv.sawdigits st'
      = match d with Decimal.Nil => strconv.sawdigits st | _ => true end.
Proof.
  revert st. induction d; intros st;
    cbn [NilEmpty.string_of_uint append strconv.readMantissa digits_value
         Decimal.nb_digits];
    [ exists st; repeat split; destruct (strconv.sawdot st); lia | .. ];
    match goal with
    | |- context [Bytes.eqb ?c "_"] =>
        change (Bytes.eqb c "_") with false;
        change (Bytes.eqb c ".") with false;
        change (Bytes.is_digit c) with true; cbv iota;
        let v := eval cbv in (Bytes.digit_val c) in
        change (Bytes.digit_val c) with v
    end;
    match goal with
    | |- context [strconv.push_digit 10 ?v st] =>
        destruct (IHd (strconv.push_digit 10 v st))
          as (st' & E & Hm & Hn & Hd & Hu & Hs);
        exists st'; cbn [strconv.push_digit strconv.mant strconv.nfrac
                          strconv.sawdot strconv.underscores strconv.sawdigits]
                 in Hm, Hn, Hd, Hu, Hs;
        repeat split; try assumption;
        [ rewrite Hn; destruct (strconv.sawdot st); lia
        | rewrite Hs; destruct d; reflexivity ]
    end.
Qed.

(** The digits of a natural number. *)
Lemma digits_of_spec k :
  0 <= k ->
  exists d,
    strconv.digits_of k = NilEmpty.string_of_uint d /\
    d <> Decimal.Nil /\
    digits_value d 0 = k.
Proof.
  intros Hk. unfold strconv.digits_of.
  exists (N.to_uint (Z.to_N k)).
  assert (Hnn : N.to_uint (Z.to_N k) <> Decimal.Nil).
  { destruct (Z.to_N k); cbn [N.to_uint]; [discriminate|].
    apply DecimalPos.Unsigned.to_uint_nonnil. }
  split; [apply NilZero_string_of_uint_nonnil; exact Hnn|].
  split; [exact Hnn|].
  rewrite digits_value_0.
  change (Pos.of_uint (N.to_uint (Z.to_N k))) with (N.of_uint (N.to_uint (Z.to_N k))).
  rewrite DecimalN.Unsigned.of_to. apply Z2N.id. exact Hk.
Qed.

(** One decimal digit. *)
Lemma digits_of_small j :
  0 <= j < 10 ->
  exists d,
    strconv.digits_of j = NilEmpty.string_of_uint d /\
    Decimal.nb_digits d = 1%nat /\
    (forall acc, digits_value d acc = acc * 10 + j).
Proof.
  intros Hj.
  assert (C : j = 0 \/ j = 1 \/ j = 2 \/ j = 3 \/ j = 4 \/ j = 5 \/ j = 6
              \/ j = 7 \/ j = 8 \/ j = 9) by lia.
  repeat (destruct C as [->|C]); [.. | subst j];
    eexists (_ Decimal.Nil); (split; [reflexivity|]);
    (split; [reflexivity|]); intros acc; reflexivity.
Qed.

(** A literal whose second byte is not an [x] has no base prefix. *)
Lemma no_hex_prefix (body : string) :
  (forall c x r, body = String c (String x r) -> (Bytes.lower x =? 120) = false) ->
  match body with
  | String "0" (String x (String c r)) =>
      if Bytes.lower x =? 120 then (true, String c r) else (false, body)
  | _ => (false, body)
  end = (false, body).
Proof.
  intros H. destruct body as [|c [|x [|c' r]]]; try reflexivity.
  - destruct c as [[] [] [] [] [] [] [] []]; reflexivity.
  - destruct c as [[] [] [] [] [] [] [] []]; reflexivity.
  - rewrite (H c x (String c' r) eq_refl).
    destruct c as [[] [] [] [] [] [] [] []]; reflexivity.
Qed.

Lemma string_of_uint_head d rest :
  d <> Decimal.Nil ->
  exists c r,
    NilEmpty.string_of_uint d ++ rest = String c r /\
    Bytes.is_digit c = true.
Proof.
  intros Hd. destruct d; [congruence | ..];
    cbn [NilEmpty.string_of_uint append]; eexists _, _; split; reflexivity.
Qed.

Lemma is_digit_lower c : Bytes.is_digit c = true -> 48 <= Bytes.lower c <= 57.
Proof.
  destruct c as [[] [] [] [] [] [] [] []]; vm_compute; intros H;
    try discriminate H; split; discriminate.
Qed.

Lemma is_digit_not_sign c r :
  Bytes.is_digit c = true -> strconv.strip_sign (String c r) = (false, String c r).
Proof.
  intros H. destruct c as [[] [] [] [] [] [] [] []]; try reflexivity;
    discriminate H.
Qed.

(** A literal that starts with a digit is no special value. *)
Lemma special_digit c r :
  Bytes.is_digit c = true -> strconv.special (String c r) = None.
Proof.
  intros H. unfold strconv.special. rewrite (is_digit_not_sign c r H).
  pose proof (is_digit_lower c H) as L.
  assert (Sg : match String c r with
               | String "+" _ | String "-" _ => true
               | _ => false
               end = false).
  { destruct c as [[] [] [] [] [] [] [] []]; try reflexivity; discriminate H. }
  rewrite Sg. cbn [Bytes.map_lower].
  destruct (list_eq_dec Z.eq_dec _ [105; 110; 102]) as [E|_];
    [injection E; intros; lia|].
  destruct (list_eq_dec Z.eq_dec _ [105; 110; 102; 105; 110; 105; 116; 121])
    as [E|_]; [injection E; intros; lia|].
  destruct (list_eq_dec Z.eq_dec _ [110; 97; 110]) as [E|_];
    [injection E; intros; lia|].
  reflexivity.
Qed.

(** [ParseFloat] on an unsigned decimal literal without exponent. *)
Lemma ParseFloat_decimal s st :
  strconv.special s = None ->
  strconv.strip_sign s = (false, s) ->
  match s with
  | String "0" (String x (String c r)) =>
      if Bytes.lower x =? 120 then (true, String c r) else (false, s)
  | _ => (false, s)
  end = (false, s) ->
  strconv.readMantissa false s strconv.mantissa0 = (st, ""%string) ->
  strconv.sawdigits st = true ->
  strconv.underscores st = false ->
  strconv.ParseFloat s
  = match strconv.mant st with
    | Zpos m =>
        let v := strconv.decimal_value false m (0 - strconv.nfrac st) in
        match v with
        | S754_infinity _ => Err (NumError "ParseFloat" s ErrRange)
        | _ => Ok v
        end
    | _ => Ok (S754_zero false)
    end.
Proof.
  intros Hsp Hsg Hhex Hrm Hdg Hus.
  unfold strconv.ParseFloat. rewrite Hsp, Hsg. cbv beta iota zeta.
  rewrite Hhex. cbv beta iota zeta. rewrite Hrm. cbv beta iota zeta.
  rewrite Hdg, Hus. cbn [negb orb andb strconv.readExponent].
  reflexivity.
Qed.

(** [ParseFloat] on an integer part, a point and three decimals: the
    float64 nearest to that many thousandths. *)
Lemma ParseFloat_thousandths n :
  0 < n ->
  let s := (strconv.digits_of (n / 1000) ++ "." ++ strconv.pad3 (n mod 1000))%string in
  strconv.ParseFloat s
  = let v := F64.of_ratio (Z.to_pos n) 1000 in
    match v with
    | S754_infinity _ => Err (NumError "ParseFloat" s ErrRange)
    | _ => Ok v
    end.
Proof.
  intros Hn s.
  pose proof (Z.div_mod n 1000 ltac:(lia)) as Edm.
  pose proof (Z.mod_pos_bound n 1000 ltac:(lia)) as Bm.
  assert (Bq : 0 <= n / 1000) by (apply Z.div_pos; lia).
  set (f := n mod 1000) in *.
  destruct (digits_of_spec (n / 1000) Bq) as (d & Ed & Hd & Vd).
  destruct (digits_of_small (f / 100)) as (d1 & E1 & N1 & V1).
  { split; [apply Z.div_pos; lia | apply Z.div_lt_upper_bound; lia]. }
  destruct (digits_of_small (f / 10 mod 10)) as (d2 & E2 & N2 & V2).
  { apply Z.mod_pos_bound; lia. }
  destruct (digits_of_small (f mod 10)) as (d3 & E3 & N3 & V3).
  { apply Z.mod_pos_bound; lia. }
  assert (Es : s = (NilEmpty.string_of_uint d
                    ++ String "."
                         (NilEmpty.string_of_uint d1
                          ++ NilEmpty.string_of_uint d2
                          ++ NilEmpty.string_of_uint d3 ++ ""))%string).
  { unfold s, strconv.pad3. rewrite Ed, E1, E2, E3.
    rewrite (append_nil_r (NilEmpty.string_of_uint d3)) at 1. reflexivity. }
  destruct (string_of_uint_head d
              (String "." (NilEmpty.string_of_uint d1
                           ++ NilEmpty.string_of_uint d2
                           ++ NilEmpty.string_of_uint d3 ++ "")) Hd)
    as (c & r & Ecr & Hc).
  (* the mantissa loop *)
  destruct (readMantissa_digits d
              (String "." (NilEmpty.string_of_uint d1
                           ++ NilEmpty.string_of_uint d2
                           ++ NilEmpty.string_of_uint d3 ++ ""))
              strconv.mantissa0)
    as (st0 & R0 & M0 & F0 & D0 & U0 & S0).
  cbn [strconv.mantissa0 strconv.mant strconv.nfrac strconv.sawdot
       strconv.underscores strconv.sawdigits] in M0, F0, D0, U0, S0.
  cbn [strconv.readMantissa] in R0.
  change (Bytes.eqb "." "_") with false in R0.
  change (Bytes.eqb "." ".") with true in R0. cbv iota in R0.
  rewrite D0 in R0.
  set (stp := {| strconv.mant := strconv.mant st0; strconv.nfrac := strconv.nfrac st0;
                 strconv.sawdot := true; strconv.sawdigits := strconv.sawdigits st0;
                 strconv.underscores := strconv.underscores st0 |}) in R0.
  destruct (readMantissa_digits d1
              (NilEmpty.string_of_uint d2 ++ NilEmpty.string_of_uint d3 ++ "") stp)
    as (st1 & R1 & M1 & F1 & D1 & U1 & S1).
  destruct (readMantissa_digits d2 (NilEmpty.string_of_uint d3 ++ "") st1)
    as (st2 & R2 & M2 & F2 & D2 & U2 & S2).
  destruct (readMantissa_digits d3 "" st2)
    as (st3 & R3 & M3 & F3 & D3 & U3 & S3).
  cbn [strconv.readMantissa] in R3.
  rewrite R1, R2, R3 in R0. clear R1 R2 R3.
  cbn [strconv.mant strconv.nfrac strconv.sawdot strconv.underscores
       strconv.sawdigits stp] in M1, F1, D1, U1, S1.
  rewrite D1 in F2, D2. rewrite D2 in F3, D3.
  rewrite N1 in F1. rewrite N2 in F2. rewrite N3 in F3.
  assert (Mant : strconv.mant st3 = n).
  { rewrite M3, V3, M2, V2, M1, V1, M0, Vd.
    pose proof (Z.div_mod f 10 ltac:(lia)).
    pose proof (Z.div_mod (f / 10) 10 ltac:(lia)).
    rewrite Z.div_div in * by lia. change (10 * 10) with 100 in *. lia. }
  assert (Frac : strconv.nfrac st3 = 3) by lia.
  assert (Und : strconv.underscores st3 = false) by congruence.
  assert (Dig : strconv.sawdigits st3 = true).
  { rewrite S3. destruct d3; [discriminate N3 | reflexivity ..]. }
  (* the literal *)
  cbv zeta. rewrite Es, Ecr.
  rewrite (ParseFloat_decimal (String c r) st3).
  - rewrite Mant, Frac. destruct n as [|p|p]; try lia.
    change (Z.to_pos (Zpos p)) with p. reflexivity.
  - apply special_digit. exact Hc.
  - apply is_digit_not_sign. exact Hc.
  - refine (no_hex_prefix (String c r) _). intros c0 x r0 E0. injection E0 as -> ->.
    clear - Hd Ecr.
    destruct d as [|d'|d'|d'|d'|d'|d'|d'|d'|d'|d']; [congruence | ..];
      cbn [NilEmpty.string_of_uint append] in Ecr;
      injection Ecr as _ Er;
      (destruct d'; cbn [NilEmpty.string_of_uint append] in Er;
       injection Er as <- _; reflexivity).
  - rewrite <- Ecr. exact R0.
  - exact Dig.
  - exact Und.
Qed.

(** A positive number of thousandths below 2^52: its nearest float64
    survives [%.3f]. *)
Lemma three_decimals_of_ratio n :
  0 < n < 2 ^ 52 -> three_decimals (F64.of_ratio (Z.to_pos n) 1000).
Proof.
  intros Hn. destruct (of_ratio_thousandths n Hn) as (m & e & Ex & He & Hth).
  unfold three_decimals.
  rewrite Ex at 1. cbn [strconv.FormatFloat3]. rewrite Hth.
  change ("" ++ ?x)%string with x.
  pose proof (ParseFloat_thousandths n ltac:(lia)) as P. cbv zeta in P.
  rewrite P, Ex. reflexivity.
Qed.

Lemma three_decimals_zero s : three_decimals (S754_zero s).
Proof. destruct s; reflexivity. Qed.

(* ================================================================= *)
(** ** The pool of workers: accounting *)

Lemma sum_workers_app f ws1 ws2 :
  sum_workers f (ws1 ++ ws2) = sum_workers f ws1 + sum_workers f ws2.
Proof. induction ws1 as [|p ws1 IH]; cbn; [reflexivity | rewrite IH; lia]. Qed.

Lemma sum_workers_nonneg f ws :
  (forall p, 0 <= f p) -> 0 <= sum_workers f ws.
Proof.
  intros Hf. induction ws as [|p ws IH]; cbn; [lia|]. specialize (Hf p). lia.
Qed.

Lemma sum_workers_repeat f p k :
  sum_workers f (repeat p k) = Z.of_nat k * f p.
Proof. induction k as [|k IH]; [reflexivity|]. cbn [repeat sum_workers]. lia. Qed.

Lemma sum_workers_finished f ws :
  f Returned = 0 -> Forall (eq Returned) ws -> sum_workers f ws = 0.
Proof.
  intros Hf. induction 1 as [|p ws <- _ IH]; cbn; [reflexivity | lia].
Qed.

(** A quantity that no step of a worker increases is not increased by a
    run: [g] of the tester and the tokens, [fw] of each worker, and [fa] of
    each step made. *)
Lemma Steps_bound (g : Tester.t -> Z -> Z) (fw : pc -> Z) (fa : act -> Z) :
  (forall t n p a t' n' p',
      wstep (t, n, p) a (t', n', p') ->
      g t' n' + fw p' + fa a <= g t n + fw p) ->
  forall s tr s',
    Steps s tr s' ->
    g (shared s') (tokens s') + sum_workers fw (workers s') + count_steps fa tr
    <= g (shared s) (tokens s) + sum_workers fw (workers s).
Proof.
  intros Hstep s tr s' H.
  induction H as [s|s l s1 tr s2 Hs _ IH]; [cbn; lia|].
  destruct Hs as [t n before p after a t' n' p' Hw].
  cbn [shared tokens workers count_steps] in *.
  specialize (Hstep _ _ _ _ _ _ _ Hw).
  rewrite sum_workers_app in *. cbn [sum_workers] in *. lia.
Qed.

(** A quantity that every step of a worker keeps is kept by a run. *)
Lemma Steps_balance (g : Tester.t -> Z -> Z) (fw : pc -> Z) (fa : act -> Z) :
  (forall t n p a t' n' p',
      wstep (t, n, p) a (t', n', p') ->
      g t' n' + fw p' + fa a = g t n + fw p) ->
  forall s tr s',
    Steps s tr s' ->
    g (shared s') (tokens s') + sum_workers fw (workers s') + count_steps fa tr
    = g (shared s) (tokens s) + sum_workers fw (workers s).
Proof.
  intros Hstep s tr s' H.
  induction H as [s|s l s1 tr s2 Hs _ IH]; [cbn; lia|].
  destruct Hs as [t n before p after a t' n' p' Hw].
  cbn [shared tokens workers count_steps] in *.
  specialize (Hstep _ _ _ _ _ _ _ Hw).
  rewrite sum_workers_app in *. cbn [sum_workers] in *. lia.
Qed.

Lemma count_steps_nonneg f tr : (forall a, 0 <= f a) -> 0 <= count_steps f tr.
Proof.
  intros Hf. induction tr as [|[i a] tr IH]; cbn; [lia|]. specialize (Hf a). lia.
Qed.

Lemma count_steps_length tr : count_steps any_step tr = len tr.
Proof.
  unfold len. induction tr as [|[i a] tr IH]; [reflexivity|].
  cbn [count_steps List.length]. unfold any_step at 1. lia.
Qed.

(** The tokens never go below zero once they are not. *)
Lemma Steps_tokens_nonneg s tr s' :
  Steps s tr s' -> 0 <= tokens s -> 0 <= tokens s'.
Proof.
  induction 1 as [s|s l s1 tr s2 Hs _ IH]; [trivial|].
  intros H0. apply IH. destruct Hs as [t n before p after a t' n' p' Hw].
  cbn [tokens] in *. inversion Hw; subst; lia.
Qed.

(** The tokens handed over and not yet recorded as attempts are held by the
    workers. *)
Lemma Steps_tokens s tr s' :
  Steps s tr s' ->
  tokens s' + sum_workers holds_token (workers s') + count_steps is_attempt tr
  = tokens s + sum_workers holds_token (workers s).
Proof.
  apply (Steps_balance (fun _ n => n) holds_token is_attempt).
  intros t n p a t' n' p' Hw. inversion Hw; subst; cbn; lia.
Qed.

(** The three counters count the steps that record. *)
Lemma wstep_counters t n p a t' n' p' :
  wstep (t, n, p) a (t', n', p') ->
  ints_ok (Tester.stats t) ->
  ints_ok (Tester.stats t') /\
  counts t' =
    (GoInt.wrap (Stats.Requests (Tester.stats t) + is_attempt a),
     GoInt.wrap (Stats.Successes (Tester.stats t) + is_success a),
     GoInt.wrap (Stats.Failures (Tester.stats t) + is_failure a)).
Proof.
  intros Hw (Hr & Hs & Hf).
  inversion Hw; subst; (split;
    [ unfold ints_ok; (split; [|split]);
      first [assumption | apply incr_in_range]
    | unfold counts; cbn;
      rewrite ?Z.add_0_r, ?(wrap_id _ Hr), ?(wrap_id _ Hs), ?(wrap_id _ Hf);
      reflexivity ]).
Qed.

Lemma Steps_counters s tr s' :
  Steps s tr s' ->
  ints_ok (Tester.stats (shared s)) ->
  ints_ok (Tester.stats (shared s')) /\
  counts (shared s') =
    (GoInt.wrap (Stats.Requests (Tester.stats (shared s)) + count_steps is_attempt tr),
     GoInt.wrap (Stats.Successes (Tester.stats (shared s)) + count_steps is_success tr),
     GoInt.wrap (Stats.Failures (Tester.stats (shared s)) + count_steps is_failure tr)).
Proof.
  induction 1 as [s|s l s1 tr s2 Hs _ IH]; intros Hok.
  - split; [exact Hok|]. destruct Hok as (Hr & Hs & Hf).
    unfold counts. cbn [count_steps].
    rewrite !Z.add_0_r, (wrap_id _ Hr), (wrap_id _ Hs), (wrap_id _ Hf). reflexivity.
  - destruct Hs as [t n before p after a t' n' p' Hw].
    cbn [shared count_steps] in *.
    destruct (wstep_counters _ _ _ _ _ _ _ Hw Hok) as [Hok1 E1].
    destruct (IH Hok1) as [Hok2 E2]. split; [exact Hok2|].
    rewrite E2. unfold counts in E1. injection E1 as -> -> ->.
    rewrite !wrap_add_l. f_equal; [f_equal|]; f_equal; lia.
Qed.

(** From a fresh tester: the tokens handed over are attempts or held. *)
Lemma fresh_attempts t tr s :
  fresh t -> Steps (start t) tr s ->
  0 <= tokens s /\
  tokens s + sum_workers holds_token (workers s) + count_steps is_attempt tr
  = Tester.requests t.
Proof.
  intros (_ & _ & Hn & _) H. split.
  - apply (Steps_tokens_nonneg _ _ _ H). cbn. lia.
  - rewrite (Steps_tokens _ _ _ H). unfold start. cbn [tokens workers].
    rewrite sum_workers_repeat. cbn. lia.
Qed.

(** From a fresh tester: no worker fails twice. *)
Lemma fresh_failures t tr s :
  fresh t -> Steps (start t) tr s ->
  0 <= count_steps is_failure tr <= Tester.Concurrency t.
Proof.
  intros (_ & _ & _ & Hc) H. split.
  - apply count_steps_nonneg. intros []; cbn; lia.
  - pose proof (Steps_bound (fun _ _ => 0) can_fail is_failure) as B.
    specialize (B ltac:(intros t0 n p a t' n' p' Hw; inversion Hw; subst; cbn; lia)
                  _ _ _ H).
    unfold start in B. cbn [workers] in B. rewrite sum_workers_repeat in B.
    pose proof (sum_workers_nonneg can_fail (workers s)
                  ltac:(intros []; cbn; lia)).
    cbn in B. rewrite Z2Nat.id in B by lia. lia.
Qed.

Lemma fresh_ints_ok t : fresh t -> ints_ok (Tester.stats t).
Proof.
  intros (Hc & _). unfold counts in Hc. injection Hc as Hr Hs Hf.
  unfold ints_ok, GoInt.in_range, GoInt.min_int, GoInt.max_int.
  rewrite Hr, Hs, Hf. lia.
Qed.

(** From a fresh tester the counters are the numbers of recording steps:
    nothing wraps around. *)
Lemma fresh_counts t tr s :
  fresh t -> Steps (start t) tr s ->
  counts (shared s) =
    (count_steps is_attempt tr, count_steps is_success tr, count_steps is_failure tr) /\
  0 <= count_steps is_attempt tr <= Tester.requests t /\
  0 <= count_steps is_success tr <= count_steps is_attempt tr /\
  0 <= count_steps is_failure tr <= Tester.Concurrency t.
Proof.
  intros Hfresh H.
  destruct (Steps_counters _ _ _ H (fresh_ints_ok _ Hfresh)) as [_ E].
  destruct (fresh_attempts _ _ _ Hfresh H) as [Htok Hatt].
  pose proof (fresh_failures _ _ _ Hfresh H) as Hfail.
  pose proof (sum_workers_nonneg holds_token (workers s) ltac:(intros []; cbn; lia)) as Hheld.
  pose proof (count_steps_nonneg is_attempt tr ltac:(intros []; cbn; lia)) as Ha0.
  pose proof (count_steps_nonneg is_success tr ltac:(intros []; cbn; lia)) as Hs0.
  (* a success follows its attempt *)
  pose proof (Steps_bound (fun _ _ => 0) in_flight
                (fun a => is_success a - is_attempt a)) as B.
  specialize (B ltac:(intros t0 n p a t' n' p' Hw; inversion Hw; subst; cbn; lia)
                _ _ _ H).
  assert (Hsum : forall f g tr0,
             count_steps (fun a => f a - g a) tr0 = count_steps f tr0 - count_steps g tr0).
  { intros f g tr0. induction tr0 as [|[i a] tr0 IH]; cbn; [reflexivity | lia]. }
  rewrite Hsum in B. unfold start in B. cbn [workers] in B.
  rewrite sum_workers_repeat in B. cbn in B.
  pose proof (sum_workers_nonneg in_flight (workers s) ltac:(intros []; cbn; lia)).
  destruct Hfresh as (Hc & _ & Hn & Hw). unfold counts in Hc. injection Hc as Hr Hs Hf.
  unfold start in E. cbn [shared] in E.
  rewrite Hr, Hs, Hf in E. cbn [Z.add] in E.
  assert (Hsa : count_steps is_success tr <= count_steps is_attempt tr) by lia.
  unfold GoInt.max_int in *.
  rewrite !wrap_id in E by (unfold GoInt.in_range, GoInt.min_int, GoInt.max_int; lia).
  split; [exact E|]. lia.
Qed.

(* ================================================================= *)
(** ** The pool of workers: bounds on a run *)

(** Two runs of one worker used as examples: two tokens answered by 200
    and 200; two tokens of which the first is answered by 500. *)
Lemma two_successes_run (t : Tester.t) :
  Tester.Concurrency t = 1 -> Tester.requests t = 2 ->
  Steps (start t)
    [(0%nat, ARecv); (0%nat, AAttempt); (0%nat, AAnswer (Responds 1500000 200));
     (0%nat, ATime); (0%nat, ASuccess);
     (0%nat, ARecv); (0%nat, AAttempt); (0%nat, AAnswer (Responds 2500000 200));
     (0%nat, ATime); (0%nat, ASuccess); (0%nat, AClosed)]
    {| shared := DoRequest [Responds 1500000 200; Responds 2500000 200] t;
       tokens := 0;
       workers := [Returned] |}.
Proof.
  intros Hc Hn. unfold start. rewrite Hc, Hn.
  change (Z.to_nat 1) with 1%nat. cbn [repeat].
  eapply Steps_cons.
  { apply (Step_worker _ _ [] Waiting [] ARecv). apply w_recv. reflexivity. }
  eapply Steps_cons.
  { apply (Step_worker _ _ [] Received [] AAttempt). apply w_attempt. }
  eapply Steps_cons.
  { apply (Step_worker _ _ [] Calling [] (AAnswer (Responds 1500000 200))).
    apply w_responds. }
  eapply Steps_cons.
  { apply (Step_worker _ _ [] (Responded 1500000 200) [] ATime). apply w_time. }
  eapply Steps_cons.
  { apply (Step_worker _ _ [] (Timed 200) [] ASuccess). apply w_success. }
  eapply Steps_cons.
  { apply (Step_worker _ _ [] Waiting [] ARecv). apply w_recv. reflexivity. }
  eapply Steps_cons.
  { apply (Step_worker _ _ [] Received [] AAttempt). apply w_attempt. }
  eapply Steps_cons.
  { apply (Step_worker _ _ [] Calling [] (AAnswer (Responds 2500000 200))).
    apply w_responds. }
  eapply Steps_cons.
  { apply (Step_worker _ _ [] (Responded 2500000 200) [] ATime). apply w_time. }
  eapply Steps_cons.
  { apply (Step_worker _ _ [] (Timed 200) [] ASuccess). apply w_success. }
  eapply Steps_cons.
  { apply (Step_worker _ _ [] Waiting [] AClosed). apply w_closed. reflexivity. }
  apply Steps_nil.
Qed.

Lemma failure_then_nothing_run (t : Tester.t) :
  Tester.Concurrency t = 1 -> Tester.requests t = 2 ->
  Steps (start t)
    [(0%nat, ARecv); (0%nat, AAttempt); (0%nat, AAnswer (Responds 1500000 500));
     (0%nat, ATime); (0%nat, ALog); (0%nat, AFailure)]
    {| shared := DoRequest [Responds 1500000 500] t;
       tokens := 1;
       workers := [Returned] |}.
Proof.
  intros Hc Hn. unfold start. rewrite Hc, Hn.
  change (Z.to_nat 1) with 1%nat. cbn [repeat].
  eapply Steps_cons.
  { apply (Step_worker _ _ [] Waiting [] ARecv). apply w_recv. reflexivity. }
  eapply Steps_cons.
  { apply (Step_worker _ _ [] Received [] AAttempt). apply w_attempt. }
  eapply Steps_cons.
  { apply (Step_worker _ _ [] Calling [] (AAnswer (Responds 1500000 500))).
    apply w_responds. }
  eapply Steps_cons.
  { apply (Step_worker _ _ [] (Responded 1500000 500) [] ATime). apply w_time. }
  eapply Steps_cons.
  { apply (Step_worker _ _ [] (Timed 500) [] ALog). apply w_bad_status. discriminate. }
  eapply Steps_cons.
  { apply (Step_worker _ _ [] BadStatusLogged [] AFailure). apply w_bad_status_failure. }
  apply Steps_nil.
Qed.

Lemma fresh_two_requests :
  fresh (Tester.with_requests 2 (Tester.with_URL "http://fake.url" default_tester)).
Proof.
  unfold fresh. split; [reflexivity|]. split; [reflexivity|].
  split; vm_compute; split; discriminate.
Qed.

Lemma Run_counts env fs t t' fs' e :
  Run env fs t (Ok (t', fs', e)) ->
  exists tr s, Steps (start t) tr s /\ finished s /\ counts t' = counts (shared s).
Proof.
  intros H. inversion H as [|tr s Hc Hs Hfin Hafter].
  exists tr, s. split; [exact Hs|]. split; [exact Hfin|].
  apply after_Wait_counts in Hafter. exact Hafter.
Qed.

(** X1.  The tester never attempts more calls than it was asked for: from
    a fresh tester, at every point of a run the counter of requests is
    between 0 and the configured number of requests, and so it is in the
    stats [Run] leaves. *)
Theorem attempts_within_requests (t : Tester.t) :
  fresh t ->
  (forall tr s,
      Steps (start t) tr s ->
      0 <= Stats.Requests (Tester.stats (shared s)) <= Tester.requests t) /\
  (forall env fs t' fs' e,
      Run env fs t (Ok (t', fs', e)) ->
      0 <= Stats.Requests (Tester.stats t') <= Tester.requests t).
Proof.
  intros Hfresh.
  assert (A : forall tr s,
      Steps (start t) tr s ->
      0 <= Stats.Requests (Tester.stats (shared s)) <= Tester.requests t).
  { intros tr s H. destruct (fresh_counts _ _ _ Hfresh H) as (E & Ha & _).
    unfold counts in E. injection E as -> _ _. exact Ha. }
  split; [exact A|].
  intros env fs t' fs' e HRun.
  destruct (Run_counts _ _ _ _ _ _ HRun) as (tr & s & Hs & _ & E).
  unfold counts in E. injection E as -> _ _. apply (A tr s Hs).
Qed.

Lemma attempts_within_requests_witness :
  let t := Tester.with_requests 2 (Tester.with_URL "http://fake.url" default_tester) in
  0 <= Stats.Requests (Tester.stats (DoRequest [Responds 1500000 500] t)) <= 2.
Proof.
  intros t.
  destruct (attempts_within_requests t fresh_two_requests) as [H _].
  apply (H _ _ (failure_then_nothing_run t eq_refl eq_refl)).
Defined.

(** X2.  No worker fails twice: from a fresh tester, at every point of a
    run the counter of failures is at most the number of workers, and so it
    is in the stats [Run] leaves. *)
Theorem failures_within_concurrency (t : Tester.t) :
  fresh t ->
  (forall tr s,
      Steps (start t) tr s ->
      0 <= Stats.Failures (Tester.stats (shared s)) <= Tester.Concurrency t) /\
  (forall env fs t' fs' e,
      Run env fs t (Ok (t', fs', e)) ->
      0 <= Stats.Failures (Tester.stats t') <= Tester.Concurrency t).
Proof.
  intros Hfresh.
  assert (A : forall tr s,
      Steps (start t) tr s ->
      0 <= Stats.Failures (Tester.stats (shared s)) <= Tester.Concurrency t).
  { intros tr s H. destruct (fresh_counts _ _ _ Hfresh H) as (E & _ & _ & Hf).
    unfold counts in E. injection E as _ _ ->. exact Hf. }
  split; [exact A|].
  intros env fs t' fs' e HRun.
  destruct (Run_counts _ _ _ _ _ _ HRun) as (tr & s & Hs & _ & E).
  unfold counts in E. injection E as _ _ ->. apply (A tr s Hs).
Qed.

Lemma failures_within_concurrency_witness :
  let t := Tester.with_requests 2 (Tester.with_URL "http://fake.url" default_tester) in
  0 <= Stats.Failures (Tester.stats (DoRequest [Responds 1500000 500] t)) <= 1.
Proof.
  intros t.
  destruct (failures_within_concurrency t fresh_two_requests) as [H _].
  apply (H _ _ (failure_then_nothing_run t eq_refl eq_refl)).
Defined.

Lemma Steps_tokens_le s tr s' : Steps s tr s' -> tokens s' <= tokens s.
Proof.
  induction 1 as [s|s l s1 tr s2 Hs _ IH]; [lia|].
  destruct Hs as [t n before p after a t' n' p' Hw].
  cbn [tokens] in *. inversion Hw; subst; lia.
Qed.

(** While tokens are left, a worker stops only by a failure. *)
Lemma Steps_open s tr s' :
  Steps s tr s' -> 0 < tokens s' ->
  sum_workers can_fail (workers s') + count_steps is_failure tr
  = sum_workers can_fail (workers s).
Proof.
  induction 1 as [s|s l s1 tr s2 Hs Hrest IH]; intros Hopen; [cbn; lia|].
  specialize (IH Hopen). apply Steps_tokens_le in Hrest.
  destruct Hs as [t n before p after a t' n' p' Hw].
  cbn [tokens workers count_steps] in *.
  rewrite sum_workers_app in *. cbn [sum_workers] in *.
  inversion Hw; subst; cbn [can_fail is_failure] in *; lia.
Qed.

(** Attempts are successes, failures and calls in flight. *)
Lemma Steps_classified s tr s' :
  Steps s tr s' ->
  sum_workers in_flight (workers s')
    + (count_steps is_success tr + count_steps is_failure tr)
  = sum_workers in_flight (workers s) + count_steps is_attempt tr.
Proof.
  intros H.
  pose proof (Steps_balance (fun _ _ => 0) in_flight
                (fun a => is_success a + is_failure a - is_attempt a)) as B.
  specialize (B ltac:(intros t0 n p a t' n' p' Hw; inversion Hw; subst; cbn; lia)
                _ _ _ H).
  assert (Hsum : forall tr0,
             count_steps (fun a => is_success a + is_failure a - is_attempt a) tr0
             = count_steps is_success tr0 + count_steps is_failure tr0
               - count_steps is_attempt tr0).
  { intros tr0. induction tr0 as [|[i a] tr0 IH]; cbn; [reflexivity | lia]. }
  rewrite Hsum in B. lia.
Qed.

(** X3.  A run without failure serves every request: from a fresh tester
    with at least one worker, when all workers have returned and no failure
    was counted, the requests counted and the successes counted are both the
    configured number of requests. *)
Theorem run_without_failure_serves_all (t : Tester.t) (tr : list (nat * act))
    (s : pool) :
  fresh t ->
  1 <= Tester.Concurrency t ->
  Steps (start t) tr s ->
  finished s ->
  Stats.Failures (Tester.stats (shared s)) = 0 ->
  Stats.Requests (Tester.stats (shared s)) = Tester.requests t /\
  Stats.Successes (Tester.stats (shared s)) = Tester.requests t.
Proof.
  intros Hfresh Hc H Hfin Hnofail.
  destruct (fresh_counts _ _ _ Hfresh H) as (E & Ha & Hs & Hf).
  unfold counts in E. injection E as Er Es Ef.
  rewrite Ef in Hnofail. rewrite Er, Es.
  destruct (fresh_attempts _ _ _ Hfresh H) as [Htok Hatt].
  unfold finished in Hfin.
  rewrite (sum_workers_finished holds_token _ eq_refl Hfin) in Hatt.
  pose proof (Steps_classified _ _ _ H) as Hcl.
  rewrite (sum_workers_finished in_flight _ eq_refl Hfin) in Hcl.
  unfold start in Hcl. cbn [workers] in Hcl. rewrite sum_workers_repeat in Hcl.
  cbn [in_flight] in Hcl.
  assert (Hclosed : tokens s <= 0).
  { destruct (Z.le_gt_cases (tokens s) 0) as [Hle|Hgt]; [exact Hle|].
    pose proof (Steps_open _ _ _ H ltac:(lia)) as Ho.
    rewrite (sum_workers_finished can_fail _ eq_refl Hfin) in Ho.
    unfold start in Ho. cbn [workers] in Ho. rewrite sum_workers_repeat in Ho.
    cbn [can_fail] in Ho. lia. }
  lia.
Qed.

Lemma run_without_failure_serves_all_witness :
  let t := Tester.with_requests 2 (Tester.with_URL "http://fake.url" default_tester) in
  let t' := DoRequest [Responds 1500000 200; Responds 2500000 200] t in
  Stats.Requests (Tester.stats t') = 2 /\ Stats.Successes (Tester.stats t') = 2.
Proof.
  intros t t'.
  apply (run_without_failure_serves_all t _ _ fresh_two_requests
           ltac:(vm_compute; discriminate) (two_successes_run t eq_refl eq_refl)
           ltac:(repeat constructor) eq_refl).
Defined.

(** X4.  One message on stderr for each failure, none on stdout: when all
    workers have returned after a run from a fresh tester, stderr has gained
    as many messages as failures were counted, and stdout is as it was. *)
Theorem one_message_per_failure (t : Tester.t) (tr : list (nat * act)) (s : pool) :
  fresh t ->
  Steps (start t) tr s ->
  finished s ->
  len (Tester.stderr (shared s))
    = len (Tester.stderr t) + Stats.Failures (Tester.stats (shared s)) /\
  Tester.stdout (shared s) = Tester.stdout t.
Proof.
  intros Hfresh H Hfin. split; [|apply (Steps_summary _ _ _ H)].
  destruct (fresh_counts _ _ _ Hfresh H) as (E & _).
  unfold counts in E. injection E as _ _ ->.
  pose proof (Steps_balance (fun t0 _ => len (Tester.stderr t0))
                (fun p => - owed p) (fun a => - is_failure a)) as B.
  assert (Hstep : forall t0 n p a t' n' p',
             wstep (t0, n, p) a (t', n', p') ->
             len (Tester.stderr t') + - owed p' + - is_failure a
             = len (Tester.stderr t0) + - owed p).
  { intros t0 n p a t' n' p' Hw.
    inversion Hw; subst; cbn [owed is_failure];
      unfold LogStdErr, LogFStdErr, RecordFailure, RecordRequest, RecordSuccess,
             RecordTime, len;
      cbn [Tester.stderr Tester.with_stderr Tester.with_stats Tester.with_times];
      rewrite ?List.length_app; cbn [List.length]; lia. }
  specialize (B Hstep _ _ _ H).
  assert (Hneg : forall tr0,
             count_steps (fun a => - is_failure a) tr0 = - count_steps is_failure tr0).
  { intros tr0. induction tr0 as [|[i a] tr0 IH]; cbn; [reflexivity | lia]. }
  assert (Hzero : forall ws, Forall (eq Returned) ws ->
             sum_workers (fun p => - owed p) ws = 0).
  { intros ws Hws. apply sum_workers_finished; [reflexivity | exact Hws]. }
  rewrite Hneg, (Hzero _ Hfin) in B.
  unfold start in B. cbn [shared workers] in B. rewrite sum_workers_repeat in B.
  cbn [owed] in B. lia.
Qed.

Lemma one_message_per_failure_witness :
  let t := Tester.with_requests 2 (Tester.with_URL "http://fake.url" default_tester) in
  let t' := DoRequest [Responds 1500000 500] t in
  len (Tester.stderr t') = 0 + 1 /\ Tester.stdout t' = [].
Proof.
  intros t t'.
  apply (one_message_per_failure t _ _ fresh_two_requests
           (failure_then_nothing_run t eq_refl eq_refl)
           ltac:(repeat constructor)).
Defined.

(** X5.  Every success has its sample: from a fresh tester, at every point
    of a run the recorder holds at least as many samples as successes were
    counted; so after one success the recorder is not empty, and
    [SetMetrics] does not report that no time was recorded. *)
Theorem every_success_has_a_sample (t : Tester.t) (tr : list (nat * act))
    (s : pool) :
  fresh t ->
  Steps (start t) tr s ->
  Stats.Successes (Tester.stats (shared s)) <= len (Tester.TimeRecorder (shared s)) /\
  (0 < Stats.Successes (Tester.stats (shared s)) ->
   Tester.TimeRecorder (shared s) <> [] /\
   forall t' e, SetMetrics (shared s) <> Ok (t', Some e)).
Proof.
  intros Hfresh H.
  destruct (fresh_counts _ _ _ Hfresh H) as (E & _).
  unfold counts in E. injection E as _ -> _.
  pose proof (Steps_bound (fun t0 _ => - len (Tester.TimeRecorder t0))
                timed is_success) as B.
  assert (Hstep : forall t0 n p a t' n' p',
             wstep (t0, n, p) a (t', n', p') ->
             - len (Tester.TimeRecorder t') + timed p' + is_success a
             <= - len (Tester.TimeRecorder t0) + timed p).
  { intros t0 n p a t' n' p' Hw.
    inversion Hw; subst; cbn [timed is_success];
      unfold LogStdErr, LogFStdErr, RecordFailure, RecordRequest, RecordSuccess,
             RecordTime, len;
      cbn [Tester.TimeRecorder Tester.with_stderr Tester.with_stats Tester.with_times];
      rewrite ?List.length_app; cbn [List.length]; lia. }
  specialize (B Hstep _ _ _ H).
  pose proof (sum_workers_nonneg timed (workers s) ltac:(intros []; cbn; lia)).
  unfold start in B. cbn [shared workers] in B. rewrite sum_workers_repeat in B.
  cbn [timed] in B.
  destruct Hfresh as (_ & Hempty & _). rewrite Hempty in B.
  change (len (@nil F64.float64)) with 0 in B.
  assert (Hle : count_steps is_success tr <= len (Tester.TimeRecorder (shared s))) by lia.
  split; [exact Hle|].
  intros Hpos.
  assert (Hne : Tester.TimeRecorder (shared s) <> []).
  { intros E. rewrite E in Hle. change (len (@nil F64.float64)) with 0 in Hle. lia. }
  split; [exact Hne|].
  intros t' e. unfold SetMetrics.
  destruct (Tester.TimeRecorder (shared s)) as [|x xs] eqn:Et; [congruence|].
  replace (len (x :: xs) <? 1) with false
    by (symmetry; apply Z.ltb_ge; unfold len; cbn [List.length]; lia).
  repeat match goal with
  | |- bind ?r _ <> _ => destruct r; cbn [bind]; try discriminate
  end.
  destruct (count_and_total _) as [nreq total]. discriminate.
Qed.

Lemma every_success_has_a_sample_witness :
  let t := Tester.with_requests 2 (Tester.with_URL "http://fake.url" default_tester) in
  let t' := DoRequest [Responds 1500000 200; Responds 2500000 200] t in
  Stats.Successes (Tester.stats t') <= len (Tester.TimeRecorder t') /\
  Tester.TimeRecorder t' <> [].
Proof.
  intros t t'.
  destruct (every_success_has_a_sample t _ _ fresh_two_requests
              (two_successes_run t eq_refl eq_refl))
    as [H1 H2].
  split; [exact H1|]. apply H2. reflexivity.
Defined.

(** X6.  The workers come to an end: a run makes at most five steps for
    each request and one for each worker, whatever the answers and the
    interleaving are. *)
Theorem workers_terminate (t : Tester.t) (tr : list (nat * act)) (s : pool) :
  Steps (start t) tr s ->
  len tr <= 5 * Z.max (Tester.requests t) 0 + Z.max (Tester.Concurrency t) 0.
Proof.
  intros H.
  pose proof (Steps_bound (fun _ n => 5 * Z.max n 0) rank any_step) as B.
  specialize (B ltac:(intros t0 n p a t' n' p' Hw; inversion Hw; subst;
                      unfold any_step; cbn [rank]; lia) _ _ _ H).
  rewrite count_steps_length in B.
  pose proof (sum_workers_nonneg rank (workers s) ltac:(intros []; cbn; lia)).
  unfold start in B. cbn [shared tokens workers] in B.
  rewrite sum_workers_repeat in B. cbn [rank] in B. lia.
Qed.

Lemma workers_terminate_witness :
  let t := Tester.with_requests 2 (Tester.with_URL "http://fake.url" default_tester) in
  len [(0%nat, ARecv); (0%nat, AAttempt); (0%nat, AAnswer (Responds 1500000 200));
       (0%nat, ATime); (0%nat, ASuccess);
       (0%nat, ARecv); (0%nat, AAttempt); (0%nat, AAnswer (Responds 2500000 200));
       (0%nat, ATime); (0%nat, ASuccess); (0%nat, AClosed)]
  <= 5 * Z.max (Tester.requests t) 0 + Z.max (Tester.Concurrency t) 0.
Proof.
  intros t. exact (workers_terminate _ _ _ (two_successes_run t eq_refl eq_refl)).
Defined.

(* ================================================================= *)
(** ** The pool of workers: progress *)









(* ================================================================= *)
(** ** Run: the statements after the workers *)

Lemma wstep_config t n p a t' n' p' :
  wstep (t, n, p) a (t', n', p') ->
  config t' = config t /\ Tester.EndAt t' = Tester.EndAt t.
Proof. intros H; inversion H; subst; split; reflexivity. Qed.

(** The workers leave the configuration alone. *)
Lemma Steps_config s tr s' :
  Steps s tr s' ->
  config (shared s') = config (shared s) /\
  Tester.EndAt (shared s') = Tester.EndAt (shared s).
Proof.
  induction 1 as [|s l s1 tr s2 Hstep _ IH]; [split; reflexivity|].
  destruct Hstep as [t n before p after a t' n' p' Hw].
  apply wstep_config in Hw. cbn [shared] in *.
  destruct Hw as [E1 E2], IH as [I1 I2].
  split; [rewrite I1 | rewrite I2]; assumption.
Qed.

(** [SetMetrics] changes the recorder and the stats, nothing else; it
    returns an error only on an empty recorder, and then changes nothing. *)
Lemma SetMetrics_frame t t' e :
  SetMetrics t = Ok (t', e) ->
  config t' = config t /\
  Tester.EndAt t' = Tester.EndAt t /\
  Tester.stdout t' = Tester.stdout t /\
  Tester.stderr t' = Tester.stderr t /\
  match e with
  | Some err => err = ErrTimeNotRecorded /\ t' = t /\ Tester.TimeRecorder t = []
  | None => Tester.TimeRecorder t <> []
  end.
Proof.
  unfold SetMetrics.
  destruct (Tester.TimeRecorder t) as [|x xs] eqn:Et.
  - cbn. intros [= <- <-]. repeat split; reflexivity.
  - replace (len (x :: xs) <? 1) with false
      by (symmetry; apply Z.ltb_ge; unfold len; cbn [List.length]; lia).
    repeat match goal with
    | |- bind ?r _ = _ -> _ => destruct r; cbn [bind]; try discriminate
    end.
    destruct (count_and_total _) as [nreq total].
    intros [= <- <-]. repeat split; try reflexivity. discriminate.
Qed.

Lemma report_printed t :
  LogFStdOut "P50: %.3fms P90: %.3fms P99: %.3fms\n"
    [log.AFloat (Stats.P50 (Tester.stats t));
     log.AFloat (Stats.P90 (Tester.stats t));
     log.AFloat (Stats.P99 (Tester.stats t))]
    (LogFStdOut "Requests: %d Success: %d Failures: %d\n"
       [log.AInt (Stats.Requests (Tester.stats t));
        log.AInt (Stats.Successes (Tester.stats t));
        log.AInt (Stats.Failures (Tester.stats t))]
       (LogFStdOut "The benchmark of %s site took %v\n"
          [log.AString (Tester.URL t);
           log.ADuration (Duration_Round (Tester.EndAt t) time_Millisecond)]
          t))
  = Tester.with_stdout (Tester.stdout t ++ report t)%list t.
Proof.
  destruct t. unfold LogFStdOut, report, Tester.with_stdout.
  cbn [Tester.stdout Tester.Concurrency Tester.client Tester.EndAt Tester.ExportStats
       Tester.Graphs Tester.OutputPath Tester.requests Tester.stderr Tester.URL
       Tester.userAgent Tester.stats Tester.TimeRecorder].
  rewrite <- !List.app_assoc. reflexivity.
Qed.

(** What the statements after [wg.Wait()] come to, stage by stage: the
    metrics, the two graphs, the stats file, the report. *)
Lemma after_Wait_stages env fs t t' fs' e :
  after_Wait env fs t = Ok (t', fs', e) ->
  exists t1 e1,
    SetMetrics (Tester.with_EndAt (elapsed_total env) t) = Ok (t1, e1) /\
    match e1 with
    | Some err => t' = t1 /\ fs' = fs /\ e = Some err
    | None =>
        exists fs1 g,
          (if Tester.Graphs t1 then
             match boxplot_png env with
             | Ok box =>
                 let fsb := os.put fs (Tester.OutputPath t1 ++ "/" ++ "boxplot.png") box in
                 match histogram_png env with
                 | Ok hist =>
                     fs1 = os.put fsb (Tester.OutputPath t1 ++ "/" ++ "histogram.png") hist
                     /\ g = None
                 | Err err => fs1 = fsb /\ g = Some err
                 | Panic _ => False
                 end
             | Err err => fs1 = fs /\ g = Some err
             | Panic _ => False
             end
           else fs1 = fs /\ g = None) /\
          match g with
          | Some err => t' = t1 /\ fs' = fs1 /\ e = Some err
          | None =>
              exists x,
                (if Tester.ExportStats t1 then
                   match create_err env with
                   | Some err => fs' = fs1 /\ x = Some err
                   | None =>
                       match write_err env with
                       | Some err =>
                           fs' = os.put fs1 (Tester.OutputPath t1 ++ "/" ++ "statsfile.txt") ""
                           /\ x = Some err
                       | None =>
                           fs' = os.put fs1 (Tester.OutputPath t1 ++ "/" ++ "statsfile.txt")
                                   (stats_line (Tester.stats t1))
                           /\ x = None
                       end
                   end
                 else fs' = fs1 /\ x = None) /\
                match x with
                | Some err => t' = t1 /\ e = Some err
                | None =>
                    t' = Tester.with_stdout (Tester.stdout t1 ++ report t1)%list t1 /\
                    e = None
                end
          end
    end.
Proof.
  unfold after_Wait.
  destruct (SetMetrics (Tester.with_EndAt (elapsed_total env) t))
    as [[t1 e1]| |] eqn:E; cbn [bind]; try discriminate.
  intros H. exists t1, e1. split; [reflexivity|].
  destruct e1 as [err|]; [injection H as <- <- <-; repeat split|].
  unfold Boxplot, Histogram in H.
  destruct (Tester.Graphs t1).
  - destruct (boxplot_png env) as [box|err|msg]; cbn [bind] in H; try discriminate.
    + destruct (histogram_png env) as [hist|err|msg]; cbn [bind] in H; try discriminate.
      * eexists _, None. split; [split; reflexivity|].
        revert H. unfold WriteStatsFile, io.Write. cbn [io.fail io.data].
        destruct (Tester.ExportStats t1).
        -- destruct (create_err env) as [err|].
           ++ intros [= <- <- <-]. exists (Some err). repeat split.
           ++ destruct (write_err env) as [err|].
              ** intros [= <- <- <-]. exists (Some err). repeat split.
              ** intros [= <- <- <-]. exists None. repeat split; apply report_printed.
        -- intros [= <- <- <-]. exists None. repeat split; apply report_printed.
      * injection H as <- <- <-. eexists _, (Some err). repeat split.
    + injection H as <- <- <-. eexists _, (Some err). repeat split.
  - cbn [bind] in H. eexists _, None. split; [split; reflexivity|].
    revert H. unfold WriteStatsFile, io.Write. cbn [io.fail io.data].
    destruct (Tester.ExportStats t1).
    + destruct (create_err env) as [err|].
      * intros [= <- <- <-]. exists (Some err). repeat split.
      * destruct (write_err env) as [err|].
        -- intros [= <- <- <-]. exists (Some err). repeat split.
        -- intros [= <- <- <-]. exists None. repeat split; apply report_printed.
    + intros [= <- <- <-]. exists None. repeat split; apply report_printed.
Qed.

Lemma Run_inv env fs t t' fs' e :
  Run env fs t (Ok (t', fs', e)) ->
  exists tr s,
    0 <= Tester.Concurrency t /\ Steps (start t) tr s /\ finished s /\
    after_Wait env fs (shared s) = Ok (t', fs', e).
Proof.
  intros H. inversion H as [|tr s Hc Hs Hfin Hafter].
  exists tr, s. repeat split; assumption.
Qed.

(** A run used as an example: one worker, two requests, both answered by
    status 200. *)
Lemma two_successes_Run env fs t :
  Tester.Concurrency t = 1 -> Tester.requests t = 2 ->
  Run env fs t
    (after_Wait env fs (DoRequest [Responds 1500000 200; Responds 2500000 200] t)).
Proof.
  intros Hc Hn.
  apply (Run_workers env fs t _ _ ltac:(lia) (two_successes_run t Hc Hn)).
  repeat constructor.
Qed.

(** X9.  [Run] does not touch the configuration: the tester it leaves has
    the concurrency, the client, the two flags, the output path, the number
    of requests, the URL and the user agent it was given. *)
Theorem Run_keeps_configuration (env : RunEnv) (fs : os.FS) (t t' : Tester.t)
    (fs' : os.FS) (e : option error) :
  Run env fs t (Ok (t', fs', e)) -> config t' = config t.
Proof.
  intros H. destruct (Run_inv _ _ _ _ _ _ H) as (tr & s & _ & Hs & _ & Hafter).
  destruct (Steps_config _ _ _ Hs) as [Hcfg _]. cbn [start shared] in Hcfg.
  rewrite <- Hcfg.
  destruct (after_Wait_stages _ _ _ _ _ _ Hafter) as (t1 & e1 & Hm & Hrest).
  apply SetMetrics_frame in Hm. destruct Hm as (C1 & _).
  change (config (Tester.with_EndAt (elapsed_total env) (shared s)))
    with (config (shared s)) in C1.
  rewrite <- C1.
  destruct e1 as [err|]; [destruct Hrest as (-> & _); reflexivity|].
  destruct Hrest as (fs1 & g & _ & Hrest).
  destruct g as [err|]; [destruct Hrest as (-> & _); reflexivity|].
  destruct Hrest as (x & _ & Hrest).
  destruct x as [err|]; destruct Hrest as (-> & _); reflexivity.
Qed.

Lemma Run_keeps_configuration_witness :
  let t := Tester.with_requests 2 (Tester.with_URL "http://fake.url" default_tester) in
  let env := {| boxplot_png := Ok ""; histogram_png := Ok "";
                create_err := None; write_err := None;
                elapsed_total := 5000000 |} in
  exists t' fs' e,
    Run env (fun _ => None) t (Ok (t', fs', e)) /\ config t' = config t.
Proof.
  intros t env.
  pose proof (two_successes_Run env (fun _ => None) t eq_refl eq_refl) as HRun.
  assert (E : exists t' fs' e,
             after_Wait env (fun _ => None)
               (DoRequest [Responds 1500000 200; Responds 2500000 200] t)
             = Ok (t', fs', e))
    by (vm_compute; eexists _, _, _; reflexivity).
  destruct E as (t' & fs' & e & E). rewrite E in HRun.
  exists t', fs', e. split; [exact HRun|].
  exact (Run_keeps_configuration _ _ _ _ _ _ HRun).
Defined.

(** X10.  Without the two flags [Run] writes no file: when neither graphs
    nor the stats file are asked for, the files are after [Run] what they
    were before, whatever [Run] returns. *)
Theorem Run_without_flags_writes_no_file (env : RunEnv) (fs : os.FS)
    (t t' : Tester.t) (fs' : os.FS) (e : option error) :
  Tester.Graphs t = false ->
  Tester.ExportStats t = false ->
  Run env fs t (Ok (t', fs', e)) ->
  fs' = fs.
Proof.
  intros Hg Hx H. destruct (Run_inv _ _ _ _ _ _ H) as (tr & s & _ & Hs & _ & Hafter).
  destruct (Steps_config _ _ _ Hs) as [Hcfg _]. cbn [start shared] in Hcfg.
  destruct (after_Wait_stages _ _ _ _ _ _ Hafter) as (t1 & e1 & Hm & Hrest).
  apply SetMetrics_frame in Hm. destruct Hm as (C1 & _).
  change (config (Tester.with_EndAt (elapsed_total env) (shared s)))
    with (config (shared s)) in C1.
  rewrite Hcfg in C1. unfold config in C1.
  injection C1 as _ _ Ex Eg _ _ _ _. rewrite Hx in Ex. rewrite Hg in Eg.
  destruct e1 as [err|]; [destruct Hrest as (_ & -> & _); reflexivity|].
  destruct Hrest as (fs1 & g & Hgraphs & Hrest).
  rewrite Eg in Hgraphs. destruct Hgraphs as [-> ->].
  destruct Hrest as (x & Hexport & _).
  rewrite Ex in Hexport. destruct Hexport as [-> _]. reflexivity.
Qed.

Lemma Run_without_flags_writes_no_file_witness :
  let t := Tester.with_requests 2 (Tester.with_URL "http://fake.url" default_tester) in
  let env := {| boxplot_png := Ok ""; histogram_png := Ok "";
                create_err := None; write_err := None;
                elapsed_total := 5000000 |} in
  exists t' e, Run env (fun _ => None) t (Ok (t', fun _ => None, e)).
Proof.
  intros t env.
  pose proof (two_successes_Run env (fun _ => None) t eq_refl eq_refl) as HRun.
  assert (E : exists t' fs' e,
             after_Wait env (fun _ => None)
               (DoRequest [Responds 1500000 200; Responds 2500000 200] t)
             = Ok (t', fs', e))
    by (vm_compute; eexists _, _, _; reflexivity).
  destruct E as (t' & fs' & e & E). rewrite E in HRun.
  exists t', e.
  pose proof (Run_without_flags_writes_no_file env _ t t' fs' e eq_refl eq_refl HRun)
    as Hfs.
  rewrite Hfs in HRun. exact HRun.
Defined.

(** X11.  The report is printed only when [Run] succeeds: when [Run]
    returns no error, stdout has gained the three lines of the report, made
    from the URL, the rounded duration and the stats the tester is left
    with; when [Run] returns an error, stdout is as it was. *)
Theorem Run_reports_only_on_success (env : RunEnv) (fs : os.FS)
    (t t' : Tester.t) (fs' : os.FS) (e : option error) :
  Run env fs t (Ok (t', fs', e)) ->
  Tester.stdout t' =
    match e with
    | None => (Tester.stdout t ++ report t')%list
    | Some _ => Tester.stdout t
    end.
Proof.
  intros H. destruct (Run_inv _ _ _ _ _ _ H) as (tr & s & _ & Hs & _ & Hafter).
  destruct (Steps_summary _ _ _ Hs) as [_ Hout]. cbn [start shared] in Hout.
  destruct (after_Wait_stages _ _ _ _ _ _ Hafter) as (t1 & e1 & Hm & Hrest).
  apply SetMetrics_frame in Hm. destruct Hm as (_ & _ & O1 & _).
  change (Tester.stdout (Tester.with_EndAt (elapsed_total env) (shared s)))
    with (Tester.stdout (shared s)) in O1.
  rewrite Hout in O1.
  destruct e1 as [err|]; [destruct Hrest as (-> & _ & ->); exact O1|].
  destruct Hrest as (fs1 & g & _ & Hrest).
  destruct g as [err|]; [destruct Hrest as (-> & _ & ->); exact O1|].
  destruct Hrest as (x & _ & Hrest).
  destruct x as [err|]; destruct Hrest as (-> & ->); [exact O1|].
  cbn [Tester.stdout Tester.with_stdout]. rewrite O1. reflexivity.
Qed.

Lemma Run_reports_only_on_success_witness :
  let t := Tester.with_requests 2 (Tester.with_URL "http://fake.url" default_tester) in
  let env := {| boxplot_png := Ok ""; histogram_png := Ok "";
                create_err := None; write_err := None;
                elapsed_total := 5000000 |} in
  exists t' fs',
    Run env (fun _ => None) t (Ok (t', fs', None)) /\
    Tester.stdout t' = report t'.
Proof.
  intros t env.
  pose proof (two_successes_Run env (fun _ => None) t eq_refl eq_refl) as HRun.
  assert (E : exists t' fs',
             after_Wait env (fun _ => None)
               (DoRequest [Responds 1500000 200; Responds 2500000 200] t)
             = Ok (t', fs', None))
    by (vm_compute; eexists _, _; reflexivity).
  destruct E as (t' & fs' & E). rewrite E in HRun.
  exists t', fs'. split; [exact HRun|].
  exact (Run_reports_only_on_success _ _ _ _ _ _ HRun).
Defined.

(** X12.  The stats file holds the line of the final stats: when the stats
    file is asked for and [Run] returns no error, the file [statsfile.txt]
    under the output path holds the line [WriteStatsFile] makes of the stats
    the tester is left with. *)
Theorem Run_exports_final_stats (env : RunEnv) (fs : os.FS)
    (t t' : Tester.t) (fs' : os.FS) :
  Tester.ExportStats t = true ->
  Run env fs t (Ok (t', fs', None)) ->
  fs' (Tester.OutputPath t ++ "/" ++ "statsfile.txt")%string
  = Some (stats_line (Tester.stats t')).
Proof.
  intros Hx H. destruct (Run_inv _ _ _ _ _ _ H) as (tr & s & _ & Hs & _ & Hafter).
  destruct (Steps_config _ _ _ Hs) as [Hcfg _]. cbn [start shared] in Hcfg.
  destruct (after_Wait_stages _ _ _ _ _ _ Hafter) as (t1 & e1 & Hm & Hrest).
  apply SetMetrics_frame in Hm. destruct Hm as (C1 & _).
  change (config (Tester.with_EndAt (elapsed_total env) (shared s)))
    with (config (shared s)) in C1.
  rewrite Hcfg in C1. unfold config in C1.
  injection C1 as _ _ Ex _ Ep _ _ _. rewrite Hx in Ex.
  destruct e1 as [err|]; [destruct Hrest as (_ & _ & [=])|].
  destruct Hrest as (fs1 & g & _ & Hrest).
  destruct g as [err|]; [destruct Hrest as (_ & _ & [=])|].
  destruct Hrest as (x & Hexport & Hrest).
  destruct x as [err|]; [destruct Hrest as (_ & [=])|].
  destruct Hrest as (-> & _). rewrite Ex in Hexport.
  destruct (create_err env); [destruct Hexport as (_ & [=])|].
  destruct (write_err env); [destruct Hexport as (_ & [=])|].
  destruct Hexport as (-> & _). rewrite Ep.
  unfold os.put. rewrite String.eqb_refl. reflexivity.
Qed.

Lemma Run_exports_final_stats_witness :
  let t := Tester.with_ExportStats true
             (Tester.with_requests 2 (Tester.with_URL "http://fake.url" default_tester)) in
  let env := {| boxplot_png := Ok ""; histogram_png := Ok "";
                create_err := None; write_err := None;
                elapsed_total := 5000000 |} in
  exists t' fs',
    Run env (fun _ => None) t (Ok (t', fs', None)) /\
    fs' ".//statsfile.txt"%string = Some "http://fake.url,2,2,0,1.500,2.500,2.500"%string.
Proof.
  intros t env.
  pose proof (two_successes_Run env (fun _ => None) t eq_refl eq_refl) as HRun.
  remember (after_Wait env (fun _ => None)
              (DoRequest [Responds 1500000 200; Responds 2500000 200] t)) as r eqn:Er.
  vm_compute in Er. subst r.
  eexists _, _. split; [exact HRun|].
  pose proof (Run_exports_final_stats env _ t _ _ eq_refl HRun) as Hfile.
  vm_compute in Hfile. vm_compute. exact Hfile.
Defined.



(** X14.  A write that fails has already replaced the stats file: when
    the stats file is asked for, graphs are not, the file is created and
    writing to it fails, [Run] returns the error of the write, and
    [statsfile.txt] under the output path is a file made by this run (what
    was there before is gone), no other file being touched; unless no time
    was recorded, in which case no file is written at all. *)
Theorem Run_failed_write_replaces_file (env : RunEnv) (fs : os.FS)
    (t t' : Tester.t) (fs' : os.FS) (e : option error) (err : error) :
  Tester.Graphs t = false ->
  Tester.ExportStats t = true ->
  create_err env = None ->
  write_err env = Some err ->
  Run env fs t (Ok (t', fs', e)) ->
  (e = Some ErrTimeNotRecorded /\ fs' = fs) \/
  (e = Some err /\
   exists content,
     fs' = os.put fs (Tester.OutputPath t ++ "/" ++ "statsfile.txt") content).
Proof.
  intros Hg Hx Hcreate Hwrite H.
  destruct (Run_inv _ _ _ _ _ _ H) as (tr & s & _ & Hs & _ & Hafter).
  destruct (Steps_config _ _ _ Hs) as [Hcfg _]. cbn [start shared] in Hcfg.
  destruct (after_Wait_stages _ _ _ _ _ _ Hafter) as (t1 & e1 & Hm & Hrest).
  apply SetMetrics_frame in Hm. destruct Hm as (C1 & _ & _ & _ & He1).
  change (config (Tester.with_EndAt (elapsed_total env) (shared s)))
    with (config (shared s)) in C1.
  rewrite Hcfg in C1. unfold config in C1.
  injection C1 as _ _ Ex Eg Ep _ _ _. rewrite Hg in Eg. rewrite Hx in Ex.
  destruct e1 as [err1|].
  - destruct He1 as (-> & _). destruct Hrest as (_ & -> & ->). left. split; reflexivity.
  - destruct Hrest as (fs1 & g & Hgraphs & Hrest).
    rewrite Eg in Hgraphs. destruct Hgraphs as [-> ->].
    destruct Hrest as (x & Hexport & Hrest).
    rewrite Ex, Hcreate, Hwrite in Hexport. destruct Hexport as [-> ->].
    destruct Hrest as (_ & ->). right. rewrite Ep.
    split; [reflexivity | exists ""%string; reflexivity].
Qed.

Lemma Run_failed_write_replaces_file_witness :
  let t := Tester.with_ExportStats true
             (Tester.with_requests 2 (Tester.with_URL "http://fake.url" default_tester)) in
  let env := {| boxplot_png := Ok "box"; histogram_png := Ok "hist";
                create_err := None; write_err := Some (ErrExternal "disk full");
                elapsed_total := 5000000 |} in
  exists t' fs' content,
    Run env (fun _ => None) t (Ok (t', fs', Some (ErrExternal "disk full"))) /\
    fs' = os.put (fun _ => None) ".//statsfile.txt" content.
Proof.
  intros t env.
  pose proof (two_successes_Run env (fun _ => None) t eq_refl eq_refl) as HRun.
  remember (after_Wait env (fun _ => None)
              (DoRequest [Responds 1500000 200; Responds 2500000 200] t)) as r eqn:Er.
  vm_compute in Er. subst r.
  destruct (Run_failed_write_replaces_file env _ t _ _ _ (ErrExternal "disk full")
              eq_refl eq_refl eq_refl eq_refl HRun) as [[[=] _]|[_ [content Hfs]]].
  eexists _, _, content. split; [exact HRun | exact Hfs].
Defined.

(** X15.  With no worker nothing is requested: when the concurrency is 0
    and the recorder is empty, [Run] makes no call at all, however many
    requests were asked for; it leaves the tester as it was but for the
    duration, writes no file, and returns the error that no time was
    recorded. *)
Theorem Run_without_worker (env : RunEnv) (fs : os.FS) (t : Tester.t)
    (r : result (Tester.t * os.FS * option error)) :
  Tester.Concurrency t = 0 ->
  Tester.TimeRecorder t = [] ->
  Run env fs t r ->
  r = Ok (Tester.with_EndAt (elapsed_total env) t, fs, Some ErrTimeNotRecorded).
Proof.
  intros Hc Hempty H. inversion H as [Hneg|tr s _ Hs Hfin Hafter]; [lia|].
  unfold start in Hs. rewrite Hc in Hs. cbn [Z.to_nat repeat] in Hs.
  assert (E : s = {| shared := t; tokens := Tester.requests t; workers := [] |}).
  { inversion Hs as [|s0 l s1 tr' s2 Hstep _]; [reflexivity|].
    exfalso. inversion Hstep as [t0 n0 before p after a t1 n1 p1 Hw Ews].
    destruct before; discriminate. }
  subst s. cbn [shared]. unfold after_Wait.
  rewrite SetMetrics_empty by exact Hempty. reflexivity.
Qed.

Lemma Run_without_worker_witness :
  let t := Tester.with_Concurrency 0
             (Tester.with_requests 2 (Tester.with_URL "http://fake.url" default_tester)) in
  let env := {| boxplot_png := Ok ""; histogram_png := Ok "";
                create_err := None; write_err := None;
                elapsed_total := 5000000 |} in
  Run env (fun _ => None) t
    (Ok (Tester.with_EndAt 5000000 t, fun _ => None, Some ErrTimeNotRecorded)).
Proof.
  intros t env.
  assert (HRun : Run env (fun _ => None) t (after_Wait env (fun _ => None) t)).
  { apply (Run_workers env (fun _ => None) t []
             {| shared := t; tokens := 2; workers := [] |}).
    - vm_compute. discriminate.
    - apply Steps_nil.
    - constructor. }
  rewrite (Run_without_worker env _ t _ eq_refl eq_refl HRun) in HRun.
  exact HRun.
Defined.

(* ================================================================= *)
(** ** SetMetrics: more on the percentiles *)

(** What [SetMetrics] computes on [n] samples, [1 <= n < max_samples]. *)
Lemma SetMetrics_value t :
  let n := len (Tester.TimeRecorder t) in
  let sorted := sort.Slice F64.ltb (Tester.TimeRecorder t) in
  1 <= n < max_samples ->
  exists p50 p90 p99,
    nth_error sorted (Z.to_nat (round_ratio (n * 50) 100 - 1)) = Some p50 /\
    nth_error sorted (Z.to_nat (round_ratio (n * 90) 100 - 1)) = Some p90 /\
    nth_error sorted (Z.to_nat (round_ratio (n * 99) 100 - 1)) = Some p99 /\
    SetMetrics t =
      Ok (Tester.with_stats
            (Stats.mk (Tester.URL t)
               (F64.div (float_sum sorted) (F64.of_int n))
               p50 p90 p99
               (Stats.Failures (Tester.stats t))
               (Stats.Requests (Tester.stats t))
               (Stats.Successes (Tester.stats t)))
            (Tester.with_times sorted t),
          None).
Proof.
  intros n sorted Hn.
  assert (Hlen : len sorted = n) by apply Slice_length.
  destruct (percentile_indices n Hn) as ((E50 & R50) & (E90 & R90) & (E99 & R99)).
  destruct (index_in_range sorted (round_ratio (n * 50) 100 - 1) ltac:(lia))
    as (p50 & I50 & N50).
  destruct (index_in_range sorted (round_ratio (n * 90) 100 - 1) ltac:(lia))
    as (p90 & I90 & N90).
  destruct (index_in_range sorted (round_ratio (n * 99) 100 - 1) ltac:(lia))
    as (p99 & I99 & N99).
  exists p50, p90, p99.
  split; [exact N50|]. split; [exact N90|]. split; [exact N99|].
  unfold SetMetrics. fold n.
  replace (n <? 1) with false by (symmetry; apply Z.ltb_ge; lia).
  fold sorted. rewrite Hlen, E50, E90, E99, I50, I90, I99. cbn [bind].
  rewrite count_and_total_spec by (rewrite Hlen; unfold max_samples in Hn; lia).
  rewrite Hlen. reflexivity.
Qed.

Lemma leb_refl x : F64.is_nan x = false -> F64.leb x x = true.
Proof.
  intros H. apply not_ltb_leb; try exact H.
  unfold F64.ltb, SFltb.
  destruct (SFcompare x x) as [[]|] eqn:E; try reflexivity.
  pose proof (SFcompare_swap x x) as S. rewrite E in S. discriminate S.
Qed.

(** In an ascending list an element is at most the ones after it. *)
Lemma ascending_nth xs i j a b :
  Forall (fun x => F64.is_nan x = false) xs ->
  ascending xs ->
  (i <= j)%nat ->
  nth_error xs i = Some a -> nth_error xs j = Some b ->
  F64.leb a b = true.
Proof.
  intros Hnan Hasc. apply ascending_strongly in Hasc.
  revert i j. induction Hasc as [|x xs Hs IH Hx]; intros i j Hij Hi Hj.
  - destruct i; discriminate.
  - inversion Hnan as [|? ? Hxn Hrest]; subst.
    destruct i as [|i], j as [|j]; cbn [nth_error] in *.
    + injection Hi as <-. injection Hj as <-. apply leb_refl, Hxn.
    + injection Hi as <-. apply nth_error_In in Hj.
      rewrite Forall_forall in Hx. apply Hx, Hj.
    + lia.
    + apply (IH Hrest i j); [lia | assumption ..].
Qed.

Lemma round_ratio_mono a b : a <= b -> round_ratio a 100 <= round_ratio b 100.
Proof. intros H. unfold round_ratio. apply Z.div_le_mono; lia. Qed.

(** X16.  The percentiles are samples, in order: on [n] samples without
    NaN, [1 <= n], the P50, P90 and P99 that [SetMetrics] sets are three of
    the samples and P50 <= P90 <= P99. *)
Theorem SetMetrics_percentiles_ordered (t t' : Tester.t) :
  1 <= len (Tester.TimeRecorder t) < max_samples ->
  Forall (fun x => F64.is_nan x = false) (Tester.TimeRecorder t) ->
  SetMetrics t = Ok (t', None) ->
  let s := Tester.stats t' in
  In (Stats.P50 s) (Tester.TimeRecorder t) /\
  In (Stats.P90 s) (Tester.TimeRecorder t) /\
  In (Stats.P99 s) (Tester.TimeRecorder t) /\
  F64.leb (Stats.P50 s) (Stats.P90 s) = true /\
  F64.leb (Stats.P90 s) (Stats.P99 s) = true.
Proof.
  intros Hn Hnan E.
  destruct (SetMetrics_value t Hn) as (p50 & p90 & p99 & N50 & N90 & N99 & V).
  rewrite V in E. injection E as <-.
  cbn [Tester.stats Tester.with_stats Stats.P50 Stats.P90 Stats.P99].
  destruct (Slice_sorted _ Hnan) as [Hasc Hnan'].
  pose proof (Slice_perm F64.ltb (Tester.TimeRecorder t)) as Hperm.
  destruct (percentile_indices _ Hn) as ((_ & R50) & (_ & R90) & (_ & R99)).
  set (n := len (Tester.TimeRecorder t)) in *.
  assert (M1 : round_ratio (n * 50) 100 <= round_ratio (n * 90) 100)
    by (apply round_ratio_mono; lia).
  assert (M2 : round_ratio (n * 90) 100 <= round_ratio (n * 99) 100)
    by (apply round_ratio_mono; lia).
  assert (L1 : (Z.to_nat (round_ratio (n * 50) 100 - 1)
                <= Z.to_nat (round_ratio (n * 90) 100 - 1))%nat) by lia.
  assert (L2 : (Z.to_nat (round_ratio (n * 90) 100 - 1)
                <= Z.to_nat (round_ratio (n * 99) 100 - 1))%nat) by lia.
  repeat split.
  - apply (Permutation_in _ (Permutation_sym Hperm)), (nth_error_In _ _ N50).
  - apply (Permutation_in _ (Permutation_sym Hperm)), (nth_error_In _ _ N90).
  - apply (Permutation_in _ (Permutation_sym Hperm)), (nth_error_In _ _ N99).
  - apply (ascending_nth _ _ _ _ _ Hnan' Hasc L1 N50 N90).
  - apply (ascending_nth _ _ _ _ _ Hnan' Hasc L2 N90 N99).
Qed.

Lemma SetMetrics_percentiles_ordered_witness :
  let t := Tester.with_times (map F64.of_int [13; 5; 11; 7; 8; 10; 6]) default_tester in
  exists t',
    SetMetrics t = Ok (t', None) /\
    F64.leb (Stats.P50 (Tester.stats t')) (Stats.P90 (Tester.stats t')) = true /\
    F64.leb (Stats.P90 (Tester.stats t')) (Stats.P99 (Tester.stats t')) = true.
Proof.
  intros t.
  assert (E : exists t', SetMetrics t = Ok (t', None))
    by (vm_compute; eexists; reflexivity).
  destruct E as (t' & E). exists t'. split; [exact E|].
  assert (Hn : 1 <= len (Tester.TimeRecorder t) < max_samples)
    by (vm_compute; split; [discriminate | reflexivity]).
  assert (Hnan : Forall (fun x => F64.is_nan x = false) (Tester.TimeRecorder t))
    by (repeat constructor).
  destruct (SetMetrics_percentiles_ordered t t' Hn Hnan E) as (_ & _ & _ & H1 & H2).
  split; assumption.
Defined.

Lemma leb_not_ltb x y : F64.leb x y = true -> F64.ltb y x = false.
Proof.
  unfold F64.leb, F64.ltb, SFleb, SFltb. rewrite (SFcompare_swap x y).
  destruct (SFcompare x y) as [[]|]; cbn; congruence.
Qed.

(** Sorting what is in order changes nothing. *)
Lemma Slice_ascending xs : ascending xs -> sort.Slice F64.ltb xs = xs.
Proof.
  induction 1 as [|x xs Hs IH Hx]; [reflexivity|].
  cbn [sort.Slice]. rewrite IH.
  destruct Hx as [|y ys Hxy]; [reflexivity|].
  cbn [sort.insert]. rewrite (leb_not_ltb _ _ Hxy). reflexivity.
Qed.

(** X17.  [SetMetrics] twice is [SetMetrics] once: on [n] samples without
    NaN and without a negative zero, [1 <= n], the tester that [SetMetrics]
    leaves is left unchanged by a second call (the samples are sorted
    already, the same percentiles and the same mean come out). *)
Theorem SetMetrics_idempotent (t t' : Tester.t) :
  1 <= len (Tester.TimeRecorder t) < max_samples ->
  Forall (fun x => F64.is_nan x = false) (Tester.TimeRecorder t) ->
  Forall (fun x => x <> S754_zero true) (Tester.TimeRecorder t) ->
  SetMetrics t = Ok (t', None) ->
  SetMetrics t' = Ok (t', None).
Proof.
  intros Hn Hnan _ E.
  destruct (SetMetrics_value t Hn) as (p50 & p90 & p99 & N50 & N90 & N99 & V).
  rewrite V in E. injection E as <-.
  destruct (Slice_sorted _ Hnan) as [Hasc _].
  set (sorted := sort.Slice F64.ltb (Tester.TimeRecorder t)) in *.
  set (t1 := Tester.with_stats _ _).
  assert (Ht : Tester.TimeRecorder t1 = sorted) by reflexivity.
  assert (Hn1 : 1 <= len (Tester.TimeRecorder t1) < max_samples).
  { rewrite Ht. unfold sorted. rewrite Slice_length. exact Hn. }
  destruct (SetMetrics_value t1 Hn1) as (q50 & q90 & q99 & M50 & M90 & M99 & W).
  rewrite W. rewrite Ht in *. rewrite (Slice_ascending _ Hasc) in *.
  assert (Hlen : len sorted = len (Tester.TimeRecorder t)) by apply Slice_length.
  rewrite Hlen in *.
  replace q50 with p50 by congruence.
  replace q90 with p90 by congruence.
  replace q99 with p99 by congruence.
  reflexivity.
Qed.

Lemma SetMetrics_idempotent_witness :
  let t := Tester.with_times (map F64.of_int [13; 5; 11; 7; 8; 10; 6]) default_tester in
  exists t', SetMetrics t = Ok (t', None) /\ SetMetrics t' = Ok (t', None).
Proof.
  intros t.
  assert (E : exists t', SetMetrics t = Ok (t', None))
    by (vm_compute; eexists; reflexivity).
  destruct E as (t' & E). exists t'. split; [exact E|].
  apply (SetMetrics_idempotent t t'); [| | |exact E].
  - vm_compute. split; [discriminate | reflexivity].
  - repeat constructor.
  - repeat constructor; discriminate.
Defined.

(** X18.  The statistics do not depend on the order of the samples: for
    samples without NaN and without a negative zero, [SetMetrics] on any
    rearrangement of the recorder comes to the same as on the recorder
    itself, the tester it leaves included.  So the interleaving of the
    workers, which decides the order in the recorder, does not show in the
    statistics. *)
Theorem SetMetrics_order_independent (t : Tester.t) (ys : list F64.float64) :
  Forall (fun x => F64.is_nan x = false) (Tester.TimeRecorder t) ->
  Forall (fun x => x <> S754_zero true) (Tester.TimeRecorder t) ->
  Permutation (Tester.TimeRecorder t) ys ->
  SetMetrics (Tester.with_times ys t) = SetMetrics t.
Proof.
  intros Hnan Hz Hperm.
  assert (Hnan' : Forall (fun x => F64.is_nan x = false) ys).
  { rewrite Forall_forall in *. intros x Hx.
    apply Hnan, (Permutation_in _ (Permutation_sym Hperm)), Hx. }
  destruct (Slice_sorted ys Hnan') as [Hasc _].
  assert (E : sort.Slice F64.ltb ys = sort.Slice F64.ltb (Tester.TimeRecorder t)).
  { apply Slice_unique; try assumption.
    eapply Permutation_trans; [exact Hperm | apply Slice_perm]. }
  assert (L : len ys = len (Tester.TimeRecorder t)).
  { unfold len. rewrite (Permutation_length Hperm). reflexivity. }
  unfold SetMetrics.
  cbn [Tester.TimeRecorder Tester.with_times Tester.stats Tester.URL].
  rewrite L, E, !Slice_length.
  destruct (len (Tester.TimeRecorder t) <? 1) eqn:Hlt; [|reflexivity].
  apply Z.ltb_lt in Hlt.
  destruct (Tester.TimeRecorder t) as [|x xs] eqn:Et;
    [|unfold len in Hlt; cbn [List.length] in Hlt; lia].
  apply Permutation_nil in Hperm. subst ys.
  destruct t. cbn [Tester.TimeRecorder] in Et. subst. reflexivity.
Qed.

Lemma SetMetrics_order_independent_witness :
  let t := Tester.with_times (map F64.of_int [5; 6; 7; 8; 10; 11; 13]) default_tester in
  SetMetrics (Tester.with_times (map F64.of_int [6; 5; 7; 8; 10; 11; 13]) t)
  = SetMetrics t.
Proof.
  intros t. apply (SetMetrics_order_independent t).
  - repeat constructor.
  - repeat constructor; discriminate.
  - apply perm_swap.
Defined.

(* ================================================================= *)
(** ** Comparing a record with itself *)

Lemma sub_self x : F64.is_finite x = true -> F64.sub x x = F64.zero.
Proof.
  destruct x as [s|s| |s m e]; try discriminate; intros _.
  - destruct s; reflexivity.
  - unfold F64.sub, SFsub. rewrite Z.sub_diag. reflexivity.
Qed.

(** X19.  A record compared with itself shows no difference: when its
    three percentiles are finite, [CompareStats s s] is the zero
    [StatsDelta]. *)
Theorem CompareStats_self (s : Stats.t) :
  F64.is_finite (Stats.P50 s) = true ->
  F64.is_finite (Stats.P90 s) = true ->
  F64.is_finite (Stats.P99 s) = true ->
  CompareStats s s = StatsDelta.zero.
Proof.
  intros H50 H90 H99. unfold CompareStats, GoInt.sub.
  rewrite (sub_self _ H50), (sub_self _ H90), (sub_self _ H99), !Z.sub_diag.
  reflexivity.
Qed.

Lemma CompareStats_self_witness :
  let s := Stats.mk "http://fake.url" (F64.of_int 100) (F64.of_int 20)
             (F64.of_int 30) (F64.of_int 100) 2 20 18 in
  CompareStats s s = StatsDelta.zero.
Proof.
  intros s. apply (CompareStats_self s); reflexivity.
Defined.

(* ================================================================= *)
(** ** The stats codec: more on reading *)

Lemma stats_line_fields s :
  url_ok (Stats.URL s) = true ->
  strings.Split (stats_line s) =
    [Stats.URL s; strconv.FormatInt (Stats.Requests s);
     strconv.FormatInt (Stats.Successes s); strconv.FormatInt (Stats.Failures s);
     strconv.FormatFloat3 (Stats.P50 s); strconv.FormatFloat3 (Stats.P90 s);
     strconv.FormatFloat3 (Stats.P99 s)].
Proof.
  intros Hurl. apply Split_seven; try exact Hurl;
    apply all_plain_url_ok;
    first [apply all_plain_FormatInt | apply all_plain_FormatFloat3].
Qed.

(** The loop body on the line of a record: the record without its mean. *)
Lemma read_record_stats_line s :
  url_ok (Stats.URL s) = true ->
  ints_ok s ->
  three_decimals (Stats.P50 s) ->
  three_decimals (Stats.P90 s) ->
  three_decimals (Stats.P99 s) ->
  read_record (stats_line s) = Ok (without_mean s).
Proof.
  intros Hurl (Hr & Hs & Hf) H50 H90 H99.
  unfold read_record. rewrite (stats_line_fields s Hurl).
  repeat match goal with
  | |- context [index (?a :: ?l) ?i] =>
      let v := eval cbv [index List.length nth_error Z.of_nat Z.to_nat Pos.of_succ_nat
                         Pos.succ Z.ltb Z.leb Z.compare Pos.compare Pos.compare_cont
                         Pos.to_nat Pos.iter_op Nat.add orb]
               in (index (a :: l) i) in
      change (index (a :: l) i) with v; cbn [bind]
  end.
  rewrite !Atoi_FormatInt by assumption. cbn [bind].
  unfold three_decimals in *. rewrite H50, H90, H99. cbn [bind].
  reflexivity.
Qed.

(** X20.  Decoding after encoding forgets the mean and nothing else: for a
    record whose URL has no comma and no line feed, whose counts are ints,
    whose percentiles are unchanged by printing with three decimals and
    parsing back, and whose line fits the scanner's buffer, [ReadStatsFile]
    on what [WriteStatsFile] wrote returns the one record with its mean set
    to zero, whatever the mean was. *)
Theorem ReadStatsFile_forgets_mean (s : Stats.t) :
  url_ok (Stats.URL s) = true ->
  ints_ok s ->
  three_decimals (Stats.P50 s) ->
  three_decimals (Stats.P90 s) ->
  three_decimals (Stats.P99 s) ->
  Bytes.len (stats_line s) < bufio.MaxScanTokenSize ->
  ReadStatsFile (io.data (fst (WriteStatsFile io.empty s))) = Ok [without_mean s].
Proof.
  intros Hurl Hints H50 H90 H99 Hlen.
  change (io.data (fst (WriteStatsFile io.empty s))) with (stats_line s).
  unfold ReadStatsFile. rewrite (stats_line_one_line s Hurl Hlen).
  cbn [read_records].
  rewrite (read_record_stats_line s Hurl Hints H50 H90 H99). reflexivity.
Qed.

Lemma ReadStatsFile_forgets_mean_witness :
  let s := Stats.mk "http://fake.url" (F64.of_int 100) (F64.of_ratio 100123 1000)
             (F64.of_int 150) (F64.of_ratio 198465 1000) 2 20 18 in
  ReadStatsFile (io.data (fst (WriteStatsFile io.empty s)))
  = Ok [Stats.mk "http://fake.url" F64.zero (F64.of_ratio 100123 1000)
          (F64.of_int 150) (F64.of_ratio 198465 1000) 2 20 18].
Proof.
  intros s.
  apply (ReadStatsFile_forgets_mean s).
  - reflexivity.
  - unfold ints_ok, GoInt.in_range, GoInt.min_int, GoInt.max_int. cbn. lia.
  - vm_compute. reflexivity.
  - vm_compute. reflexivity.
  - vm_compute. reflexivity.
  - vm_compute. reflexivity.
Defined.

Lemma read_record_mean line s : read_record line = Ok s -> Stats.Mean s = F64.zero.
Proof.
  unfold read_record.
  repeat match goal with
  | |- bind ?r _ = _ -> _ => destruct r; cbn [bind]; try discriminate
  end.
  intros [= <-]. reflexivity.
Qed.

(** The records come one for each line, in the order of the lines, after
    the ones read before. *)
Lemma read_records_lines lines acc stats :
  read_records lines acc = Ok stats ->
  exists new,
    stats = (acc ++ new)%list /\
    Forall2 (fun line s => read_record line = Ok s) lines new.
Proof.
  revert acc. induction lines as [|line rest IH]; intros acc.
  - cbn. intros [= <-]. exists []. split; [symmetry; apply List.app_nil_r | constructor].
  - cbn [read_records]. destruct (read_record line) as [r| |] eqn:E;
      cbn [bind]; try discriminate.
    intros H. destruct (IH _ H) as (new & -> & Hnew).
    exists (r :: new). split; [rewrite <- List.app_assoc; reflexivity|].
    constructor; assumption.
Qed.


(** X21.  A record read from a stats file has no mean: every record that
    [ReadStatsFile] returns has its mean at zero, whatever the file holds. *)
Theorem ReadStatsFile_mean_is_zero (r : string) (stats : list Stats.t) :
  ReadStatsFile r = Ok stats ->
  Forall (fun s => Stats.Mean s = F64.zero) stats.
Proof.
  unfold ReadStatsFile. destruct (bufio.ScanLines r) as [lines scanErr].
  destruct (read_records lines []) as [l| |] eqn:E; cbn [bind]; try discriminate.
  destruct scanErr; [discriminate|]. intros [= <-].
  destruct (read_records_lines _ _ _ E) as (new & -> & Hnew). clear E. cbn [app].
  induction Hnew as [|line s lines new Hs _ IH]; constructor.
  - apply (read_record_mean _ _ Hs).
  - exact IH.
Qed.

Lemma ReadStatsFile_mean_is_zero_witness :
  Forall (fun s => Stats.Mean s = F64.zero)
    [Stats.mk "http://fake.url" F64.zero (F64.of_int 20) (F64.of_int 30)
       (F64.of_int 100) 2 20 18].
Proof.
  apply (ReadStatsFile_mean_is_zero "http://fake.url,20,18,2,20.000,30.000,100.000").
  vm_compute. reflexivity.
Defined.

(** X22.  One record for each line, in order: when [ReadStatsFile] returns
    records, the scanner met no error, every line has seven fields at
    least, and the records are, in the order of the lines, what the fields
    of each line parse to. *)
Theorem ReadStatsFile_record_per_line (r : string) (stats : list Stats.t) :
  ReadStatsFile r = Ok stats ->
  snd (bufio.ScanLines r) = None /\
  Forall2 (fun line s => read_record line = Ok s /\ 7 <= len (strings.Split line))
    (fst (bufio.ScanLines r)) stats.
Proof.
  unfold ReadStatsFile. destruct (bufio.ScanLines r) as [lines scanErr].
  destruct (read_records lines []) as [l| |] eqn:E; cbn [bind]; try discriminate.
  destruct scanErr; [discriminate|]. intros [= <-]. split; [reflexivity|].
  destruct (read_records_lines _ _ _ E) as (new & -> & Hnew). clear E. cbn [app fst].
  induction Hnew as [|line s lines new Hs _ IH]; constructor; [|exact IH].
  split; [exact Hs|].
  destruct (Z.le_gt_cases 7 (len (strings.Split line))) as [H|H]; [exact H|].
  exfalso. revert Hs. unfold read_record.
  assert (Hpanic : forall i, 6 <= i ->
             index (strings.Split line) i = Panic "index out of range").
  { intros i Hi. unfold index, len in *.
    replace (Z.of_nat (List.length (strings.Split line)) <=? i) with true
      by (symmetry; apply Z.leb_le; lia).
    rewrite orb_true_r. reflexivity. }
  repeat match goal with
  | |- bind (index ?xs 6) _ = _ -> _ =>
      rewrite (Hpanic 6 ltac:(lia)); cbn [bind]; discriminate
  | |- bind ?x _ = _ -> _ => destruct x; cbn [bind]; try discriminate
  end.
Qed.

Lemma ReadStatsFile_record_per_line_witness :
  Forall2 (fun line s => read_record line = Ok s /\ 7 <= len (strings.Split line))
    ["a,1,1,0,1.000,1.000,1.000"%string; "b,2,1,1,2.000,2.000,2.000"%string]
    [Stats.mk "a" F64.zero (F64.of_int 1) (F64.of_int 1) (F64.of_int 1) 0 1 1;
     Stats.mk "b" F64.zero (F64.of_int 2) (F64.of_int 2) (F64.of_int 2) 1 2 1].
Proof.
  apply (ReadStatsFile_record_per_line
           (append "a,1,1,0,1.000,1.000,1.000"
              (String Bytes.LF "b,2,1,1,2.000,2.000,2.000"))).
  vm_compute. reflexivity.
Defined.





(** A line feed at the end of a text whose last line is not empty adds no
    line. *)
Lemma ScanLines_from_final_LF data line n :
  0 <= n ->
  Bytes.last_is Bytes.LF data = false ->
  (data = ""%string -> n <> 0) ->
  bufio.ScanLines_from (data ++ String Bytes.LF "") line n
  = bufio.ScanLines_from data line n.
Proof.
  revert line n. induction data as [|c data IH]; intros line n Hn Hlast Hne.
  - cbn. specialize (Hne eq_refl).
    replace (n =? 0) with false by (symmetry; apply Z.eqb_neq; exact Hne).
    reflexivity.
  - cbn [append bufio.ScanLines_from].
    assert (Hrest : Bytes.eqb c Bytes.LF = true -> data <> ""%string).
    { intros Hc ->. cbn in Hlast. congruence. }
    assert (Hlast' : data <> ""%string -> Bytes.last_is Bytes.LF data = false).
    { intros Hd. destruct data; [congruence | exact Hlast]. }
    destruct (Bytes.eqb c Bytes.LF) eqn:Hc.
    + rewrite IH; [reflexivity | lia | apply Hlast', Hrest; reflexivity
                  | intros E; exfalso; apply (Hrest eq_refl E)].
    + destruct (bufio.MaxScanTokenSize <=? n + 1); [reflexivity|].
      apply IH; [lia | | lia].
      destruct data; [reflexivity | exact Hlast].
Qed.

(** X24.  A final line feed is accepted: for a text that is not empty and
    does not end in a line feed, [ReadStatsFile] returns the same with a line
    feed added at the end as without. *)
Theorem ReadStatsFile_final_newline (r : string) :
  r <> ""%string ->
  Bytes.last_is Bytes.LF r = false ->
  ReadStatsFile (r ++ String Bytes.LF "") = ReadStatsFile r.
Proof.
  intros Hne Hlast. unfold ReadStatsFile, bufio.ScanLines.
  rewrite ScanLines_from_final_LF; [reflexivity | lia | exact Hlast | ].
  intros E. contradiction.
Qed.

Lemma ReadStatsFile_final_newline_witness :
  ReadStatsFile (append "http://fake.url,20,18,2,20.000,30.000,100.000"
                   (String Bytes.LF ""))
  = ReadStatsFile "http://fake.url,20,18,2,20.000,30.000,100.000".
Proof.
  apply ReadStatsFile_final_newline; [discriminate | reflexivity].
Defined.






(* ================================================================= *)
(** ** Construction: what a tester that was built satisfies *)

Lemma NewTester_applies url_Parse opts t :
  NewTester url_Parse opts = Ok t -> apply_options opts default_tester = Ok t.
Proof.
  unfold NewTester.
  destruct (apply_options opts default_tester) as [tester| |]; cbn [bind];
    try discriminate.
  destruct (String.eqb (Tester.URL tester) ""); [discriminate|].
  destruct (url_Parse (Tester.URL tester)) as [u| |]; cbn [bind]; try discriminate.
  destruct (String.eqb (url.Host u) ""); [discriminate|].
  destruct (Tester.requests tester <? 1); [discriminate|].
  intros [= <-]. reflexivity.
Qed.

(** X26.  A tester that was built can be run: when [NewTester] returns a
    tester, every option was applied without error, the URL is not empty,
    [url.Parse] accepts it with a host that is not empty, and the number of
    requests is at least 1. *)
Theorem NewTester_postcondition (url_Parse : string -> result url.URL)
    (opts : list Option) (t : Tester.t) :
  NewTester url_Parse opts = Ok t ->
  apply_options opts default_tester = Ok t /\
  Tester.URL t <> ""%string /\
  (exists u, url_Parse (Tester.URL t) = Ok u /\ url.Host u <> ""%string) /\
  1 <= Tester.requests t.
Proof.
  unfold NewTester.
  destruct (apply_options opts default_tester) as [tester| |]; cbn [bind];
    try discriminate.
  destruct (String.eqb (Tester.URL tester) "") eqn:Eu; [discriminate|].
  destruct (url_Parse (Tester.URL tester)) as [u| |] eqn:Ep; cbn [bind];
    try discriminate.
  destruct (String.eqb (url.Host u) "") eqn:Eh; [discriminate|].
  destruct (Tester.requests tester <? 1) eqn:Er; [discriminate|].
  intros [= <-]. apply String.eqb_neq in Eu, Eh. apply Z.ltb_ge in Er.
  split; [reflexivity|]. split; [exact Eu|]. split; [|exact Er].
  exists u. split; [exact Ep | exact Eh].
Qed.

Lemma NewTester_postcondition_witness :
  let t := Tester.with_requests 10 (Tester.with_URL "http://fake.url" default_tester) in
  Tester.URL t <> ""%string /\ 1 <= Tester.requests t.
Proof.
  intros t.
  destruct (NewTester_postcondition url_Parse_tests
              [WithURL "http://fake.url"; WithRequests 10] t eq_refl)
    as (_ & Hu & _ & Hr).
  split; assumption.
Defined.

Lemma package_option_keeps o t t' :
  package_option o -> o t = Ok t' ->
  Tester.stats t' = Tester.stats t /\
  Tester.TimeRecorder t' = Tester.TimeRecorder t /\
  Tester.EndAt t' = Tester.EndAt t.
Proof.
  intros Ho. destruct Ho as [fp args| | | |w|w| | | | |];
    try (intros [= <-]; repeat split; reflexivity).
  - unfold FromArgs. destruct args as [|sub rest]; [discriminate|].
    destruct (String.eqb sub "run"); [|discriminate].
    intros [= <-]. repeat split; reflexivity.
  - unfold WithStdout. destruct w; [|discriminate].
    intros [= <-]. repeat split; reflexivity.
  - unfold WithStderr. destruct w; [|discriminate].
    intros [= <-]. repeat split; reflexivity.
Qed.

Lemma apply_options_keeps opts t t' :
  Forall package_option opts -> apply_options opts t = Ok t' ->
  Tester.stats t' = Tester.stats t /\
  Tester.TimeRecorder t' = Tester.TimeRecorder t /\
  Tester.EndAt t' = Tester.EndAt t.
Proof.
  intros H. revert t. induction H as [|o opts Ho _ IH]; intros t.
  - intros [= <-]. repeat split; reflexivity.
  - cbn [apply_options]. destruct (o t) as [t1| |] eqn:E; cbn [bind]; try discriminate.
    intros H1. destruct (IH _ H1) as (A1 & A2 & A3).
    destruct (package_option_keeps _ _ _ Ho E) as (B1 & B2 & B3).
    repeat split; congruence.
Qed.

(** X27.  A tester that was built has counted and recorded nothing: when
    [NewTester] returns a tester from options of the package, the stats are
    the zero record, the recorder is empty and no duration is set, whatever
    the options were. *)
Theorem NewTester_starts_empty (url_Parse : string -> result url.URL)
    (opts : list Option) (t : Tester.t) :
  Forall package_option opts ->
  NewTester url_Parse opts = Ok t ->
  Tester.stats t = Stats.zero /\
  Tester.TimeRecorder t = [] /\
  Tester.EndAt t = 0.
Proof.
  intros Hopts H. apply NewTester_applies in H.
  apply (apply_options_keeps _ _ _ Hopts H).
Qed.

Lemma NewTester_starts_empty_witness :
  let t := Tester.with_requests 10 (Tester.with_URL "http://fake.url" default_tester) in
  Tester.stats t = Stats.zero /\ Tester.TimeRecorder t = [] /\ Tester.EndAt t = 0.
Proof.
  intros t.
  apply (NewTester_starts_empty url_Parse_tests
           [WithURL "http://fake.url"; WithRequests 10] t).
  - repeat constructor.
  - reflexivity.
Defined.

Lemma apply_options_Ok_app pre post t t' :
  apply_options (pre ++ post) t = Ok t' ->
  exists t1, apply_options pre t = Ok t1 /\ apply_options post t1 = Ok t'.
Proof.
  revert t. induction pre as [|o pre IH]; intros t.
  - cbn. intros H. exists t. split; [reflexivity | exact H].
  - cbn [app apply_options]. destruct (o t) as [t1| |]; cbn [bind]; try discriminate.
    apply IH.
Qed.

(** X28.  Only the subcommand [run] builds a tester: when [NewTester]
    returns a tester and [FromArgs args] is among its options, [args] starts
    with [run]; with no argument, or with any other first argument ([cmp]
    too, which the error message names), [NewTester] returns an error. *)
Theorem NewTester_needs_run (url_Parse : string -> result url.URL)
    (flag_Parse : list string -> Flags) (pre post : list Option)
    (args : list string) (t : Tester.t) :
  NewTester url_Parse (pre ++ FromArgs flag_Parse args :: post) = Ok t ->
  exists rest, args = "run"%string :: rest.
Proof.
  intros H. apply NewTester_applies in H. rename H into Ha.
  apply apply_options_Ok_app in Ha. destruct Ha as (t1 & _ & Ha).
  cbn [apply_options] in Ha. unfold FromArgs in Ha at 1.
  destruct args as [|sub rest]; [discriminate|].
  destruct (String.eqb sub "run") eqn:E; [|discriminate].
  apply String.eqb_eq in E. subst sub. exists rest. reflexivity.
Qed.

Lemma NewTester_needs_run_witness :
  exists rest, ["run"; "-u"; "http://fake.url"]%string = "run"%string :: rest.
Proof.
  apply (NewTester_needs_run url_Parse_tests flag_Parse_tests [] []
           ["run"; "-u"; "http://fake.url"]%string
           (Tester.with_ExportStats false
              (Tester.with_Concurrency 1
                 (Tester.with_Graphs false
                    (Tester.with_requests 1
                       (Tester.with_URL "http://fake.url" default_tester)))))).
  reflexivity.
Defined.

(** X29.  The concurrency is not checked: for every number [c], zero and
    the negative ones too, [NewTester] with [WithConcurrency c] as the last
    option returns what it returns without it, the tester having [c] as its
    concurrency. *)
Theorem NewTester_concurrency_unchecked (url_Parse : string -> result url.URL)
    (opts : list Option) (c : Z) :
  NewTester url_Parse (opts ++ [WithConcurrency c]) =
    match NewTester url_Parse opts with
    | Ok t => Ok (Tester.with_Concurrency c t)
    | r => r
    end.
Proof.
  unfold NewTester. rewrite apply_options_app.
  destruct (apply_options opts default_tester) as [tester| |]; cbn [bind];
    try reflexivity.
  cbn [apply_options WithConcurrency bind Tester.URL Tester.with_Concurrency
       Tester.requests].
  destruct (String.eqb (Tester.URL tester) ""); [reflexivity|].
  destruct (url_Parse (Tester.URL tester)) as [u| |]; cbn [bind]; try reflexivity.
  destruct (String.eqb (url.Host u) ""); [reflexivity|].
  destruct (Tester.requests tester <? 1); reflexivity.
Qed.

(** X30.  Percentiles that are numbers of thousandths go through the
    stats file unchanged: for a record whose P50, P90 and P99 are the
    float64 nearest to [n / 1000] for numbers [0 < n < 2^52] of thousandths
    (what [%.3f] prints exactly), whose URL has no comma and no line feed,
    whose counts are ints and whose line fits the scanner's buffer,
    [ReadStatsFile] on what [WriteStatsFile] wrote returns the record with
    its mean set to zero. *)
Theorem round_trip_of_thousandths (url : string) (mean : F64.float64)
    (n50 n90 n99 failures requests successes : Z) :
  let s := Stats.mk url mean
             (F64.of_ratio (Z.to_pos n50) 1000)
             (F64.of_ratio (Z.to_pos n90) 1000)
             (F64.of_ratio (Z.to_pos n99) 1000)
             failures requests successes in
  url_ok url = true ->
  ints_ok s ->
  0 < n50 < 2 ^ 52 -> 0 < n90 < 2 ^ 52 -> 0 < n99 < 2 ^ 52 ->
  Bytes.len (stats_line s) < bufio.MaxScanTokenSize ->
  ReadStatsFile (io.data (fst (WriteStatsFile io.empty s))) = Ok [without_mean s].
Proof.
  intros s Hurl Hints H50 H90 H99 Hlen.
  change (io.data (fst (WriteStatsFile io.empty s))) with (stats_line s).
  unfold ReadStatsFile. rewrite (stats_line_one_line s Hurl Hlen).
  cbn [read_records].
  rewrite (read_record_stats_line s Hurl Hints
             (three_decimals_of_ratio n50 H50)
             (three_decimals_of_ratio n90 H90)
             (three_decimals_of_ratio n99 H99)).
  reflexivity.
Qed.

Lemma round_trip_of_thousandths_witness :
  let s := Stats.mk "http://fake.url" (F64.of_int 100) (F64.of_ratio 100123 1000)
             (F64.of_ratio 150000 1000) (F64.of_ratio 198465 1000) 2 20 18 in
  stats_line s = "http://fake.url,20,18,2,100.123,150.000,198.465"%string /\
  ReadStatsFile (io.data (fst (WriteStatsFile io.empty s))) = Ok [without_mean s].
Proof.
  intros s. split; [vm_compute; reflexivity|].
  apply (round_trip_of_thousandths "http://fake.url" (F64.of_int 100)
           100123 150000 198465 2 20 18).
  - reflexivity.
  - unfold ints_ok, GoInt.in_range, GoInt.min_int, GoInt.max_int. cbn. lia.
  - lia.
  - lia.
  - lia.
  - vm_compute. reflexivity.
Defined.
